(** * Assembla repository metadata fetcher: a shallow embedding

    The development follows [assembla_repositories.py]: the values the
    program handles are the JSON payloads of the service and the
    dictionaries the program builds from them, the effects are HTTP GET
    requests and console lines, and the control flow is Python's, with
    exceptions that leave the assignments made before them in place. *)

From stdpp Require Import gmap strings list fin_maps pretty.
From Stdlib Require Import ZArith Lia.

#[local] Set Warnings "-register-all".
Local Open Scope Z_scope.

(** ** Python values *)

(** A decoded JSON payload, which is also what the program stores in its
    own dictionaries.  A JSON object keeps its pairs in insertion order,
    with distinct keys, and is read through [dict_lookup].  The only
    floats the program makes are results of [round(x, 2)]: [PFloat2 h] is
    the float that prints as the decimal [h / 100]. *)
Inductive pyval : Type :=
  | PNone
  | PBool (b : bool)
  | PInt (n : Z)
  | PFloat2 (h : Z)
  | PStr (s : string)
  | PList (l : list pyval)
  | PDict (d : list (string * pyval)).

Fixpoint dict_lookup (k : string) (d : list (string * pyval)) : option pyval :=
  match d with
  | [] => None
  | (k', v) :: d' => if String.eqb k k' then Some v else dict_lookup k d'
  end.

(** The numeric value of a number, in hundredths; [bool] is a subclass of
    [int] in Python, so [True] counts as 1. *)
Definition hundredths (v : pyval) : option Z :=
  match v with
  | PBool b => Some (100 * Z.b2z b)
  | PInt n => Some (100 * n)
  | PFloat2 h => Some h
  | _ => None
  end.

(** Python's [a == b]. *)
Fixpoint py_eq (a b : pyval) : bool :=
  match a with
  | PNone => match b with PNone => true | _ => false end
  | PBool _ | PInt _ | PFloat2 _ =>
      match hundredths a, hundredths b with
      | Some x, Some y => x =? y
      | _, _ => false
      end
  | PStr s => match b with PStr t => String.eqb s t | _ => false end
  | PList l =>
      match b with
      | PList m =>
          (fix go (l m : list pyval) : bool :=
             match l, m with
             | [], [] => true
             | x :: l', y :: m' => py_eq x y && go l' m'
             | _, _ => false
             end) l m
      | _ => false
      end
  | PDict d =>
      match b with
      | PDict e =>
          Nat.eqb (length d) (length e) &&
          (fix go (d : list (string * pyval)) : bool :=
             match d with
             | [] => true
             | (k, v) :: d' =>
                 match dict_lookup k e with
                 | Some w => py_eq v w
                 | None => false
                 end && go d'
             end) d
      | _ => false
      end
  end.

(** Python's [a > b]; [None] stands for the [TypeError] of an unordered
    pair of types.  Strings compare by code point, lists lexicographically. *)
Fixpoint py_gt (a b : pyval) : option bool :=
  match a with
  | PBool _ | PInt _ | PFloat2 _ =>
      match hundredths a, hundredths b with
      | Some x, Some y => Some (y <? x)
      | _, _ => None
      end
  | PStr s => match b with PStr t => Some (String.ltb t s) | _ => None end
  | PList l =>
      match b with
      | PList m =>
          (fix go (l m : list pyval) : option bool :=
             match l, m with
             | [], _ => Some false
             | _ :: _, [] => Some true
             | x :: l', y :: m' => if py_eq x y then go l' m' else py_gt x y
             end) l m
      | _ => None
      end
  | _ => None
  end.

(** Truth value of a value in a condition ([if v], [not v], [a and b]). *)
Definition truthy (v : pyval) : bool :=
  match v with
  | PNone => false
  | PBool b => b
  | PInt n => negb (n =? 0)
  | PFloat2 h => negb (h =? 0)
  | PStr s => negb (String.eqb s "")
  | PList l => match l with [] => false | _ => true end
  | PDict d => match d with [] => false | _ => true end
  end.

(** ** Exceptions *)

Inductive exn : Type :=
  | RequestException
  | JSONDecodeError
  | TypeError
  | AttributeError
  | KeyError
  | IndexError
  | OverflowError
  | OSError.

Inductive result (A : Type) : Type :=
  | Ok (a : A)
  | Raise (e : exn).
Arguments Ok {A} a.
Arguments Raise {A} e.

Definition exn_name (e : exn) : string :=
  match e with
  | RequestException => "RequestException"
  | JSONDecodeError => "JSONDecodeError"
  | TypeError => "TypeError"
  | AttributeError => "AttributeError"
  | KeyError => "KeyError"
  | IndexError => "IndexError"
  | OverflowError => "OverflowError"
  | OSError => "OSError"
  end.

(** ** Built-ins on values *)

(** [len(v)]. *)
Definition py_len (v : pyval) : result Z :=
  match v with
  | PStr s => Ok (Z.of_nat (String.length s))
  | PList l => Ok (Z.of_nat (length l))
  | PDict d => Ok (Z.of_nat (length d))
  | _ => Raise TypeError
  end.

Fixpoint chars (s : string) : list pyval :=
  match s with
  | EmptyString => []
  | String c s' => PStr (String c EmptyString) :: chars s'
  end.

(** The items a [for] loop over [v] visits. *)
Definition py_iter (v : pyval) : result (list pyval) :=
  match v with
  | PStr s => Ok (chars s)
  | PList l => Ok l
  | PDict d => Ok (map (fun kv => PStr (fst kv)) d)
  | _ => Raise TypeError
  end.

(** [v.get(k, default)]: only dictionaries have the method. *)
Definition py_get (v : pyval) (k : string) (default : pyval) : result pyval :=
  match v with
  | PDict d => Ok (match dict_lookup k d with Some x => x | None => default end)
  | _ => Raise AttributeError
  end.

(** [v[k]] with a string key. *)
Definition py_item (v : pyval) (k : string) : result pyval :=
  match v with
  | PDict d => match dict_lookup k d with Some x => Ok x | None => Raise KeyError end
  | _ => Raise TypeError
  end.

(** [v[0]]; the keys of a JSON object are strings, so 0 is never one. *)
Definition py_first (v : pyval) : result pyval :=
  match v with
  | PStr (String c _) => Ok (PStr (String c EmptyString))
  | PList (x :: _) => Ok x
  | PDict _ => Raise KeyError
  | PStr EmptyString | PList [] => Raise IndexError
  | _ => Raise TypeError
  end.

Fixpoint string_take (n : nat) (s : string) : string :=
  match n, s with
  | S n', String c s' => String c (string_take n' s')
  | _, _ => EmptyString
  end.

(** [v[:n]]. *)
Definition py_slice_to (n : nat) (v : pyval) : result pyval :=
  match v with
  | PStr s => Ok (PStr (string_take n s))
  | PList l => Ok (PList (take n l))
  | _ => Raise TypeError
  end.

(** [s.replace(old, new)] for a non-empty [old]: every occurrence, left to
    right; [skip] counts the characters of an occurrence still to drop. *)
Fixpoint replace_from (old new : string) (skip : nat) (s : string) : string :=
  match s with
  | EmptyString => EmptyString
  | String c s' =>
      match skip with
      | S k => replace_from old new k s'
      | O =>
          if String.prefix old s
          then new +:+ replace_from old new (String.length old - 1) s'
          else String c (replace_from old new 0 s')
      end
  end.

Definition str_replace (old new s : string) : string := replace_from old new 0 s.

(** [v.replace(old, new)]: a string method. *)
Definition py_replace (old new : string) (v : pyval) : result pyval :=
  match v with
  | PStr s => Ok (PStr (str_replace old new s))
  | _ => Raise AttributeError
  end.

(** ** The outside world: HTTP and the console *)

(** A GET request: the URL and the [branch] query parameter, when one is
    passed.  Every request carries the same three headers, left out here. *)
Record request : Type := Request {
  req_url : string;
  req_branch : option pyval }.

(** What the program reads of a response: [json_body] is [None] when
    [response.json()] raises. *)
Record response : Type := Response {
  status_code : Z;
  json_body : option pyval;
  text : string }.

(** [requests.get] either raises a [RequestException] or hands back a
    response. *)
Inductive outcome : Type :=
  | Failed
  | Received (r : response).

(** A printed line: the f-string with its holes, and the values that fill
    them (an exception is shown by its class name). *)
Record message : Type := Message {
  msg_template : string;
  msg_args : list pyval }.

Record world : Type := World {
  requests : list request;
  output : list message }.

(** ** Statements: state, exceptions, loops *)

(** A statement runs on the world and the local variables [L]; when it
    raises, the state it leaves is the one reached at the raise. *)
Definition M (L A : Type) : Type := world * L -> result A * (world * L).

Definition ret {L A} (a : A) : M L A := fun st => (Ok a, st).

Definition bind {L A B} (m : M L A) (k : A -> M L B) : M L B :=
  fun st =>
    match m st with
    | (Ok a, st') => k a st'
    | (Raise e, st') => (Raise e, st')
    end.

Declare Scope py_scope.
Delimit Scope py_scope with py.
Notation "'let*' x ':=' m 'in' k" := (bind m (fun x => k))
  (at level 10, x pattern, m at level 100, k at level 200) : py_scope.
Notation "m ';;;' k" := (bind m (fun _ => k))
  (at level 100, k at level 200, right associativity) : py_scope.
Local Open Scope py_scope.

Definition lift {L A} (r : result A) : M L A := fun st => (r, st).

Definition raise {L A} (e : exn) : M L A := lift (Raise e).

Definition read {L X} (f : L -> X) : M L X := fun st => (Ok (f (snd st)), st).

Definition assign {L} (f : L -> L) : M L unit :=
  fun st => (Ok tt, (fst st, f (snd st))).

(** [try: body except Exception as e: handler]. *)
Definition try_except {L A} (body : M L A) (handler : exn -> M L A) : M L A :=
  fun st =>
    match body st with
    | (Ok a, st') => (Ok a, st')
    | (Raise e, st') => handler e st'
    end.

Definition print {L} (template : string) (args : list pyval) : M L unit :=
  fun st =>
    (Ok tt,
     (World (requests (fst st)) (output (fst st) ++ [Message template args]),
      snd st)).

Inductive control : Type := Continue | Break.

(** [for x in xs: body], where [body] says whether it ended in [break]. *)
Fixpoint for_each {L X} (body : X -> M L control) (xs : list X) : M L unit :=
  match xs with
  | [] => ret tt
  | x :: xs' =>
      let* c := body x in
      match c with
      | Break => ret tt
      | Continue => for_each body xs'
      end
  end.

(** [enumerate(xs, i)]. *)
Fixpoint enumerate {X} (i : Z) (xs : list X) : list (Z * X) :=
  match xs with
  | [] => []
  | x :: xs' => (i, x) :: enumerate (i + 1) xs'
  end.

(** [a and b], for a [b] that may raise. *)
Definition py_and (a : pyval) (b : result pyval) : result pyval :=
  if truthy a then b else Ok a.

Definition api : string := "https://in-api.assembla.com/v1/spaces/".

Definition newline : string := String (Ascii.ascii_of_nat 10) EmptyString.
Definition carriage_return : string := String (Ascii.ascii_of_nat 13) EmptyString.

(** ** The statistics enricher *)

(** The local variables of [get_git_repo_statistics]. *)
Record locals : Type := Locals {
  stats : gmap string pyval;
  branches_list : pyval;
  all_commits : pyval;
  latest_commit : pyval;
  latest_commit_date : pyval }.

Definition set_stat (k : string) (v : pyval) (l : locals) : locals :=
  Locals (<[k := v]> (stats l)) (branches_list l) (all_commits l)
         (latest_commit l) (latest_commit_date l).

Definition set_branches_list (v : pyval) (l : locals) : locals :=
  Locals (stats l) v (all_commits l) (latest_commit l) (latest_commit_date l).

Definition set_all_commits (v : pyval) (l : locals) : locals :=
  Locals (stats l) (branches_list l) v (latest_commit l) (latest_commit_date l).

Definition set_latest_commit (v : pyval) (l : locals) : locals :=
  Locals (stats l) (branches_list l) (all_commits l) v (latest_commit_date l).

Definition set_latest_commit_date (v : pyval) (l : locals) : locals :=
  Locals (stats l) (branches_list l) (all_commits l) (latest_commit l) v.

(** [all_commits.append(commit)]. *)
Definition append_commit (commit : pyval) (l : locals) : locals :=
  match all_commits l with
  | PList cs => set_all_commits (PList (cs ++ [commit])) l
  | _ => l
  end.

(** The [stats] dictionary as first assigned (lines 215-223). *)
Definition initial_stats : gmap string pyval :=
  list_to_map
    [("commits_count", PInt 0); ("branches_count", PInt 0);
     ("tags_count", PInt 0); ("merge_requests_count", PInt 0);
     ("last_commit_author", PStr ""); ("last_commit_message", PStr "");
     ("last_commit_at", PStr "")].

(** [branches_list = []], [all_commits = []], [latest_commit = None],
    [latest_commit_date = None]. *)
Definition initial_locals : locals :=
  Locals initial_stats (PList []) (PList []) PNone PNone.

(** [stats[k]]. *)
Definition stat (k : string) : M locals pyval :=
  let* s := read stats in
  lift (match s !! k with Some v => Ok v | None => Raise KeyError end).

(** [max(a, b)]. *)
Definition py_max (a b : pyval) : result pyval :=
  match py_gt b a with
  | Some true => Ok b
  | Some false => Ok a
  | None => Raise TypeError
  end.

Definition is_dict (v : pyval) : bool :=
  match v with PDict _ => true | _ => false end.

Section Program.

(** [str(v)] of a list, a dictionary or a float is Python's [repr], which
    the development does not spell out: it holds for any such function. *)
Variable repr_other : pyval -> string.

(** The service: what a request is answered with, given the requests made
    before it. *)
Variable env : list request -> request -> outcome.

(** [str(v)], as an f-string hole applies it. *)
Definition py_str (v : pyval) : string :=
  match v with
  | PNone => "None"
  | PBool true => "True"
  | PBool false => "False"
  | PInt n => pretty n
  | PStr s => s
  | _ => repr_other v
  end.

(** [requests.get(url, headers=headers, params=...)]. *)
Definition requests_get {L} (url : string) (branch : option pyval) : M L response :=
  fun st =>
    let rq := Request url branch in
    let st' := (World (requests (fst st) ++ [rq]) (output (fst st)), snd st) in
    match env (requests (fst st)) rq with
    | Failed => (Raise RequestException, st')
    | Received r => (Ok r, st')
    end.

(** [response.json()]. *)
Definition response_json {L} (r : response) : M L pyval :=
  lift (match json_body r with Some v => Ok v | None => Raise JSONDecodeError end).

(** [response.text[:200] if response.text else 'No response text']. *)
Definition response_excerpt (r : response) : pyval :=
  if String.eqb (text r) "" then PStr "No response text"
  else PStr (string_take 200 (text r)).

(** The repository-specific URL, when the detail record has one under
    [key], with its host rewritten; else the space-wide [default_url]
    (lines 229-234, 299-302, 349-354). *)
Definition pick_url (repo_data : pyval) (key : string) (default_url : string)
    (note_specific note_default : option string) : M locals string :=
  let* specific := lift (py_and repo_data (py_get repo_data key PNone)) in
  if truthy specific then
    let* raw := lift (py_item repo_data key) in
    let* rewritten :=
      lift (py_replace "www.assembla.com/v1" "in-api.assembla.com/v1" raw) in
    match rewritten with
    | PStr u =>
        match note_specific with
        | Some t => print t [PStr u] ;;; ret u
        | None => ret u
        end
    | _ => raise AttributeError
    end
  else
    match note_default with
    | Some t => print t [PStr default_url] ;;; ret default_url
    | None => ret default_url
    end.

(** Lines 247-251. *)
Definition alternative_endpoints (space_id : string) (repo_id : pyval) : list string :=
  [api +:+ space_id +:+ "/space_tools/" +:+ py_str repo_id +:+ "/git/branches";
   api +:+ space_id +:+ "/repos/" +:+ py_str repo_id +:+ "/git/branches";
   api +:+ space_id +:+ "/git_repos/" +:+ py_str repo_id +:+ "/branches"].

(** The body of the loop of lines 253-270, for alternate number [i]. *)
Definition try_branches_endpoint (ia : Z * string) : M locals control :=
  let '(i, alt_url) := ia in
  try_except
    (print "    Trying alternative endpoint {i}: {alt_url}" [PInt i; PStr alt_url] ;;;
     let* alt_response := requests_get alt_url None in
     print "    Alternative endpoint {i} status: {alt_response.status_code}"
           [PInt i; PInt (status_code alt_response)] ;;;
     if status_code alt_response =? 200 then
       let* body := response_json alt_response in
       assign (set_branches_list body) ;;;
       let* n := lift (py_len body) in
       assign (set_stat "branches_count" (PInt n)) ;;;
       print "    SUCCESS: Found {len(branches_list)} branches using alternative endpoint {i}"
             [PInt n; PInt i] ;;;
       ret Break
     else if status_code alt_response =? 204 then
       print "    Alternative endpoint {i} also returned 204 (No Content)" [PInt i] ;;;
       ret Continue
     else
       print "    Alternative endpoint {i} failed with status {alt_response.status_code}"
             [PInt i; PInt (status_code alt_response)] ;;;
       ret Continue)
    (fun alt_e =>
       print "    Alternative endpoint {i} exception: {alt_e}"
             [PInt i; PStr (exn_name alt_e)] ;;;
       ret Continue).

(** Lines 227-275: the branch list. *)
Definition fetch_branches (space_id : string) (repo_id repo_data : pyval) : M locals unit :=
  try_except
    (let* branches_url :=
       pick_url repo_data "branches_url" (api +:+ space_id +:+ "/repos/git/branches")
         (Some "    Using repository-specific branches URL: {branches_url}")
         (Some "    Using default branches URL: {branches_url}") in
     let* response := requests_get branches_url None in
     if status_code response =? 200 then
       let* body := response_json response in
       assign (set_branches_list body) ;;;
       let* n := lift (py_len body) in
       assign (set_stat "branches_count" (PInt n)) ;;;
       print "    Found {len(branches_list)} branches" [PInt n]
     else if status_code response =? 204 then
       print "    No branches found (204), trying alternative approaches..." [] ;;;
       assign (set_stat "branches_count" (PInt 0)) ;;;
       for_each try_branches_endpoint
                (enumerate 1 (alternative_endpoints space_id repo_id))
     else
       print "    Could not fetch branches, status: {response.status_code}"
             [PInt (status_code response)] ;;;
       print "    Response: {response.text[:200] if response.text else 'No response text'}"
             [response_excerpt response])
    (fun e => print "    Could not fetch branches: {e}" [PStr (exn_name e)]).

(** Lines 277-287: the tag count. *)
Definition fetch_tags (space_id : string) : M locals unit :=
  try_except
    (let tags_url := api +:+ space_id +:+ "/repos/git/tags" in
     let* response := requests_get tags_url None in
     if status_code response =? 200 then
       let* tags := response_json response in
       let* n := lift (py_len tags) in
       assign (set_stat "tags_count" (PInt n))
     else if status_code response =? 204 then
       assign (set_stat "tags_count" (PInt 0))
     else ret tt)
    (fun e => print "    Could not fetch tags: {e}" [PStr (exn_name e)]).

(** The de-duplication key of a commit payload (lines 315-318, and again
    323-325): the [id], else the [sha], else the [revision] field; when
    that value is false in a condition, the first 50 characters of the
    message, an underscore, and the [authored_at] (else [committed_at])
    field. *)
Definition commit_key (commit : pyval) : result pyval :=
  match py_get commit "revision" (PStr "") with
  | Raise e => Raise e
  | Ok revision =>
  match py_get commit "sha" revision with
  | Raise e => Raise e
  | Ok sha =>
  match py_get commit "id" sha with
  | Raise e => Raise e
  | Ok commit_id =>
      if truthy commit_id then Ok commit_id
      else
        match py_get commit "message" (PStr "") with
        | Raise e => Raise e
        | Ok message =>
        match py_slice_to 50 message with
        | Raise e => Raise e
        | Ok head =>
        match py_get commit "committed_at" (PStr "") with
        | Raise e => Raise e
        | Ok committed_at =>
        match py_get commit "authored_at" committed_at with
        | Raise e => Raise e
        | Ok stamp => Ok (PStr (py_str head +:+ "_" +:+ py_str stamp))
        end end end end
  end end end.

(** The loop of lines 321-329 over the commits kept so far. *)
Fixpoint is_duplicate (commit_id : pyval) (existing : list pyval) : result bool :=
  match existing with
  | [] => Ok false
  | existing_commit :: rest =>
      match commit_key existing_commit with
      | Raise e => Raise e
      | Ok existing_id =>
          if py_eq commit_id existing_id then Ok true
          else is_duplicate commit_id rest
      end
  end.

(** [commit.get('authored_at', commit.get('committed_at', commit.get('date', '')))]. *)
Definition commit_date_of (commit : pyval) : result pyval :=
  match py_get commit "date" (PStr "") with
  | Raise e => Raise e
  | Ok date =>
  match py_get commit "committed_at" date with
  | Raise e => Raise e
  | Ok committed_at => py_get commit "authored_at" committed_at
  end end.

(** [commit_date and (not latest_commit_date or commit_date > latest_commit_date)]. *)
Definition is_later (commit_date latest : pyval) : result bool :=
  if truthy commit_date then
    if negb (truthy latest) then Ok true
    else match py_gt commit_date latest with
         | Some b => Ok b
         | None => Raise TypeError
         end
  else Ok false.

(** The body of the loop of lines 314-338, for one commit of a branch. *)
Definition add_commit (commit : pyval) : M locals control :=
  let* commit_id := lift (commit_key commit) in
  let* kept := read all_commits in
  let* existing := lift (py_iter kept) in
  let* duplicate := lift (is_duplicate commit_id existing) in
  if negb duplicate then
    assign (append_commit commit) ;;;
    let* commit_date := lift (commit_date_of commit) in
    let* latest := read latest_commit_date in
    let* later := lift (is_later commit_date latest) in
    if later then
      assign (set_latest_commit commit) ;;;
      assign (set_latest_commit_date commit_date) ;;;
      ret Continue
    else ret Continue
  else ret Continue.

(** The body of the loop of lines 295-344, for one branch. *)
Definition fetch_branch_commits (space_id : string) (repo_data branch : pyval)
    : M locals control :=
  let* fallback_name := lift (py_get branch "id" (PStr "unknown")) in
  let* branch_name := lift (py_get branch "name" fallback_name) in
  try_except
    (let* commits_url :=
       pick_url repo_data "commits_url" (api +:+ space_id +:+ "/repos/git/commits")
         None None in
     let params :=
       if negb (py_eq branch_name (PStr "unknown")) then Some branch_name else None in
     print "    Fetching commits from branch: {branch_name}" [branch_name] ;;;
     let* response := requests_get commits_url params in
     if status_code response =? 200 then
       let* branch_commits := response_json response in
       let* n := lift (py_len branch_commits) in
       print "    Found {len(branch_commits)} commits in branch {branch_name}"
             [PInt n; branch_name] ;;;
       let* commits := lift (py_iter branch_commits) in
       for_each add_commit commits
     else
       print "    Could not fetch commits for branch {branch_name}, status: {response.status_code}"
             [branch_name; PInt (status_code response)])
    (fun e =>
       print "    Could not fetch commits for branch {branch_name}: {e}"
             [branch_name; PStr (exn_name e)]) ;;;
  ret Continue.

(** Lines 366-370. *)
Definition alternative_commit_endpoints (space_id : string) (repo_id : pyval)
    : list string :=
  [api +:+ space_id +:+ "/space_tools/" +:+ py_str repo_id +:+ "/git/commits";
   api +:+ space_id +:+ "/repos/" +:+ py_str repo_id +:+ "/git/commits";
   api +:+ space_id +:+ "/git_repos/" +:+ py_str repo_id +:+ "/commits"].

(** [all_commits = body], then [latest_commit = all_commits[0]] when the
    list is not empty (lines 358-361 and 379-382); [found] is the line
    printed in between. *)
Definition take_commits (body : pyval) (found : string) (more : list pyval)
    : M locals unit :=
  assign (set_all_commits body) ;;;
  let* n := lift (py_len body) in
  print found (PInt n :: more) ;;;
  if truthy body then
    let* first := lift (py_first body) in
    assign (set_latest_commit first)
  else ret tt.

(** The body of the loop of lines 372-390, for alternate number [i]. *)
Definition try_commits_endpoint (ia : Z * string) : M locals control :=
  let '(i, alt_url) := ia in
  try_except
    (print "    Trying alternative commits endpoint {i}: {alt_url}" [PInt i; PStr alt_url] ;;;
     let* alt_response := requests_get alt_url None in
     print "    Alternative commits endpoint {i} status: {alt_response.status_code}"
           [PInt i; PInt (status_code alt_response)] ;;;
     if status_code alt_response =? 200 then
       let* body := response_json alt_response in
       take_commits body
         "    SUCCESS: Found {len(all_commits)} commits using alternative endpoint {i}"
         [PInt i] ;;;
       ret Break
     else if status_code alt_response =? 204 then
       print "    Alternative commits endpoint {i} returned 204 (No Content)" [PInt i] ;;;
       ret Continue
     else
       print "    Alternative commits endpoint {i} failed with status {alt_response.status_code}"
             [PInt i; PInt (status_code alt_response)] ;;;
       ret Continue)
    (fun alt_e =>
       print "    Alternative commits endpoint {i} exception: {alt_e}"
             [PInt i; PStr (exn_name alt_e)] ;;;
       ret Continue).

(** Lines 347-398: the commits of a repository with no known branch. *)
Definition fetch_commits_without_branch (space_id : string) (repo_id repo_data : pyval)
    : M locals unit :=
  try_except
    (let* commits_url :=
       pick_url repo_data "commits_url" (api +:+ space_id +:+ "/repos/git/commits")
         (Some "    Using repository-specific commits URL: {commits_url}")
         (Some "    Using default commits URL: {commits_url}") in
     let* response := requests_get commits_url None in
     if status_code response =? 200 then
       let* body := response_json response in
       take_commits body "    Found {len(all_commits)} commits total" []
     else if status_code response =? 422 then
       print "    No commits found (422), trying alternative approaches for imported repo..." [] ;;;
       for_each try_commits_endpoint
                (enumerate 1 (alternative_commit_endpoints space_id repo_id))
     else if status_code response =? 204 then
       print "    Repository has no commits (204 No Content)" []
     else
       print "    Could not fetch commits, status: {response.status_code}"
             [PInt (status_code response)] ;;;
       print "    Response: {response.text[:200] if response.text else 'No response text'}"
             [response_excerpt response])
    (fun e => print "    Could not fetch commits: {e}" [PStr (exn_name e)]).

(** Lines 289-398: all commits, branch by branch when branches are known. *)
Definition collect_commits (space_id : string) (repo_id repo_data : pyval)
    : M locals unit :=
  let* known := read branches_list in
  if truthy known then
    let* branches := lift (py_iter known) in
    for_each (fetch_branch_commits space_id repo_data) branches
  else fetch_commits_without_branch space_id repo_id repo_data.

(** Lines 400-424: the commit count and the latest commit's fields, or the
    estimate for a repository whose detail record has a last-commit
    timestamp although no commit was listed. *)
Definition set_final_statistics (repo_data : pyval) : M locals unit :=
  let* commits := read all_commits in
  let* n := lift (py_len commits) in
  assign (set_stat "commits_count" (PInt n)) ;;;
  let* latest := read latest_commit in
  if truthy latest then
    let* author_info := lift (py_get latest "author" (PDict [])) in
    (if is_dict author_info then
       let* login := lift (py_get author_info "login" (PStr "")) in
       let* name := lift (py_get author_info "name" login) in
       assign (set_stat "last_commit_author" name)
     else
       assign (set_stat "last_commit_author" (PStr (py_str author_info)))) ;;;
    let* message := lift (py_get latest "message" (PStr "")) in
    let* unix_lines := lift (py_replace newline " " message) in
    let* one_line := lift (py_replace carriage_return " " unix_lines) in
    assign (set_stat "last_commit_message" one_line) ;;;
    let* committed_at := lift (py_get latest "committed_at" (PStr "")) in
    let* authored_at := lift (py_get latest "authored_at" committed_at) in
    assign (set_stat "last_commit_at" authored_at)
  else
    let* stamped := lift (py_and repo_data (py_get repo_data "last_commit_at" PNone)) in
    let* count := stat "commits_count" in
    if truthy stamped && py_eq count (PInt 0) then
      print "    API failed to get commits, but repository has last_commit_at - estimating commits exist" [] ;;;
      let* stamp := lift (py_get repo_data "last_commit_at" PNone) in
      assign (set_stat "last_commit_at" stamp) ;;;
      let* branches := stat "branches_count" in
      match py_gt branches (PInt 0) with
      | None => raise TypeError
      | Some true =>
          let* estimate := lift (py_max (PInt 1) branches) in
          assign (set_stat "commits_count" estimate) ;;;
          print "    Estimated {stats['commits_count']} commits based on {stats['branches_count']} branches"
                [estimate; branches]
      | Some false =>
          assign (set_stat "commits_count" (PInt 1)) ;;;
          print "    Estimated 1 commit based on last_commit_at presence" []
      end
    else ret tt.

(** Lines 426-434: the merge-request count. *)
Definition fetch_merge_requests (space_id : string) (repo_id : pyval) : M locals unit :=
  try_except
    (let mr_url :=
       api +:+ space_id +:+ "/space_tools/" +:+ py_str repo_id +:+ "/merge_requests.json" in
     let* response := requests_get mr_url None in
     if status_code response =? 200 then
       let* merge_requests := response_json response in
       let* n := lift (py_len merge_requests) in
       assign (set_stat "merge_requests_count" (PInt n))
     else ret tt)
    (fun e => print "    Could not fetch merge requests: {e}" [PStr (exn_name e)]).

(** Lines 227-398: everything the enricher fetches before it settles the
    commit statistics. *)
Definition gather (space_id : string) (repo_id repo_data : pyval) : M locals unit :=
  fetch_branches space_id repo_id repo_data ;;;
  fetch_tags space_id ;;;
  collect_commits space_id repo_id repo_data.

(** Lines 400-437. *)
Definition conclude (space_id : string) (repo_id repo_data : pyval)
    : M locals (gmap string pyval) :=
  set_final_statistics repo_data ;;;
  fetch_merge_requests space_id repo_id ;;;
  let* s := read stats in
  print "    Final stats: {stats['commits_count']} commits, {stats['branches_count']} branches, {stats['tags_count']} tags, {stats['merge_requests_count']} MRs"
        [default PNone (s !! "commits_count"); default PNone (s !! "branches_count");
         default PNone (s !! "tags_count"); default PNone (s !! "merge_requests_count")] ;;;
  ret s.

(** [get_git_repo_statistics(headers, space_id, repo_id, repo_data)], on
    the local variables as lines 215-225 and 290-292 first assign them. *)
Definition get_git_repo_statistics (space_id : string) (repo_id repo_data : pyval)
    : M locals (gmap string pyval) :=
  gather space_id repo_id repo_data ;;;
  conclude space_id repo_id repo_data.

(** A call: the callee runs on its own local variables. *)
Definition call {L L' A} (fresh : L') (callee : M L' A) : M L A :=
  fun st =>
    match callee (fst st, fresh) with
    | (r, (w, _)) => (r, (w, snd st))
    end.

(** What a caller sees of a run of the enricher from the world [w]: the
    result and the world it leaves. *)
Definition statistics_from (w : world) (space_id : string) (repo_id repo_data : pyval)
    : result (gmap string pyval) * world :=
  match get_git_repo_statistics space_id repo_id repo_data (w, initial_locals) with
  | (r, (w', _)) => (r, w')
  end.

(** ** The repository lister and the reporter *)

(** [repo.get(k, default)] on a record the program built. *)
Definition dget (repo : gmap string pyval) (k : string) (default : pyval) : pyval :=
  match repo !! k with
  | Some v => v
  | None => default
  end.

(** [repo.update(other)]. *)
Definition update (repo other : gmap string pyval) : gmap string pyval :=
  other ∪ repo.

Definition repo_types : list pyval :=
  [PStr "GitTool"; PStr "SubversionTool"; PStr "PerforceDepotTool"].

(** [v in xs] for a list [xs]. *)
Definition py_in (v : pyval) (xs : list pyval) : bool :=
  existsb (fun x => py_eq x v) xs.

(** Lists and dictionaries cannot be dictionary keys. *)
Definition hashable (v : pyval) : bool :=
  match v with
  | PList _ | PDict _ => false
  | _ => true
  end.

(** [repos_lookup]: the detail records by [id], in insertion order. *)
Fixpoint lookup_set (k v : pyval) (d : list (pyval * pyval)) : list (pyval * pyval) :=
  match d with
  | [] => [(k, v)]
  | (k', v') :: d' =>
      if py_eq k' k then (k', v) :: d' else (k', v') :: lookup_set k v d'
  end.

Fixpoint lookup_find (k : pyval) (d : list (pyval * pyval)) : option pyval :=
  match d with
  | [] => None
  | (k', v') :: d' => if py_eq k' k then Some v' else lookup_find k d'
  end.

(** [{repo['id']: repo for repo in repos_data}] (line 77). *)
Fixpoint build_lookup (repos : list pyval) (d : list (pyval * pyval))
    : result (list (pyval * pyval)) :=
  match repos with
  | [] => Ok d
  | repo :: rest =>
      match py_item repo "id" with
      | Raise e => Raise e
      | Ok id =>
          if hashable id then build_lookup rest (lookup_set id repo d)
          else Raise TypeError
      end
  end.

(** [k in repos_lookup]. *)
Definition lookup_has (k : pyval) (d : list (pyval * pyval)) : result bool :=
  if hashable k then Ok (bool_decide (is_Some (lookup_find k d)))
  else Raise TypeError.

(** Rounding of [n / d] to the nearest integer, ties to the even one, for
    a positive [d]. *)
Definition round_half_even_div (n d : Z) : Z :=
  let q := n / d in
  let r := n mod d in
  if 2 * r <? d then q
  else if d <? 2 * r then q + 1
  else if Z.even q then q else q + 1.

(** The double nearest to [p / q], for positive [p] and [q], as a
    mantissa [m] from [2^52] to [2^53] and an exponent [e]: its value is
    [m * 2^e].  Ties go to the even mantissa. *)
Definition nearest_double (p q : Z) : Z * Z :=
  let e0 := Z.log2 p - Z.log2 q - 52 in
  let scaled (e : Z) := if 0 <=? e then (p, q * 2 ^ e) else (p * 2 ^ (- e), q) in
  let e := if 2 ^ 52 <=? fst (scaled e0) / snd (scaled e0) then e0 else e0 - 1 in
  (round_half_even_div (fst (scaled e)) (snd (scaled e)), e).

(** A number as a fraction: an integer as it is, a float by the decimal
    it prints as. *)
Definition fraction (v : pyval) : option (Z * Z) :=
  match v with
  | PBool b => Some (Z.b2z b, 1)
  | PInt n => Some (n, 1)
  | PFloat2 h => Some (h, 100)
  | _ => None
  end.

(** [round(size_bytes / (1024 * 1024), 2) if size_bytes > 0 else 0] (line
    113), in binary floating point.  The quotient is the double nearest to
    the true quotient: the double [m * 2^e] nearest to the size, divided
    by [2^20], which changes the exponent only; the division of an
    integer raises [OverflowError] when that double is [2^1024] or more.
    [round(x, 2)] is the float that prints as the two-decimal number
    nearest to [x], ties to the even one. *)
Definition size_in_mb (size_bytes : pyval) : result pyval :=
  match py_gt size_bytes (PInt 0) with
  | None => Raise TypeError
  | Some false => Ok (PInt 0)
  | Some true =>
      match fraction size_bytes with
      | Some (p, q) =>
          let '(m, e) := nearest_double p q in
          if 2 ^ 1044 <=? m * 2 ^ e then Raise OverflowError
          else if 0 <=? e then
            Ok (PFloat2 (round_half_even_div (100 * m * 2 ^ e) (2 ^ 20)))
          else
            Ok (PFloat2 (round_half_even_div (100 * m) (2 ^ 20 * 2 ^ (- e))))
      | None => Raise TypeError
      end
  end.

(** Lines 111-132: the detail record's fields, added to [repo_info]. *)
Definition attach_detail (tool repo_data : pyval) (repo_info : gmap string pyval)
    : M unit (gmap string pyval) :=
  let* size_bytes := lift (py_get repo_data "size" (PInt 0)) in
  let* size_mb := lift (size_in_mb size_bytes) in
  let* last_commit_at := lift (py_get repo_data "last_commit_at" PNone) in
  let* default_branch := lift (py_get repo_data "default_branch" PNone) in
  let* https_url := lift (py_get repo_data "https_clone_url" PNone) in
  let* ssh_url := lift (py_get repo_data "ssh_clone_url" PNone) in
  let repo_info :=
    update repo_info
      (list_to_map
         [("size", size_bytes); ("size_mb", size_mb);
          ("last_commit_at", last_commit_at); ("default_branch", default_branch);
          ("clone_url_https", https_url); ("clone_url_ssh", ssh_url)]) in
  if truthy last_commit_at then
    let* menu_name := lift (py_get tool "menu_name" PNone) in
    print "    Note: Repository {tool.get('menu_name')} has last_commit_at - contains data"
          [menu_name] ;;;
    ret (<["has_commits_indicator" := PBool true]>
           (<["is_likely_imported" := PBool true]> repo_info))
  else
    ret (<["has_commits_indicator" := PBool false]>
           (<["is_likely_imported" := PBool false]> repo_info)).

(** Lines 135-142: the statistics of a Git repository, merged into
    [repo_info]; an exception of the enricher is reported and leaves
    [repo_info] as it was. *)
Definition attach_statistics (space_name : string) (tool tool_id : pyval)
    (repos_lookup : list (pyval * pyval)) (repo_info : gmap string pyval)
    : M unit (gmap string pyval) :=
  try_except
    (let* known := lift (lookup_has tool_id repos_lookup) in
     let repo_data_for_stats :=
       if known then default PNone (lookup_find tool_id repos_lookup) else PNone in
     let* repo_stats :=
       call initial_locals
            (get_git_repo_statistics space_name tool_id repo_data_for_stats) in
     ret (update repo_info repo_stats))
    (fun e =>
       let* menu_name := lift (py_get tool "menu_name" PNone) in
       print "Warning: Could not fetch statistics for repo {tool.get('menu_name')}: {e}"
             [menu_name; PStr (exn_name e)] ;;;
       ret repo_info).

(** The body of the loop of lines 92-144: the record of one tool entry,
    or [None] for an entry that is not a repository. *)
Definition merge_tool (space_name : string) (repos_lookup : list (pyval * pyval))
    (tool : pyval) : M unit (option (gmap string pyval)) :=
  let* tool_type := lift (py_get tool "type" PNone) in
  if py_in tool_type repo_types then
    let* tool_id := lift (py_get tool "id" PNone) in
    let* name := lift (py_get tool "name" PNone) in
    let* menu_name := lift (py_get tool "menu_name" PNone) in
    let* created_at := lift (py_get tool "created_at" PNone) in
    let* updated_at := lift (py_get tool "updated_at" PNone) in
    let repo_info : gmap string pyval :=
      list_to_map
        [("id", tool_id); ("name", name); ("menu_name", menu_name);
         ("type", tool_type); ("created_at", created_at);
         ("updated_at", updated_at); ("space_id", PStr space_name);
         ("space_name", PStr space_name)] in
    let* known := lift (lookup_has tool_id repos_lookup) in
    let* repo_info :=
      (if known then
         attach_detail tool (default PNone (lookup_find tool_id repos_lookup)) repo_info
       else ret repo_info) in
    let* repo_info :=
      (if py_eq tool_type (PStr "GitTool") then
         attach_statistics space_name tool tool_id repos_lookup repo_info
       else ret repo_info) in
    ret (Some repo_info)
  else ret None.

(** The loop of lines 92-144. *)
Fixpoint merge_tools (space_name : string) (repos_lookup : list (pyval * pyval))
    (tools : list pyval) (repositories : list (gmap string pyval))
    : M unit (list (gmap string pyval)) :=
  match tools with
  | [] => ret repositories
  | tool :: rest =>
      let* merged := merge_tool space_name repos_lookup tool in
      match merged with
      | Some repo_info =>
          merge_tools space_name repos_lookup rest (repositories ++ [repo_info])
      | None => merge_tools space_name repos_lookup rest repositories
      end
  end.

(** The reporter's [is_empty] (lines 156-160). *)
Definition reporter_is_empty (repo : gmap string pyval) : bool :=
  py_eq (dget repo "commits_count" (PInt 0)) (PInt 0) &&
  py_eq (dget repo "branches_count" (PInt 0)) (PInt 0) &&
  py_eq (dget repo "size" (PInt 0)) (PInt 0) &&
  negb (truthy (dget repo "last_commit_at" PNone)) &&
  negb (truthy (dget repo "has_commits_indicator" (PBool false))).

(** Lines 192-196: the last author and the last message, cut to 100
    characters. *)
Definition report_last_commit (repo : gmap string pyval) : M unit unit :=
  (if truthy (dget repo "last_commit_author" PNone) then
     print "  Last Author: {repo.get('last_commit_author', 'N/A')}"
           [dget repo "last_commit_author" (PStr "N/A")]
   else ret tt) ;;;
  if truthy (dget repo "last_commit_message" PNone) then
    let text := dget repo "last_commit_message" (PStr "") in
    let* n := lift (py_len text) in
    let* message :=
      (if 100 <? n then
         let* head := lift (py_slice_to 100 text) in
         match head with
         | PStr h => ret (PStr (h +:+ "..."))
         | _ => raise TypeError
         end
       else ret text) in
    print "  Last Message: {message}" [message]
  else ret tt.

(** The body of the loop of lines 154-196, for record number [i]. *)
Definition report_repository (ir : Z * gmap string pyval) : M unit control :=
  let '(i, repo) := ir in
  let is_empty := reporter_is_empty repo in
  let is_imported := truthy (dget repo "is_likely_imported" (PBool false)) in
  let status_indicator :=
    if is_empty then " [EMPTY REPOSITORY]"
    else if is_imported then " [IMPORTED REPOSITORY]"
    else "" in
  print "Repository #{i}{status_indicator}:" [PInt i; PStr status_indicator] ;;;
  print "  Space: {repo.get('space_name', 'N/A')}" [dget repo "space_name" (PStr "N/A")] ;;;
  print "  ID: {repo.get('id', 'N/A')}" [dget repo "id" (PStr "N/A")] ;;;
  print "  Technical Name: {repo.get('name', 'N/A')}" [dget repo "name" (PStr "N/A")] ;;;
  print "  Repository Name: {repo.get('menu_name', 'N/A')}" [dget repo "menu_name" (PStr "N/A")] ;;;
  print "  Type: {repo.get('type', 'N/A')}" [dget repo "type" (PStr "N/A")] ;;;
  print "  Created: {repo.get('created_at', 'N/A')}" [dget repo "created_at" (PStr "N/A")] ;;;
  match py_gt (dget repo "size_mb" (PInt 0)) (PInt 0) with
  | None => raise TypeError
  | Some in_mb =>
      (if in_mb then print "  Size: {repo.get('size_mb', 0)} MB" [dget repo "size_mb" (PInt 0)]
       else print "  Size: {repo.get('size', 0)} bytes" [dget repo "size" (PInt 0)]) ;;;
      print "  Default Branch: {repo.get('default_branch', 'N/A')}"
            [dget repo "default_branch" (PStr "N/A")] ;;;
      print "  Last Commit: {repo.get('last_commit_at', 'N/A')}"
            [dget repo "last_commit_at" (PStr "N/A")] ;;;
      print "  Commits: {repo.get('commits_count', 'N/A')}"
            [dget repo "commits_count" (PStr "N/A")] ;;;
      print "  Branches: {repo.get('branches_count', 'N/A')}"
            [dget repo "branches_count" (PStr "N/A")] ;;;
      print "  Tags: {repo.get('tags_count', 'N/A')}" [dget repo "tags_count" (PStr "N/A")] ;;;
      print "  Merge Requests: {repo.get('merge_requests_count', 'N/A')}"
            [dget repo "merge_requests_count" (PStr "N/A")] ;;;
      (if is_empty then
         print "  Status: Empty repository - no code has been committed" []
       else if is_imported then
         print "  Status: Imported repository - contains data but API has limited access" []
       else ret tt) ;;;
      report_last_commit repo ;;;
      ret Continue
  end.

(** [response.raise_for_status()]. *)
Definition raise_for_status (r : response) : M unit unit :=
  if (400 <=? status_code r) && (status_code r <? 600) then raise RequestException
  else ret tt.

(** [all([api_key, api_secret])] on what [os.getenv] returned. *)
Definition credentials_ok (api_key api_secret : option string) : bool :=
  match api_key, api_secret with
  | Some k, Some s => negb (String.eqb k "") && negb (String.eqb s "")
  | _, _ => false
  end.

(** [fetch_assembla_repositories_for_space(space_name)], given the two
    credentials of the environment.  The handlers of lines 200-208 are
    tried in the order written. *)
Definition fetch_assembla_repositories_for_space (api_key api_secret : option string)
    (space_name : string) : M unit (option (list (gmap string pyval))) :=
  if negb (credentials_ok api_key api_secret) then
    print "Error: Missing required environment variables." [] ;;;
    print "Please ensure .env file contains: x-api-key and x-api-secret" [] ;;;
    ret None
  else
    print "Processing space: {space_name}" [PStr space_name] ;;;
    print "============================================================" [] ;;;
    try_except
      (let repos_url := api +:+ space_name +:+ "/repos.json" in
       print "Fetching repository details from: {repos_url}" [PStr repos_url] ;;;
       let* repos_response := requests_get repos_url None in
       raise_for_status repos_response ;;;
       let* repos_data := response_json repos_response in
       let* repos := lift (py_iter repos_data) in
       let* repos_lookup := lift (build_lookup repos []) in
       let space_tools_url := api +:+ space_name +:+ "/space_tools.json" in
       print "Fetching space tools from: {space_tools_url}" [PStr space_tools_url] ;;;
       let* response := requests_get space_tools_url None in
       raise_for_status response ;;;
       let* space_tools := response_json response in
       let* tools := lift (py_iter space_tools) in
       let* repositories := merge_tools space_name repos_lookup tools [] in
       match repositories with
       | [] =>
           print "No repositories found in this space" [] ;;;
           ret None
       | _ =>
           print "Found {len(repositories)} repositories:"
                 [PInt (Z.of_nat (length repositories))] ;;;
           print "============================================================" [] ;;;
           for_each report_repository (enumerate 1 repositories) ;;;
           ret (Some repositories)
       end)
      (fun e =>
         match e with
         | RequestException => print "API request error: {e}" [PStr (exn_name e)]
         | JSONDecodeError => print "JSON parsing error: {e}" [PStr (exn_name e)]
         | _ => print "Unexpected error: {e}" [PStr (exn_name e)]
         end ;;;
         ret None).

(** The loop of lines 511-519 over the spaces of the space list. *)
Fixpoint fetch_spaces (api_key api_secret : option string) (spaces : list string)
    (all_repositories : list (gmap string pyval))
    : M unit (list (gmap string pyval)) :=
  match spaces with
  | [] => ret all_repositories
  | space_name :: rest =>
      print "Fetching repositories for space: {space_name}" [PStr space_name] ;;;
      let* repositories :=
        fetch_assembla_repositories_for_space api_key api_secret space_name in
      match repositories with
      | Some (r :: rs) =>
          print "Found {len(repositories)} repositories in {space_name}"
                [PInt (Z.of_nat (length (r :: rs))); PStr space_name] ;;;
          fetch_spaces api_key api_secret rest (all_repositories ++ r :: rs)
      | _ =>
          print "No repositories found or error occurred for space: {space_name}"
                [PStr space_name] ;;;
          fetch_spaces api_key api_secret rest all_repositories
      end
  end.

(** [fetch_all_repositories()], for the list of spaces that
    [load_spaces_from_csv] read from the space list. *)
Definition fetch_all_repositories (api_key api_secret : option string)
    (spaces : list string) : M unit (option (list (gmap string pyval))) :=
  match spaces with
  | [] => ret None
  | _ =>
      let* all_repositories := fetch_spaces api_key api_secret spaces [] in
      ret (Some all_repositories)
  end.

End Program.

(** ** The exporter *)

(** The exporter's [is_empty] (lines 462-466). *)
Definition exporter_is_empty (repo : gmap string pyval) : bool :=
  py_eq (dget repo "commits_count" (PInt 0)) (PInt 0) &&
  py_eq (dget repo "branches_count" (PInt 0)) (PInt 0) &&
  py_eq (dget repo "size" (PInt 0)) (PInt 0) &&
  negb (truthy (dget repo "last_commit_at" PNone)) &&
  negb (truthy (dget repo "has_commits_indicator" (PBool false))).

(** Lines 445-450. *)
Definition csv_headers : list string :=
  ["Space_Name"; "ID"; "Technical_Name"; "Repository_Name"; "Type"; "Created_At";
   "Updated_At"; "Size_Bytes"; "Size_MB"; "Default_Branch"; "Last_Commit_At";
   "Commits_Count"; "Branches_Count"; "Tags_Count"; "Merge_Requests_Count";
   "Is_Empty"; "Last_Commit_Author"; "Last_Commit_Message"; "HTTPS_Clone_URL";
   "SSH_Clone_URL"].

(** Line 486. *)
Definition is_empty_cell (repo : gmap string pyval) : string :=
  let is_empty := exporter_is_empty repo in
  let is_imported := truthy (dget repo "is_likely_imported" (PBool false)) in
  if is_empty then "True" else if is_imported then "Imported" else "False".

(** Lines 470-491: the row of one record. *)
Definition csv_row (repo : gmap string pyval) : list pyval :=
  [dget repo "space_name" (PStr ""); dget repo "id" (PStr "");
   dget repo "name" (PStr ""); dget repo "menu_name" (PStr "");
   dget repo "type" (PStr ""); dget repo "created_at" (PStr "");
   dget repo "updated_at" (PStr ""); dget repo "size" (PStr "");
   dget repo "size_mb" (PStr ""); dget repo "default_branch" (PStr "");
   dget repo "last_commit_at" (PStr ""); dget repo "commits_count" (PStr "");
   dget repo "branches_count" (PStr ""); dget repo "tags_count" (PStr "");
   dget repo "merge_requests_count" (PStr ""); PStr (is_empty_cell repo);
   dget repo "last_commit_author" (PStr ""); dget repo "last_commit_message" (PStr "");
   dget repo "clone_url_https" (PStr ""); dget repo "clone_url_ssh" (PStr "")].

(** What the file system does with the report: [open] raises; or the
    file is created and the writer takes [k] rows and raises at the next
    one; or every row is written. *)
Inductive disk : Type :=
  | OpenFails
  | WriteFails (k : nat)
  | Writes.

(** [writer.writerow(row)]; the local variable is the file: [None] while
    it is not created, else the rows written to it. *)
Definition writerow (d : disk) (row : list pyval)
    : M (option (list (list pyval))) control :=
  let* file := read id in
  match file with
  | None => raise OSError
  | Some rows =>
      match d with
      | WriteFails k =>
          if Nat.eqb (length rows) k then raise OSError
          else assign (fun _ => Some (rows ++ [row])) ;;; ret Continue
      | _ => assign (fun _ => Some (rows ++ [row])) ;;; ret Continue
      end
  end.

(** [save_repositories_to_csv(repositories, filename)] (lines 439-497).
    The result is the file after the call. *)
Definition save_repositories_to_csv (d : disk) (repositories : list (gmap string pyval))
    : M (option (list (list pyval))) (option (list (list pyval))) :=
  match repositories with
  | [] => ret None
  | _ =>
      try_except
        ((match d with
          | OpenFails => raise OSError
          | _ => assign (fun _ => Some [])
          end) ;;;
         writerow d (map PStr csv_headers) ;;;
         for_each (fun repo => writerow d (csv_row repo)) repositories ;;;
         print "CSV file saved successfully with {len(repositories)} records"
               [PInt (Z.of_nat (length repositories))])
        (fun e => print "Error saving CSV file: {e}" [PStr (exn_name e)]) ;;;
      read id
  end.

(** ** Reasoning about statements *)

(** [post m st Q]: running [m] from [st] ends, normally or by an
    exception, in a result and a state that satisfy [Q]. *)
Definition post {L A} (m : M L A) (st : world * L)
    (Q : result A -> world * L -> Prop) : Prop :=
  Q (fst (m st)) (snd (m st)).

(** [m] keeps the property [I] of the local variables, however it ends. *)
Definition keeps {L A} (I : L -> Prop) (m : M L A) : Prop :=
  forall st, I (snd st) -> post m st (fun _ st' => I (snd st')).

(** [m] keeps [I] and ends normally. *)
Definition completes {L A} (I : L -> Prop) (m : M L A) : Prop :=
  forall st, I (snd st) ->
    post m st (fun r st' => (exists a, r = Ok a) /\ I (snd st')).


(** ** Notions the statements use *)

(** The value is the number zero: [0], [0.0] or [False]. *)
Definition is_zero (v : pyval) : Prop := hundredths v = Some 0.

(** The specification's size in megabytes: [round(bytes / 1,048,576, 2)]. *)
Definition spec_size_mb (bytes : Z) : pyval :=
  PFloat2 (round_half_even_div (100 * bytes) 1048576).

(** *** The fallback chains *)

(** An alternate branch-listing URL settles the chain when its response
    has status 200 and a body that decodes to a value with a length. *)
Definition branches_accepted (o : outcome) : bool :=
  match o with
  | Failed => false
  | Received r =>
      (status_code r =? 200) &&
      match json_body r with
      | Some body => match py_len body with Ok _ => true | Raise _ => false end
      | None => false
      end
  end.

(** An alternate commit-listing URL settles the chain when, moreover, the
    body is empty or its first item can be taken. *)
Definition commits_accepted (o : outcome) : bool :=
  match o with
  | Failed => false
  | Received r =>
      (status_code r =? 200) &&
      match json_body r with
      | Some body =>
          match py_len body with
          | Ok _ =>
              negb (truthy body) ||
              match py_first body with Ok _ => true | Raise _ => false end
          | Raise _ => false
          end
      | None => false
      end
  end.

(** The design notes' short-circuit iteration: the candidates are
    requested in order, and none after the first accepted one.  The
    result is the list of requests made, [log] being those made before. *)
Fixpoint probe (env : list request -> request -> outcome)
    (accepted : outcome -> bool) (log : list request) (urls : list string)
    : list request :=
  match urls with
  | [] => []
  | url :: rest =>
      let rq := Request url None in
      if accepted (env log rq) then [rq]
      else rq :: probe env accepted (log ++ [rq]) rest
  end.

(** The answers that the candidates get, numbered from [i], up to the
    first accepted one. *)
Fixpoint probe_answers (env : list request -> request -> outcome)
    (accepted : outcome -> bool) (log : list request) (i : Z) (urls : list string)
    : list (Z * outcome) :=
  match urls with
  | [] => []
  | url :: rest =>
      let rq := Request url None in
      if accepted (env log rq) then [(i, env log rq)]
      else (i, env log rq) :: probe_answers env accepted (log ++ [rq]) (i + 1) rest
  end.

(** An alternate that answers with status 200 and is not accepted is
    reported: [lines] holds the exception line with its number. *)
Definition turned_down (accepted : outcome -> bool) (line : string) (i : Z)
    (o : outcome) (lines : list message) : Prop :=
  forall r, o = Received r -> status_code r = 200 -> accepted o = false ->
    exists e, Message line [PInt i; PStr (exn_name e)] ∈ lines.

(** *** Worked examples *)

(** A service that answers by URL from a table, and 404 for any other URL. *)
Definition serve (table : list (string * response)) : list request -> request -> outcome :=
  fun _ rq =>
    match list_find (fun entry => String.eqb (fst entry) (req_url rq)) table with
    | Some (_, (_, r)) => Received r
    | None => Received (Response 404 None "Not Found")
    end.

(** No example below puts a list, a dictionary or a float in an f-string,
    so any [repr] does for them. *)
Definition plain_repr : pyval -> string := fun _ => "".

Definition json (v : pyval) : response := Response 200 (Some v) "".

Definition no_content : response := Response 204 None "".

Definition space_url (path : string) : string :=
  "https://in-api.assembla.com/v1/spaces/demo" +:+ path.

(** The space-wide branch listing has no content, the first alternate
    answers 200 with a page that is not JSON, the second with one branch. *)
Definition html_first_alternate : list request -> request -> outcome :=
  serve
    [(space_url "/repos/git/branches", no_content);
     (space_url "/space_tools/7/git/branches", Response 200 None "<html>");
     (space_url "/repos/7/git/branches", json (PList [PDict [("name", PStr "main")]]));
     (space_url "/git_repos/7/branches", json (PList []));
     (space_url "/repos/git/commits", json (PList []))].

(** Every request is answered with status 500. *)
Definition server_error : list request -> request -> outcome :=
  fun _ _ => Received (Response 500 None "Internal Server Error").

(** A repository without branches whose only commit has a null message. *)
Definition null_message : list request -> request -> outcome :=
  serve
    [(space_url "/repos/git/branches", json (PList []));
     (space_url "/repos/git/tags", json (PList []));
     (space_url "/repos/git/commits",
      json (PList [PDict [("id", PStr "c1"); ("message", PNone)]]));
     (space_url "/space_tools/7/merge_requests.json", json (PList []))].

(** *** The per-branch aggregation *)

(** The lists [all_commits] goes through: a payload is appended when its
    key is computed and equals the key of none of the payloads kept. *)
Inductive aggregate (repr_other : pyval -> string) : list pyval -> Prop :=
  | aggregate_nil : aggregate repr_other []
  | aggregate_snoc (kept : list pyval) (commit key : pyval) :
      aggregate repr_other kept ->
      commit_key repr_other commit = Ok key ->
      is_duplicate repr_other key kept = Ok false ->
      aggregate repr_other (kept ++ [commit]).



(** The value is an item of a body the service sent. *)
Definition served (env : list request -> request -> outcome) (item : pyval) : Prop :=
  exists log rq r body items,
    env log rq = Received r /\ json_body r = Some body /\
    py_iter body = Ok items /\ item ∈ items.

(** What holds of the commit variables while the branches are visited:
    the kept payloads were served, they form an aggregate, and the latest
    commit, once there is one, is a kept payload with the timestamp
    recorded for it. *)
Definition branch_aggregation (repr_other : pyval -> string)
    (env : list request -> request -> outcome) (l : locals) : Prop :=
  exists kept,
    all_commits l = PList kept /\
    aggregate repr_other kept /\
    Forall (served env) kept /\
    (latest_commit l = PNone \/
     (latest_commit l ∈ kept /\
      commit_date_of (latest_commit l) = Ok (latest_commit_date l) /\
      truthy (latest_commit_date l) = true)).

(** The value is a body the service sent. *)
Definition from_service (env : list request -> request -> outcome) (v : pyval) : Prop :=
  exists log rq r, env log rq = Received r /\ json_body r = Some v.

(** What holds of the commit variables when no branch is known: the
    commits are a body of the service, unless none was taken, and the
    latest commit, once there is one, is its first item. *)
Definition unbranched_commits (env : list request -> request -> outcome)
    (l : locals) : Prop :=
  (all_commits l = PList [] \/ from_service env (all_commits l)) /\
  (latest_commit l = PNone \/
   (truthy (all_commits l) = true /\
    py_first (all_commits l) = Ok (latest_commit l))).

(** What [gather] establishes, whatever the service answers. *)
Definition gathered (repr_other : pyval -> string)
    (env : list request -> request -> outcome) (l : locals) : Prop :=
  if truthy (branches_list l) then branch_aggregation repr_other env l
  else unbranched_commits env l.

(** Two branches whose listings share a commit: [main] names it by [id],
    [dev] by [sha]. *)
Definition two_branches : list request -> request -> outcome :=
  fun _ rq =>
    if String.eqb (req_url rq) (space_url "/repos/git/branches") then
      Received (json (PList [PDict [("name", PStr "main")];
                             PDict [("name", PStr "dev")]]))
    else if String.eqb (req_url rq) (space_url "/repos/git/commits") then
      match req_branch rq with
      | Some (PStr "main") =>
          Received (json (PList [PDict [("id", PStr "a1")];
                                 PDict [("id", PStr "b2")]]))
      | Some (PStr "dev") =>
          Received (json (PList [PDict [("sha", PStr "b2")];
                                 PDict [("sha", PStr "c3")]]))
      | _ => Received (Response 404 None "Not Found")
      end
    else Received (Response 404 None "Not Found").

(** Three branches, and a commit listing that answers 204 for each. *)
Definition three_silent_branches : list request -> request -> outcome :=
  serve
    [(space_url "/repos/git/branches",
      json (PList [PDict [("name", PStr "main")]; PDict [("name", PStr "dev")];
                   PDict [("name", PStr "release")]]));
     (space_url "/repos/git/tags", no_content);
     (space_url "/repos/git/commits", no_content)].


(** A space with a wiki and a ticket tool, and no repository. *)
Definition no_repository_tool : list request -> request -> outcome :=
  serve
    [(space_url "/repos.json", json (PList []));
     (space_url "/space_tools.json",
      json (PList [PDict [("id", PStr "w1"); ("type", PStr "WikiTool")];
                   PDict [("id", PStr "t1"); ("type", PStr "TicketTool")]]))].

(** One branch with one commit that has no timestamp field. *)
Definition undated_commit : list request -> request -> outcome :=
  serve
    [(space_url "/repos/git/branches", json (PList [PDict [("name", PStr "main")]]));
     (space_url "/repos/git/tags", json (PList []));
     (space_url "/repos/git/commits",
      json (PList [PDict [("id", PStr "a1"); ("message", PStr "first")]]))].

(** ** Notions of the further properties *)

(** The keys of the statistics dictionary (lines 215-223). *)
Definition stat_keys : gset string :=
  list_to_set
    ["commits_count"; "branches_count"; "tags_count"; "merge_requests_count";
     "last_commit_author"; "last_commit_message"; "last_commit_at"].

Definition count_keys : list string :=
  ["commits_count"; "branches_count"; "tags_count"; "merge_requests_count"].

(** A statistics dictionary as the enricher hands it over: exactly the
    seven keys, the four counts integers that are not negative, the
    message a string. *)
Definition well_formed_stats (s : gmap string pyval) : Prop :=
  dom s = stat_keys /\
  (forall k, k ∈ count_keys -> exists n, s !! k = Some (PInt n) /\ 0 <= n) /\
  (exists m, s !! "last_commit_message" = Some (PStr m)).

(** A commit or branch entry as the enricher can take it: a JSON object
    whose [message], when it has one, is a string. *)
Definition entry_shaped (c : pyval) : bool :=
  match c with
  | PDict d =>
      match dict_lookup "message" d with
      | Some (PStr _) | None => true
      | Some _ => false
      end
  | _ => false
  end.

(** A body as the enricher can take it: a list of such entries. *)
Definition body_shaped (v : pyval) : bool :=
  match v with
  | PList items => forallb entry_shaped items
  | _ => false
  end.

(** Every body that the service sends and that decodes is such a list. *)
Definition well_shaped (env : list request -> request -> outcome) : Prop :=
  forall log rq r body,
    env log rq = Received r -> json_body r = Some body -> body_shaped body = true.

(** What [set_final_statistics] needs of the commit variables. *)
Definition settled (l : locals) : Prop :=
  (exists n, py_len (all_commits l) = Ok n) /\
  (truthy (latest_commit l) = true -> entry_shaped (latest_commit l) = true).

(** The fields a record takes from its tool entry and its space (lines
    98-107). *)
Definition identity_keys : list string :=
  ["id"; "name"; "menu_name"; "type"; "created_at"; "updated_at"; "space_id";
   "space_name"].

(** [tool.get(k)] on a tool entry that is a JSON object. *)
Definition tool_field (dt : list (string * pyval)) (k : string) : pyval :=
  match dict_lookup k dt with
  | Some v => v
  | None => PNone
  end.

(** What the identity fields of the record of a tool entry must hold. *)
Definition tool_identity (space_name : string) (dt : list (string * pyval))
    (k : string) : pyval :=
  if String.eqb k "space_id" || String.eqb k "space_name" then PStr space_name
  else tool_field dt k.

(** A space with one Git repository that has a detail record with a
    last-commit timestamp, and a wiki. *)
Definition imported_repository : list request -> request -> outcome :=
  serve
    [(space_url "/repos.json",
      json (PList [PDict [("id", PInt 7); ("size", PInt 0);
                          ("last_commit_at", PStr "2024-05-01T10:00:00Z")]]));
     (space_url "/space_tools.json",
      json (PList [PDict [("id", PStr "w1"); ("type", PStr "WikiTool")];
                   PDict [("id", PInt 7); ("type", PStr "GitTool");
                          ("menu_name", PStr "legacy")]]));
     (space_url "/repos/git/branches", no_content);
     (space_url "/repos/git/tags", no_content);
     (space_url "/repos/git/commits", Response 422 None "")].

(** The tool entry is a JSON object of one of the three repository
    kinds. *)
Definition is_repository_tool (tool : pyval) : bool :=
  match tool with
  | PDict dt => py_in (tool_field dt "type") repo_types
  | _ => false
  end.

(** The record carries the identity of the tool entry. *)
Definition record_of_tool (space_name : string) (record : gmap string pyval)
    (tool : pyval) : Prop :=
  exists dt,
    tool = PDict dt /\
    forall k, k ∈ identity_keys -> record !! k = Some (tool_identity space_name dt k).

(** Every timestamp that an item sent by the service carries is a
    string. *)
Definition string_dated (env : list request -> request -> outcome) : Prop :=
  forall c v, served env c -> commit_date_of c = Ok v -> exists t, v = PStr t.

(** The recorded timestamp is below that of no kept commit: either none
    is recorded and no kept commit has one, or it is the timestamp of the
    latest commit, a kept one, and no timestamp of a kept commit exceeds
    it. *)
Definition latest_is_maximal (l : locals) : Prop :=
  exists kept,
    all_commits l = PList kept /\
    ((latest_commit_date l = PNone /\
      forall c t, c ∈ kept -> commit_date_of c = Ok (PStr t) -> t = "") \/
     (exists t',
        latest_commit_date l = PStr t' /\
        latest_commit l ∈ kept /\
        commit_date_of (latest_commit l) = Ok (PStr t') /\
        forall c t, c ∈ kept -> commit_date_of c = Ok (PStr t) ->
                    String.ltb t' t = false)).

(** The timestamp of the item, if it has one, is a string. *)
Definition dated_entry (c : pyval) : bool :=
  match commit_date_of c with
  | Ok (PStr _) | Raise _ => true
  | Ok _ => false
  end.

Definition dated_body (v : pyval) : bool :=
  match py_iter v with
  | Ok items => forallb dated_entry items
  | Raise _ => true
  end.

(** One branch whose commits come newest last but one, with timestamps in
    different fields. *)
Definition dated_commits : list request -> request -> outcome :=
  serve
    [(space_url "/repos/git/branches", json (PList [PDict [("name", PStr "main")]]));
     (space_url "/repos/git/commits",
      json (PList [PDict [("id", PStr "a1"); ("authored_at", PStr "2024-01-02")];
                   PDict [("id", PStr "b2"); ("date", PStr "2024-03-01")];
                   PDict [("id", PStr "c3"); ("committed_at", PStr "2024-02-01")]]))].

(** ** The space list *)

(** [c.isspace()], for the code points below 256. *)
Definition py_isspace (c : Ascii.ascii) : bool :=
  let n := Ascii.N_of_ascii c in
  ((9 <=? n) && (n <=? 13) || (28 <=? n) && (n <=? 32) || (n =? 133) || (n =? 160))%N.

(** [s.lstrip()], [s.rstrip()] and [s.strip()]. *)
Fixpoint py_lstrip (s : string) : string :=
  match s with
  | EmptyString => EmptyString
  | String c rest => if py_isspace c then py_lstrip rest else s
  end.

Fixpoint py_rstrip (s : string) : string :=
  match s with
  | EmptyString => EmptyString
  | String c rest =>
      let kept := py_rstrip rest in
      if py_isspace c && String.eqb kept "" then EmptyString else String c kept
  end.

Definition py_strip (s : string) : string := py_rstrip (py_lstrip s).

(** What opening and reading the space list gives: no such file; another
    failure of [open] or of the reader, with its text; or the rows of the
    [csv.DictReader], each a dictionary from the column names to the
    fields of the row, [None] for a field that a short row lacks. *)
Inductive space_list : Type :=
  | NoSuchFile
  | ReadError (text : string)
  | Rows (rows : list (gmap string (option string))).

(** [row['space_name'].strip()] (line 19). *)
Definition space_name_of (row : gmap string (option string)) : result string :=
  match row !! "space_name" with
  | None => Raise KeyError
  | Some None => Raise AttributeError
  | Some (Some field) => Ok (py_strip field)
  end.

Definition placeholder : string := "My Project Space".

(** The body of the loop of lines 18-21; the local variable is [spaces]. *)
Definition load_row (row : gmap string (option string)) : M (list string) control :=
  let* space_name := lift (space_name_of row) in
  if negb (String.eqb space_name "") && negb (String.eqb space_name placeholder) then
    assign (fun spaces => spaces ++ [space_name]) ;;;
    ret Continue
  else ret Continue.

(** [load_spaces_from_csv(csv_filename)], given what reading the file
    gives. *)
Definition load_spaces_from_csv (csv_filename : string) (source : space_list)
    : M (list string) (list string) :=
  match source with
  | NoSuchFile =>
      print "Error: {csv_filename} not found." [PStr csv_filename] ;;;
      print "Please create the file with column: space_name" [] ;;;
      ret []
  | ReadError text =>
      print "Error reading {csv_filename}: {e}" [PStr csv_filename; PStr text] ;;;
      ret []
  | Rows rows =>
      try_except
        (for_each load_row rows ;;;
         let* spaces := read id in
         match spaces with
         | [] =>
             print "No valid spaces found in {csv_filename}" [PStr csv_filename] ;;;
             print "Please update the CSV file with your actual space names" [] ;;;
             ret spaces
         | _ => ret spaces
         end)
        (fun e =>
           print "Error reading {csv_filename}: {e}"
                 [PStr csv_filename; PStr (exn_name e)] ;;;
           ret [])
  end.

(** A name that the run can use: not empty, not the placeholder of the
    example file, no white space at either end. *)
Definition usable_name (s : string) : Prop :=
  s <> "" /\ s <> placeholder /\
  (forall c rest, s = String c rest -> py_isspace c = false) /\
  (forall front c, s = front +:+ String c "" -> py_isspace c = false).

Definition is_usable (s : string) : bool :=
  negb (String.eqb s "") && negb (String.eqb s placeholder).

(** The fields of the column [space_name], when every row has one. *)
Definition space_names (rows : list (gmap string (option string)))
    : option (list string) :=
  mapM (fun row : gmap string (option string) => row !! "space_name" ≫= id) rows.

(** What the lister returns: nothing, or one record for each repository
    tool of a tool listing that the service sent, in the order of the
    listing. *)
Definition listed (env : list request -> request -> outcome) (space_name : string)
    (r : result (option (list (gmap string pyval)))) : Prop :=
  match r with
  | Ok None => True
  | Ok (Some records) =>
      records <> [] /\
      exists body tools,
        from_service env body /\ py_iter body = Ok tools /\
        Forall2 (record_of_tool space_name) records
                (List.filter is_repository_tool tools)
  | Raise _ => False
  end.

(** The record carries the name of one of the spaces. *)
Definition belongs_to (spaces : list string) (record : gmap string pyval) : Prop :=
  exists space_name,
    space_name ∈ spaces /\ record !! "space_name" = Some (PStr space_name).

(** ** The entry point *)

(** The body of the loop of lines 537-541; the local variable is
    [spaces_summary], a dictionary in insertion order whose values the
    loop makes integers. *)
Definition count_record (repo : gmap string pyval)
    : M (list (pyval * pyval)) control :=
  let space_name := dget repo "space_name" (PStr "Unknown") in
  let* summary := read id in
  let* known := lift (lookup_has space_name summary) in
  (if negb known then assign (lookup_set space_name (PInt 0)) else ret tt) ;;;
  let* summary := read id in
  match lookup_find space_name summary with
  | Some (PInt n) => assign (lookup_set space_name (PInt (n + 1))) ;;; ret Continue
  | Some _ => raise TypeError
  | None => raise KeyError
  end.

(** Lines 536-541. *)
Definition summarize (repositories : list (gmap string pyval))
    : M (list (pyval * pyval)) (list (pyval * pyval)) :=
  for_each count_record repositories ;;;
  read id.

(** The number that the summary holds for a space name, 0 for a name it
    does not hold. *)
Definition tally (summary : list (pyval * pyval)) (space_name : string) : Z :=
  match lookup_find (PStr space_name) summary with
  | Some (PInt n) => n
  | _ => 0
  end.

(** The name under which the summary counts a record. *)
Definition counted_under (repo : gmap string pyval) (space_name : string) : bool :=
  py_eq (dget repo "space_name" (PStr "Unknown")) (PStr space_name).

(** The record is counted under a string. *)
Definition named (repo : gmap string pyval) : Prop :=
  exists space_name, dget repo "space_name" (PStr "Unknown") = PStr space_name.

(** The rows of the report for the records: the header row, then one
    row for each record. *)
Definition report_rows (repositories : list (gmap string pyval)) : list (list pyval) :=
  map PStr csv_headers :: map csv_row repositories.

(** What the file system leaves of the rows handed to the writer. *)
Definition written (d : disk) (rows : list (list pyval)) : option (list (list pyval)) :=
  match d with
  | OpenFails => None
  | WriteFails k => Some (take k rows)
  | Writes => Some rows
  end.

(** Whether every one of [n] rows gets written. *)
Definition complete (d : disk) (n : nat) : bool :=
  match d with
  | OpenFails => false
  | WriteFails k => (n <=? k)%nat
  | Writes => true
  end.

(** The line that ends a call of the exporter. *)
Definition closing_line (d : disk) (repositories : list (gmap string pyval)) : message :=
  if complete d (S (length repositories)) then
    Message "CSV file saved successfully with {len(repositories)} records"
            [PInt (Z.of_nat (length repositories))]
  else Message "Error saving CSV file: {e}" [PStr "OSError"].

Section Entry.
Variable repr_other : pyval -> string.
Variable env : list request -> request -> outcome.

(** [fetch_all_repositories()] with its call of the loader (lines
    503-521). *)
Definition load_and_fetch (api_key api_secret : option string) (source : space_list)
    : M unit (option (list (gmap string pyval))) :=
  let* spaces := call [] (load_spaces_from_csv "space_list.csv" source) in
  fetch_all_repositories repr_other env api_key api_secret spaces.

(** [main()] (lines 523-555), given the two credentials of the
    environment, what reading the space list gives, the time stamp of the
    clock and what the file system does with the report.  The result is
    the file that the run leaves, if any: its name and its rows. *)
Definition main (api_key api_secret : option string) (source : space_list)
    (timestamp : string) (d : disk)
    : M unit (option (string * list (list pyval))) :=
  print "Assembla Repositories Metadata Fetcher (Multiple Spaces)" [] ;;;
  print "============================================================" [] ;;;
  let* all_repositories := load_and_fetch api_key api_secret source in
  match all_repositories with
  | Some (r :: rs) =>
      let repositories := r :: rs in
      print "============================================================" [] ;;;
      print "SUMMARY: Successfully fetched {len(all_repositories)} repositories from all spaces!"
            [PInt (Z.of_nat (length repositories))] ;;;
      let* spaces_summary := call [] (summarize repositories) in
      print "Repositories per space:" [] ;;;
      for_each
        (fun entry : pyval * pyval =>
           print "  {space_name}: {count} repositories" [fst entry; snd entry] ;;;
           ret Continue)
        spaces_summary ;;;
      let csv_filename := "assembla_repositories_" +:+ timestamp +:+ ".csv" in
      let* file := call None (save_repositories_to_csv d repositories) in
      print "Results saved to {csv_filename}" [PStr csv_filename] ;;;
      ret (option_map (fun rows => (csv_filename, rows)) file)
  | _ =>
      print "Failed to fetch repositories. Please check your configuration and try again." [] ;;;
      print "Make sure:" [] ;;;
      print "1. space_list.csv exists with valid space IDs" [] ;;;
      print "2. .env file contains valid x-api-key and x-api-secret" [] ;;;
      ret None
  end.

End Entry.

(** The records of what the lister, or the run, returned. *)
Definition records_of (found : option (list (gmap string pyval)))
    : list (gmap string pyval) :=
  match found with
  | Some records => records
  | None => []
  end.

(** The file that the entry point leaves for what the run fetched. *)
Definition report_of (timestamp : string) (d : disk)
    (fetched : option (list (gmap string pyval)))
    : option (string * list (list pyval)) :=
  match records_of fetched with
  | [] => None
  | repositories =>
      option_map
        (fun rows => ("assembla_repositories_" +:+ timestamp +:+ ".csv", rows))
        (written d (report_rows repositories))
  end.

(** A summary whose keys are strings and whose values are integers. *)
Definition string_keyed (summary : list (pyval * pyval)) : Prop :=
  Forall (fun entry => exists s n, entry = (PStr s, PInt n)) summary.

(** A repository tool whose detail record has a size that cannot be
    compared with 0, such as a JSON null. *)
Definition bad_size (repos_lookup : list (pyval * pyval)) (tool : pyval) : Prop :=
  exists dt d,
    tool = PDict dt /\
    py_in (tool_field dt "type") repo_types = true /\
    hashable (tool_field dt "id") = true /\
    lookup_find (tool_field dt "id") repos_lookup = Some (PDict d) /\
    py_gt (match dict_lookup "size" d with Some v => v | None => PInt 0 end) (PInt 0)
      = None.

(** The response is not one that [raise_for_status] refuses. *)
Definition accepted (r : response) : bool :=
  negb ((400 <=? status_code r) && (status_code r <? 600)).

(** A space whose only repository has a detail record with a null
    size. *)
Definition null_size : list request -> request -> outcome :=
  serve
    [(space_url "/repos.json", json (PList [PDict [("id", PInt 7); ("size", PNone)]]));
     (space_url "/space_tools.json",
      json (PList [PDict [("id", PInt 7); ("type", PStr "SubversionTool")]]))].

(** The warning of line 142 for a tool entry and an exception. *)
Definition statistics_warning (tool : pyval) (e : exn) : message :=
  Message "Warning: Could not fetch statistics for repo {tool.get('menu_name')}: {e}"
    [match py_get tool "menu_name" PNone with Ok v => v | Raise _ => PNone end;
     PStr (exn_name e)].

(** The last two lines of a record are about its last commit. *)
Definition last_commit_line (m : message) : Prop :=
  msg_template m = "  Last Author: {repo.get('last_commit_author', 'N/A')}" \/
  msg_template m = "  Last Message: {message}".


Section PostRules.
Context {L : Type}.

Lemma post_ret {A} (a : A) (st : world * L) Q :
  Q (Ok a) st -> post (ret a) st Q.
Proof. exact (fun H => H). Qed.

Lemma post_lift {A} (r : result A) (st : world * L) Q :
  Q r st -> post (lift r) st Q.
Proof. exact (fun H => H). Qed.

Lemma post_raise {A} (e : exn) (st : world * L) (Q : result A -> _ -> Prop) :
  Q (Raise e) st -> post (raise e) st Q.
Proof. exact (fun H => H). Qed.

Lemma post_read {X} (f : L -> X) (st : world * L) Q :
  Q (Ok (f (snd st))) st -> post (read f) st Q.
Proof. exact (fun H => H). Qed.

Lemma post_assign (f : L -> L) (st : world * L) Q :
  Q (Ok tt) (fst st, f (snd st)) -> post (assign f) st Q.
Proof. exact (fun H => H). Qed.

Lemma post_print (t : string) (args : list pyval) (st : world * L) Q :
  Q (Ok tt)
    (World (requests (fst st)) (output (fst st) ++ [Message t args]), snd st) ->
  post (print t args) st Q.
Proof. exact (fun H => H). Qed.

Lemma post_bind {A B} (m : M L A) (k : A -> M L B) (st : world * L) Q :
  post m st (fun r st' =>
    match r with
    | Ok a => post (k a) st' Q
    | Raise e => Q (Raise e) st'
    end) ->
  post (bind m k) st Q.
Proof.
  unfold post, bind. destruct (m st) as [[a|e] st']; simpl; auto.
Qed.

Lemma post_try {A} (body : M L A) (handler : exn -> M L A) (st : world * L) Q :
  post body st (fun r st' =>
    match r with
    | Ok a => Q (Ok a) st'
    | Raise e => post (handler e) st' Q
    end) ->
  post (try_except body handler) st Q.
Proof.
  unfold post, try_except. destruct (body st) as [[a|e] st']; simpl; auto.
Qed.

Lemma post_mono {A} (m : M L A) (st : world * L) (Q Q' : result A -> _ -> Prop) :
  post m st Q -> (forall r st', Q r st' -> Q' r st') -> post m st Q'.
Proof. unfold post. auto. Qed.

Lemma post_for_each_break {X} (body : X -> M L control) (inv : world * L -> Prop)
    (xs : list X) (st : world * L) Q :
  inv st ->
  (forall x st0, x ∈ xs -> inv st0 ->
     post (body x) st0 (fun r st' =>
       match r with
       | Ok Continue => inv st'
       | Ok Break => Q (Ok tt) st'
       | Raise e => Q (Raise e) st'
       end)) ->
  (forall st', inv st' -> Q (Ok tt) st') ->
  post (for_each body xs) st Q.
Proof.
  intros Hst Hbody Hend. revert st Hst.
  induction xs as [|x xs IH]; intros st Hst; simpl.
  - apply post_ret. auto.
  - apply post_bind.
    eapply post_mono; [apply (Hbody x st); [left | exact Hst]|].
    intros [c|e] st' H; [|exact H].
    destruct c.
    + apply IH; [|exact H]. intros y st0 Hy. apply Hbody. right. exact Hy.
    + apply post_ret. exact H.
Qed.

Lemma post_for_each {X} (body : X -> M L control) (inv : world * L -> Prop)
    (xs : list X) (st : world * L) Q :
  inv st ->
  (forall x st0, x ∈ xs -> inv st0 ->
     post (body x) st0 (fun r st' =>
       match r with
       | Ok _ => inv st'
       | Raise e => Q (Raise e) st'
       end)) ->
  (forall st', inv st' -> Q (Ok tt) st') ->
  post (for_each body xs) st Q.
Proof.
  intros Hst Hbody Hend.
  apply post_for_each_break with (inv := inv); auto.
  intros x st0 Hx H0. eapply post_mono; [apply (Hbody x st0 Hx H0)|].
  intros [[|]|e] st' H; auto.
Qed.

End PostRules.

Lemma post_call {L L' A} (fresh : L') (callee : M L' A) (st : world * L) Q :
  post callee (fst st, fresh) (fun r st' => Q r (fst st', snd st)) ->
  post (call fresh callee) st Q.
Proof.
  unfold post, call. destruct (callee (fst st, fresh)) as [r [w l']]. auto.
Qed.

Lemma post_requests_get {L} (env : list request -> request -> outcome)
    (url : string) (branch : option pyval) (st : world * L) Q :
  (forall o, o = env (requests (fst st)) (Request url branch) ->
     Q (match o with Failed => Raise RequestException | Received r => Ok r end)
       (World (requests (fst st) ++ [Request url branch]) (output (fst st)), snd st)) ->
  post (requests_get env url branch) st Q.
Proof.
  intros H. unfold post, requests_get.
  specialize (H _ eq_refl).
  destruct (env (requests (fst st)) (Request url branch)); exact H.
Qed.

Lemma post_response_json {L} (r : response) (st : world * L) Q :
  (forall body, json_body r = Some body -> Q (Ok body) st) ->
  (json_body r = None -> Q (Raise JSONDecodeError) st) ->
  post (response_json r) st Q.
Proof.
  intros H1 H2. unfold post, response_json, lift. simpl.
  destruct (json_body r); auto.
Qed.

(** One step of symbolic execution of the statement in the goal. *)
Ltac wp_step :=
  lazymatch goal with
  | |- post (bind _ _) _ _ => apply post_bind
  | |- post (ret _) _ _ => apply post_ret
  | |- post (lift _) _ _ => apply post_lift
  | |- post (raise _) _ _ => apply post_raise
  | |- post (read _) _ _ => apply post_read
  | |- post (assign _) _ _ => apply post_assign
  | |- post (print _ _) _ _ => apply post_print
  | |- post (try_except _ _) _ _ => apply post_try
  | |- post (call _ _) _ _ => apply post_call
  | |- post (requests_get _ _ _) _ _ =>
      let o := fresh "o" in
      let Ho := fresh "Ho" in
      apply post_requests_get; intros o Ho;
      cbn [fst snd requests output] in Ho; destruct o
  | |- post (response_json _) _ _ =>
      apply post_response_json; [intros ? ? | intros ?]
  | |- post (stat _) _ _ => unfold stat
  | |- post (if ?b then _ else _) _ _ => destruct b eqn:?
  | |- post (match ?x with _ => _ end) _ _ => destruct x eqn:?
  | |- match ?r with Ok _ => _ | Raise _ => _ end => destruct r eqn:?
  end;
  cbv beta iota; cbn [fst snd requests output].

Ltac wp := repeat wp_step.

Lemma post_pick_url (repo_data : pyval) (key default_url : string)
    (note_specific note_default : option string) (st : world * locals) Q :
  (forall r out, Q r (World (requests (fst st)) out, snd st)) ->
  post (pick_url repo_data key default_url note_specific note_default) st Q.
Proof.
  intros H. destruct st as [[rq out] l]. cbn [fst snd requests] in H.
  unfold pick_url. wp; cbn [requests output]; apply H.
Qed.

Ltac wp_more :=
  lazymatch goal with
  | |- post (pick_url _ _ _ _ _) _ _ =>
      let r := fresh "url" in
      let out := fresh "out" in
      apply post_pick_url; intros r out; cbv beta iota;
      cbn [fst snd requests output]
  | |- _ => wp_step
  end.

Ltac wps := repeat wp_more.

(** A loop whose body keeps [I] on every path, started in a state with
    [I]: the goal becomes the body, then the statements after the loop. *)
Ltac wp_loop I :=
  apply post_for_each with (inv := fun st => I (snd st));
  [ try assumption
  | let x := fresh "x" in
    let st0 := fresh "st" in
    let Hx := fresh "Hx" in
    let Hinv := fresh "Hinv" in
    intros x st0 Hx Hinv
  | let st' := fresh "st" in
    let Hinv := fresh "Hinv" in
    intros st' Hinv; cbv beta iota ].

Lemma py_len_nonneg (v : pyval) (n : Z) : py_len v = Ok n -> 0 <= n.
Proof. destruct v; simpl; intros H; inversion H; lia. Qed.

Lemma keeps_and {L A} (I1 I2 : L -> Prop) (m : M L A) :
  keeps I1 m -> keeps I2 m -> keeps (fun l => I1 l /\ I2 l) m.
Proof.
  intros H1 H2 st [Ha Hb]. split; [apply (H1 st Ha) | apply (H2 st Hb)].
Qed.

Lemma keeps_for_each {L X} (I : L -> Prop) (body : X -> M L control) (xs : list X) :
  (forall x, x ∈ xs -> keeps I (body x)) -> keeps I (for_each body xs).
Proof.
  intros H st Hst.
  apply post_for_each with (inv := fun st => I (snd st)); auto.
  intros x st0 Hx H0. eapply post_mono; [apply (H x Hx st0 H0)|].
  intros [c|e] st'; auto.
Qed.

Lemma post_and {L A} (m : M L A) (st : world * L) (Q1 Q2 : result A -> _ -> Prop) :
  post m st Q1 -> post m st Q2 -> post m st (fun r st' => Q1 r st' /\ Q2 r st').
Proof. unfold post. auto. Qed.

Section Frames.
Variable repr_other : pyval -> string.
Variable env : list request -> request -> outcome.

Lemma received_from_service (log : list request) (rq : request) (r : response)
    (body : pyval) :
  Received r = env log rq -> json_body r = Some body -> from_service env body.
Proof. intros H1 H2. exists log, rq, r. auto. Qed.

(** The branch fetch assigns [branches_list], to a body of the service,
    and the branch count, to a length. *)
Lemma fetch_branches_keeps (I : locals -> Prop) (space_id : string)
    (repo_id repo_data : pyval) :
  (forall l v, from_service env v -> I l -> I (set_branches_list v l)) ->
  (forall l n, 0 <= n -> I l -> I (set_stat "branches_count" (PInt n) l)) ->
  keeps I (fetch_branches repr_other env space_id repo_id repo_data).
Proof.
  intros Hlist Hcount st Hst. unfold fetch_branches.
  wps; eauto using received_from_service, py_len_nonneg.
  wp_loop I.
  - apply Hcount; [lia|exact Hst].
  - destruct x as [i alt_url]. unfold try_branches_endpoint.
    wps; eauto 6 using received_from_service, py_len_nonneg.
  - exact Hinv.
Qed.

(** The tag fetch assigns the tag count only. *)
Lemma fetch_tags_keeps (I : locals -> Prop) (space_id : string) :
  (forall l n, 0 <= n -> I l -> I (set_stat "tags_count" (PInt n) l)) ->
  keeps I (fetch_tags env space_id).
Proof.
  intros Hcount st Hst. unfold fetch_tags.
  wps; eauto using py_len_nonneg. apply Hcount; [lia|exact Hst].
Qed.

(** The merge-request fetch assigns the merge-request count only. *)
Lemma fetch_merge_requests_keeps (I : locals -> Prop) (space_id : string)
    (repo_id : pyval) :
  (forall l n, 0 <= n -> I l -> I (set_stat "merge_requests_count" (PInt n) l)) ->
  keeps I (fetch_merge_requests repr_other env space_id repo_id).
Proof.
  intros Hcount st Hst. unfold fetch_merge_requests.
  wps; eauto using py_len_nonneg.
Qed.

(** *** The commits of the branches *)


Lemma aggregate_keyed (kept : list pyval) :
  aggregate repr_other kept ->
  forall c, c ∈ kept -> exists k, commit_key repr_other c = Ok k.
Proof.
  induction 1 as [|kept c k Hagg IH Hk Hdup]; intros c' Hc'.
  - inversion Hc'.
  - apply elem_of_app in Hc' as [Hc' | Hc']; [auto|].
    apply list_elem_of_singleton in Hc' as ->. eauto.
Qed.


Lemma is_later_true (commit_date latest : pyval) :
  is_later commit_date latest = Ok true -> truthy commit_date = true.
Proof.
  unfold is_later. destruct (truthy commit_date); [reflexivity | discriminate].
Qed.

Lemma aggregation_grows (kept : list pyval) (commit key : pyval) :
  aggregate repr_other kept -> Forall (served env) kept -> served env commit ->
  commit_key repr_other commit = Ok key ->
  is_duplicate repr_other key kept = Ok false ->
  aggregate repr_other (kept ++ [commit]) /\ Forall (served env) (kept ++ [commit]).
Proof.
  intros Hagg Hall Hserved Hkey Hdup. split; [econstructor; eauto|].
  apply Forall_app. split; [exact Hall|]. repeat constructor. exact Hserved.
Qed.

(** One more payload leaves the commit variables as [branch_aggregation]
    says. *)
Lemma add_commit_keeps (commit : pyval) :
  served env commit ->
  keeps (branch_aggregation repr_other env) (add_commit repr_other commit).
Proof.
  intros Hserved [w [s b a lc lcd]] (kept & Hkept & Hagg & Hall & Hlatest).
  simpl in Hkept, Hlatest. subst a.
  unfold add_commit.
  wps; cbn [all_commits latest_commit latest_commit_date] in *; simplify_eq/=;
    try (eexists; cbn; repeat split; eauto; fail);
    match goal with H : negb ?d = true |- _ => destruct d; [discriminate|] end;
    match goal with
    | Hk : commit_key _ _ = Ok ?k, Hd : is_duplicate _ ?k ?kept = Ok false |- _ =>
        destruct (aggregation_grows kept commit k Hagg Hall Hserved Hk Hd)
          as [Hagg' Hall'];
        exists (kept ++ [commit])
    end;
    cbn; repeat split; auto.
  - right. repeat split; eauto using is_later_true. set_solver.
  - destruct Hlatest as [-> | (Hin & Hdate & Htruthy)]; [left; reflexivity|].
    right. repeat split; auto. set_solver.
  - destruct Hlatest as [-> | (Hin & Hdate & Htruthy)]; [left; reflexivity|].
    right. repeat split; auto. set_solver.
  - destruct Hlatest as [-> | (Hin & Hdate & Htruthy)]; [left; reflexivity|].
    right. repeat split; auto. set_solver.
Qed.

Lemma received_served (log : list request) (rq : request) (r : response)
    (body : pyval) (items : list pyval) (item : pyval) :
  Received r = env log rq -> json_body r = Some body ->
  py_iter body = Ok items -> item ∈ items -> served env item.
Proof. intros H1 H2 H3 H4. exists log, rq, r, body, items. auto. Qed.

Lemma fetch_branch_commits_keeps (space_id : string) (repo_data branch : pyval) :
  keeps (branch_aggregation repr_other env)
        (fetch_branch_commits repr_other env space_id repo_data branch).
Proof.
  intros st Hst. unfold fetch_branch_commits. wps; auto.
  wp_loop (branch_aggregation repr_other env).
  - eapply post_mono; [apply add_commit_keeps; eauto using received_served|].
    intros [c|e] st' Hp; [exact Hp|]. wps. exact Hp.
  - wps. exact Hinv.
Qed.

(** Statements that assign the commit variables only keep whatever the
    other variables satisfy. *)
Section CommitFrame.
Variable I : locals -> Prop.
Hypothesis I_all_commits : forall l v, I l -> I (set_all_commits v l).
Hypothesis I_latest_commit : forall l v, I l -> I (set_latest_commit v l).
Hypothesis I_latest_commit_date : forall l v, I l -> I (set_latest_commit_date v l).

Lemma I_append_commit (l : locals) (c : pyval) : I l -> I (append_commit c l).
Proof. unfold append_commit. destruct (all_commits l); auto. Qed.

Lemma add_commit_frame (commit : pyval) : keeps I (add_commit repr_other commit).
Proof.
  intros st Hst. unfold add_commit.
  wps; auto using I_append_commit.
Qed.

Lemma fetch_branch_commits_frame (space_id : string) (repo_data branch : pyval) :
  keeps I (fetch_branch_commits repr_other env space_id repo_data branch).
Proof.
  intros st Hst. unfold fetch_branch_commits. wps; auto.
  wp_loop I.
  - eapply post_mono; [apply add_commit_frame; exact Hinv|].
    intros [c|e] st' Hp; [exact Hp|]. wps. exact Hp.
  - wps. exact Hinv.
Qed.

Lemma take_commits_frame (body : pyval) (found : string) (more : list pyval) :
  keeps I (take_commits body found more).
Proof. intros st Hst. unfold take_commits. wps; auto. Qed.

Lemma fetch_commits_without_branch_frame (space_id : string)
    (repo_id repo_data : pyval) :
  keeps I (fetch_commits_without_branch repr_other env space_id repo_id repo_data).
Proof.
  intros st Hst. unfold fetch_commits_without_branch. wps; auto.
  - eapply post_mono; [apply take_commits_frame; exact Hst|].
    intros [c|e] st' Hp; [exact Hp|]. wps. exact Hp.
  - wp_loop I.
    + destruct x as [i alt_url]. unfold try_commits_endpoint. wps; auto.
      eapply post_mono; [apply take_commits_frame; exact Hinv|].
      intros [c|e] st' Hp; wps; exact Hp.
    + exact Hinv.
Qed.

Lemma collect_commits_frame (space_id : string) (repo_id repo_data : pyval) :
  keeps I (collect_commits repr_other env space_id repo_id repo_data).
Proof.
  intros st Hst. unfold collect_commits. wps; auto.
  - apply keeps_for_each; [|exact Hst].
    intros x _. apply fetch_branch_commits_frame.
  - apply fetch_commits_without_branch_frame. exact Hst.
Qed.

End CommitFrame.

(** *** The commits of a repository with no known branch *)

Lemma take_commits_post (body : pyval) (found : string) (more : list pyval)
    (st : world * locals) :
  from_service env body -> latest_commit (snd st) = PNone ->
  post (take_commits body found more) st (fun r st' =>
    match r with
    | Ok _ => unbranched_commits env (snd st')
    | Raise _ =>
        latest_commit (snd st') = PNone /\ from_service env (all_commits (snd st'))
    end).
Proof.
  intros Hbody Hnone. destruct st as [w [s b a lc lcd]]. simpl in Hnone. subst lc.
  unfold take_commits. wps; unfold unbranched_commits; cbn; auto.
Qed.

Lemma fetch_commits_without_branch_post (space_id : string)
    (repo_id repo_data : pyval) (st : world * locals) :
  all_commits (snd st) = PList [] -> latest_commit (snd st) = PNone ->
  post (fetch_commits_without_branch repr_other env space_id repo_id repo_data) st
    (fun _ st' => unbranched_commits env (snd st')).
Proof.
  intros Hall Hnone.
  assert (Hstart : unbranched_commits env (snd st)) by (split; auto).
  assert (Hraised : forall st' : world * locals,
            latest_commit (snd st') = PNone /\ from_service env (all_commits (snd st')) ->
            unbranched_commits env (snd st')).
  { intros st' [H1 H2]. split; auto. }
  unfold fetch_commits_without_branch. wps; auto.
  - eapply post_mono;
      [apply take_commits_post; eauto using received_from_service|].
    intros [c|e] st' Hp; [exact Hp|]. wps. auto.
  - apply post_for_each_break with
      (inv := fun st' : world * locals =>
                latest_commit (snd st') = PNone /\
                (all_commits (snd st') = PList [] \/
                 from_service env (all_commits (snd st')))).
    + auto.
    + intros [i alt_url] st0 _ [Hlc Hac]. unfold try_commits_endpoint.
      wps; auto.
      eapply post_mono;
        [apply take_commits_post; eauto using received_from_service|].
      intros [c|e] st' Hp; wps; [exact Hp|]. destruct Hp. auto.
    + intros st' [Hlc Hac]. split; auto.
Qed.

(** *** What [gather] establishes *)

Lemma fresh_commits (l : locals) :
  all_commits l = PList [] -> latest_commit l = PNone ->
  gathered repr_other env l.
Proof.
  intros Hall Hnone. unfold gathered. destruct (truthy (branches_list l)).
  - exists []. repeat split; auto. constructor.
  - split; auto.
Qed.

Lemma collect_commits_post (space_id : string) (repo_id repo_data : pyval)
    (st : world * locals) :
  all_commits (snd st) = PList [] -> latest_commit (snd st) = PNone ->
  post (collect_commits repr_other env space_id repo_id repo_data) st
    (fun _ st' => gathered repr_other env (snd st')).
Proof.
  intros Hall Hnone. pose proof (fresh_commits _ Hall Hnone) as Hfresh.
  unfold collect_commits. wps; auto.
  - eapply post_mono.
    + apply (keeps_for_each
               (fun l => truthy (branches_list l) = true /\
                         branch_aggregation repr_other env l)).
      * intros x _. apply keeps_and.
        -- apply fetch_branch_commits_frame; auto.
        -- apply fetch_branch_commits_keeps.
      * split; [assumption|]. unfold gathered in Hfresh.
        match goal with H : truthy _ = true |- _ => rewrite H in Hfresh end.
        exact Hfresh.
    + intros r st' [Ht Hagg]. unfold gathered. rewrite Ht. exact Hagg.
  - eapply post_mono.
    + apply post_and.
      * apply (fetch_commits_without_branch_frame
                 (fun l => truthy (branches_list l) = false)); auto.
      * apply fetch_commits_without_branch_post; auto.
    + intros r st' [Ht Hun]. unfold gathered. rewrite Ht. exact Hun.
Qed.

Lemma gather_post (space_id : string) (repo_id repo_data : pyval) (w : world) :
  post (gather repr_other env space_id repo_id repo_data) (w, initial_locals)
    (fun _ st' => gathered repr_other env (snd st')).
Proof.
  set (I := fun l : locals => all_commits l = PList [] /\ latest_commit l = PNone).
  assert (HI : forall l, I l -> gathered repr_other env l).
  { intros l [H1 H2]. apply fresh_commits; auto. }
  unfold gather. apply post_bind.
  eapply post_mono;
    [apply (fetch_branches_keeps I); [auto | auto | split; reflexivity]|].
  intros [[]|e] st1 H1; [|auto]. apply post_bind.
  eapply post_mono; [apply (fetch_tags_keeps I); [auto | exact H1]|].
  intros [[]|e] st2 H2; [|auto].
  destruct H2. apply collect_commits_post; auto.
Qed.

End Frames.

(** A run that is known gives its postcondition, and conversely. *)
Lemma post_run {L A} (m : M L A) (st : world * L) (x : result A * (world * L))
    (Q : result A -> world * L -> Prop) :
  m st = x -> Q (fst x) (snd x) -> post m st Q.
Proof. unfold post. intros ->. auto. Qed.

Lemma run_of_post {L A} (m : M L A) (st : world * L) (x : result A * (world * L)) :
  post m st (fun r st' => (r, st') = x) -> m st = x.
Proof. unfold post. destruct (m st). auto. Qed.

(** ** Values *)

Lemma py_eq_zero (v : pyval) : py_eq v (PInt 0) = true <-> is_zero v.
Proof.
  unfold is_zero. destruct v as [|b|n|h|s|l|d]; simpl; try (split; discriminate).
  - destruct b; simpl; split; (discriminate || reflexivity || congruence).
  - rewrite Z.eqb_eq. split; intros H; [f_equal; lia | injection H; lia].
  - rewrite Z.eqb_eq. split; intros H; [f_equal; lia | injection H; lia].
Qed.

Lemma py_eq_nonzero (v : pyval) : ~ is_zero v -> py_eq v (PInt 0) = false.
Proof.
  intros H. destruct (py_eq v (PInt 0)) eqn:E; [|reflexivity].
  apply py_eq_zero in E. contradiction.
Qed.

Lemma dget_insert_eq (repo : gmap string pyval) k v d :
  dget (<[k := v]> repo) k d = v.
Proof. unfold dget. by rewrite lookup_insert_eq. Qed.

Lemma dget_insert_ne (repo : gmap string pyval) k k' v d :
  k <> k' -> dget (<[k := v]> repo) k' d = dget repo k' d.
Proof. intros H. unfold dget. by rewrite lookup_insert_ne. Qed.

(** ** The empty-repository flag *)

Lemma reporter_is_empty_iff (repo : gmap string pyval) :
  reporter_is_empty repo = true <->
    is_zero (dget repo "commits_count" (PInt 0)) /\
    is_zero (dget repo "branches_count" (PInt 0)) /\
    is_zero (dget repo "size" (PInt 0)) /\
    truthy (dget repo "last_commit_at" PNone) = false /\
    truthy (dget repo "has_commits_indicator" (PBool false)) = false.
Proof.
  unfold reporter_is_empty.
  rewrite !andb_true_iff, !negb_true_iff, !py_eq_zero. tauto.
Qed.

(** C1.  A record is flagged empty exactly when its commit count, its
    branch count and its size are zero, it has no last-commit timestamp
    and its commits indicator is false; the reporter and the exporter
    compute the same flag; and giving any one of the five fields a value
    that breaks its condition makes the flag false. *)
Theorem is_empty_five_conditions (repo : gmap string pyval) :
  (reporter_is_empty repo = true <->
     is_zero (dget repo "commits_count" (PInt 0)) /\
     is_zero (dget repo "branches_count" (PInt 0)) /\
     is_zero (dget repo "size" (PInt 0)) /\
     truthy (dget repo "last_commit_at" PNone) = false /\
     truthy (dget repo "has_commits_indicator" (PBool false)) = false) /\
  exporter_is_empty repo = reporter_is_empty repo /\
  (forall v, ~ is_zero v ->
     reporter_is_empty (<["commits_count" := v]> repo) = false) /\
  (forall v, ~ is_zero v ->
     reporter_is_empty (<["branches_count" := v]> repo) = false) /\
  (forall v, ~ is_zero v ->
     reporter_is_empty (<["size" := v]> repo) = false) /\
  (forall v, truthy v = true ->
     reporter_is_empty (<["last_commit_at" := v]> repo) = false) /\
  (forall v, truthy v = true ->
     reporter_is_empty (<["has_commits_indicator" := v]> repo) = false).
Proof.
  split; [apply reporter_is_empty_iff|].
  split; [reflexivity|].
  repeat split; intros v Hv; unfold reporter_is_empty;
    rewrite ?dget_insert_eq, ?(dget_insert_ne repo) by discriminate;
    rewrite ?(py_eq_nonzero v Hv), ?Hv; simpl;
    rewrite ?andb_false_r; reflexivity.
Qed.

(** ** The exported row *)

(** C8.  The sixteenth column, headed [Is_Empty], holds one of the three
    strings: [True] exactly for a record flagged empty, [Imported] exactly
    for a record flagged likely imported and not flagged empty, and [False]
    exactly for a record flagged neither. *)
Theorem is_empty_cell_rendering (repo : gmap string pyval) :
  csv_headers !! 15%nat = Some "Is_Empty" /\
  csv_row repo !! 15%nat = Some (PStr (is_empty_cell repo)) /\
  (is_empty_cell repo = "True" \/ is_empty_cell repo = "Imported" \/
   is_empty_cell repo = "False") /\
  (is_empty_cell repo = "True" <-> exporter_is_empty repo = true) /\
  (is_empty_cell repo = "Imported" <->
     exporter_is_empty repo = false /\
     truthy (dget repo "is_likely_imported" (PBool false)) = true) /\
  (is_empty_cell repo = "False" <->
     exporter_is_empty repo = false /\
     truthy (dget repo "is_likely_imported" (PBool false)) = false).
Proof.
  split; [reflexivity|]. split; [reflexivity|].
  unfold is_empty_cell.
  destruct (exporter_is_empty repo);
    destruct (truthy (dget repo "is_likely_imported" (PBool false)));
    repeat split; auto; try discriminate; intros [? ?]; discriminate.
Qed.

(** ** The size in megabytes *)

Lemma round_half_even_div_nearest (n d : Z) :
  0 < d ->
  2 * Z.abs (n - round_half_even_div n d * d) <= d /\
  (2 * Z.abs (n - round_half_even_div n d * d) = d ->
   Z.even (round_half_even_div n d) = true).
Proof.
  intros Hd. unfold round_half_even_div.
  pose proof (Z.div_mod n d ltac:(lia)) as Hn.
  pose proof (Z.mod_pos_bound n d Hd) as Hr.
  destruct (2 * (n mod d) <? d) eqn:E1; [apply Z.ltb_lt in E1; split; lia|].
  apply Z.ltb_ge in E1.
  destruct (d <? 2 * (n mod d)) eqn:E2; [apply Z.ltb_lt in E2; split; lia|].
  apply Z.ltb_ge in E2.
  destruct (Z.even (n / d)) eqn:E3; [split; [lia | auto]|].
  split; [lia|]. intros _.
  rewrite Z.even_add, E3. reflexivity.
Qed.

Lemma round_half_even_div_one (a : Z) : round_half_even_div a 1 = a.
Proof.
  unfold round_half_even_div. rewrite Z.div_1_r, Z.mod_1_r. reflexivity.
Qed.

Lemma round_half_even_div_scale (a b c : Z) :
  0 < b -> 0 < c ->
  round_half_even_div (a * c) (b * c) = round_half_even_div a b.
Proof.
  intros Hb Hc. unfold round_half_even_div.
  rewrite Z.div_mul_cancel_r by lia.
  rewrite Zmult_mod_distr_r.
  replace (2 * (a mod b * c) <? b * c) with (2 * (a mod b) <? b).
  2: { destruct (2 * (a mod b) <? b) eqn:E; symmetry;
       [apply Z.ltb_lt; apply Z.ltb_lt in E | apply Z.ltb_ge; apply Z.ltb_ge in E]; nia. }
  replace (b * c <? 2 * (a mod b * c)) with (b <? 2 * (a mod b)).
  2: { destruct (b <? 2 * (a mod b)) eqn:E; symmetry;
       [apply Z.ltb_lt; apply Z.ltb_lt in E | apply Z.ltb_ge; apply Z.ltb_ge in E]; nia. }
  reflexivity.
Qed.

(** An integer below [2^53] is a double. *)
Lemma nearest_double_small (n : Z) :
  0 < n < 2 ^ 53 ->
  nearest_double n 1 = (n * 2 ^ (52 - Z.log2 n), Z.log2 n - 52).
Proof.
  intros [Hpos Hlt].
  pose proof (Z.log2_spec n Hpos) as [Hlo Hhi].
  pose proof (Z.log2_nonneg n) as Hl0.
  assert (Hl : Z.log2 n <= 52).
  { apply Z.lt_succ_r. apply Z.log2_lt_pow2; [exact Hpos | exact Hlt]. }
  unfold nearest_double. cbn [Z.log2]. rewrite Z.sub_0_r.
  set (l := Z.log2 n) in *.
  assert (Hscaled : (if 0 <=? l - 52 then (n, 1 * 2 ^ (l - 52))
                     else (n * 2 ^ (- (l - 52)), 1)) = (n * 2 ^ (52 - l), 1)).
  { destruct (0 <=? l - 52) eqn:E.
    - apply Z.leb_le in E. assert (l = 52) as -> by lia.
      change (52 - 52) with 0. rewrite Z.pow_0_r, !Z.mul_1_r. reflexivity.
    - f_equal. f_equal. f_equal. lia. }
  rewrite Hscaled. cbn [fst snd]. rewrite Z.div_1_r.
  assert (Hbig : 2 ^ 52 <= n * 2 ^ (52 - l)).
  { replace (2 ^ 52) with (2 ^ l * 2 ^ (52 - l))
      by (rewrite <- Z.pow_add_r by lia; f_equal; lia).
    apply Z.mul_le_mono_nonneg_r; [apply Z.pow_nonneg; lia | exact Hlo]. }
  apply Z.leb_le in Hbig. rewrite Hbig. rewrite Hscaled. cbn [fst snd].
  rewrite round_half_even_div_one. reflexivity.
Qed.

(** Below [2^53] bytes the quotient is exact, and the size in megabytes
    is the rounding of the true quotient. *)
Lemma size_in_mb_of_int (n : Z) :
  n < 2 ^ 53 ->
  size_in_mb (PInt n) = Ok (if 0 <? n then spec_size_mb n else PInt 0).
Proof.
  intros Hlt. unfold size_in_mb. cbn [py_gt hundredths].
  replace (100 * 0 <? 100 * n) with (0 <? n)
    by (destruct (0 <? n) eqn:E; symmetry;
        [apply Z.ltb_lt; apply Z.ltb_lt in E | apply Z.ltb_ge; apply Z.ltb_ge in E]; lia).
  destruct (0 <? n) eqn:E; [|reflexivity]. apply Z.ltb_lt in E.
  cbn [fraction]. rewrite nearest_double_small by lia.
  pose proof (Z.log2_nonneg n) as Hl0.
  assert (Hl : Z.log2 n <= 52).
  { apply Z.lt_succ_r. apply Z.log2_lt_pow2; [exact E | exact Hlt]. }
  set (l := Z.log2 n) in *. unfold spec_size_mb.
  destruct (Z.eq_dec l 52) as [-> | Hne].
  - change (52 - 52) with 0. rewrite Z.pow_0_r, !Z.mul_1_r.
    assert (Hno : (2 ^ 1044 <=? n) = false).
    { apply Z.leb_gt. eapply Z.lt_le_trans; [exact Hlt|].
      apply Z.pow_le_mono_r; lia. }
    rewrite Hno. reflexivity.
  - assert (Hneg : l - 52 < 0) by lia.
    rewrite (Z.pow_neg_r 2 (l - 52)) by lia. rewrite Z.mul_0_r.
    assert (Hno : (2 ^ 1044 <=? 0) = false).
    { apply Z.leb_gt. apply Z.pow_pos_nonneg; lia. }
    rewrite Hno.
    assert (E0 : (0 <=? l - 52) = false) by (apply Z.leb_gt; lia). rewrite E0.
    replace (- (l - 52)) with (52 - l) by lia.
    rewrite Z.mul_assoc.
    rewrite round_half_even_div_scale;
      [reflexivity | reflexivity | apply Z.pow_pos_nonneg; lia].
Qed.

Lemma attach_detail_size_mb (tool : pyval) (d : list (string * pyval))
    (repo_info : gmap string pyval) (w : world) (size_bytes : pyval) (mb : pyval) :
  is_dict tool = true ->
  py_get (PDict d) "size" (PInt 0) = Ok size_bytes ->
  size_in_mb size_bytes = Ok mb ->
  exists repo' w',
    attach_detail tool (PDict d) repo_info (w, tt) = (Ok repo', (w', tt)) /\
    repo' !! "size" = Some size_bytes /\
    repo' !! "size_mb" = Some mb.
Proof.
  intros Htool Hsize Hmb.
  destruct tool; try discriminate.
  unfold attach_detail, bind, lift. rewrite Hsize, Hmb. simpl.
  match goal with |- context [truthy ?x] => destruct (truthy x) end; simpl;
    eexists _, _; (split; [reflexivity|]); unfold update;
    split; rewrite !lookup_insert_ne by done; apply lookup_union_Some_l;
    rewrite ?lookup_insert_ne by done; apply lookup_insert_eq.
Qed.

(** C7.  For a tool with a detail record whose size is [n] bytes, [n]
    not negative and below [2^53] ([n = 0] also standing for a record
    without a size), the merged record's [size_mb] equals
    [round(n / 1,048,576, 2)], the two-decimal number nearest to the
    quotient, and is the integer 0 when [n] is 0.  Below [2^53] the
    division of line 113 is exact in binary floating point. *)
Theorem size_mb_is_rounded_quotient (tool : pyval) (d : list (string * pyval))
    (repo_info : gmap string pyval) (w : world) (n : Z) :
  is_dict tool = true ->
  0 <= n < 2 ^ 53 ->
  dict_lookup "size" d = Some (PInt n) \/ (dict_lookup "size" d = None /\ n = 0) ->
  exists repo' w' mb h,
    attach_detail tool (PDict d) repo_info (w, tt) = (Ok repo', (w', tt)) /\
    repo' !! "size_mb" = Some mb /\
    py_eq mb (spec_size_mb n) = true /\
    (0 < n -> mb = spec_size_mb n) /\
    (n = 0 -> mb = PInt 0) /\
    spec_size_mb n = PFloat2 h /\
    2 * Z.abs (100 * n - h * 1048576) <= 1048576 /\
    (2 * Z.abs (100 * n - h * 1048576) = 1048576 -> Z.even h = true).
Proof.
  intros Htool [Hn Hlt] Hsize.
  assert (Hget : py_get (PDict d) "size" (PInt 0) = Ok (PInt n)).
  { simpl. destruct Hsize as [-> | [-> ->]]; reflexivity. }
  destruct (attach_detail_size_mb tool d repo_info w _ _ Htool Hget
              (size_in_mb_of_int n Hlt))
    as (repo' & w' & Hrun & _ & Hmb).
  exists repo', w', (if 0 <? n then spec_size_mb n else PInt 0),
    (round_half_even_div (100 * n) 1048576).
  split; [exact Hrun|]. split; [exact Hmb|].
  pose proof (round_half_even_div_nearest (100 * n) 1048576 ltac:(lia)) as [Hnear Htie].
  destruct (0 <? n) eqn:E.
  - repeat split; auto.
    + unfold spec_size_mb. simpl. apply Z.eqb_refl.
    + apply Z.ltb_lt in E. lia.
  - apply Z.ltb_ge in E. assert (n = 0) as -> by lia.
    repeat split; auto. lia.
Qed.

Lemma size_mb_is_rounded_quotient_witness :
  exists repo' w' mb h,
    attach_detail (PDict []) (PDict [("size", PInt 131072)]) ∅ (World [] [], tt)
      = (Ok repo', (w', tt)) /\
    repo' !! "size_mb" = Some mb /\
    py_eq mb (spec_size_mb 131072) = true /\
    (0 < 131072 -> mb = spec_size_mb 131072) /\
    (131072 = 0 -> mb = PInt 0) /\
    spec_size_mb 131072 = PFloat2 h /\
    2 * Z.abs (100 * 131072 - h * 1048576) <= 1048576 /\
    (2 * Z.abs (100 * 131072 - h * 1048576) = 1048576 -> Z.even h = true).
Proof.
  apply (size_mb_is_rounded_quotient (PDict []) [("size", PInt 131072)] ∅
           (World [] []) 131072).
  - reflexivity.
  - split; [lia | reflexivity].
  - left. reflexivity.
Defined.

(** An eighth of a megabyte is 0.125 MB, half-way between 0.12 and 0.13:
    the record says 0.12. *)
Example size_mb_of_an_eighth : spec_size_mb 131072 = PFloat2 12.
Proof. reflexivity. Qed.

Example size_mb_of_three_megabytes : size_in_mb (PInt 3145728) = Ok (PFloat2 300).
Proof. reflexivity. Qed.

(** The guard of line 113 also sends a negative size to 0. *)
Example size_mb_of_negative_size : size_in_mb (PInt (-1048576)) = Ok (PInt 0).
Proof. reflexivity. Qed.

(** From [2^53] bytes on the quotient is rounded before [round] sees it:
    [2^53 + 15729] bytes give 8589934592.01, where the true quotient
    rounds to 8589934592.02. *)
Example size_mb_above_the_exact_range :
  size_in_mb (PInt (2 ^ 53 + 15729)) = Ok (PFloat2 858993459201) /\
  spec_size_mb (2 ^ 53 + 15729) = PFloat2 858993459202.
Proof. split; vm_compute; reflexivity. Qed.

(** A size whose quotient is no double raises. *)
Example size_mb_overflows : size_in_mb (PInt (10 ^ 400)) = Raise OverflowError.
Proof. vm_compute. reflexivity. Qed.

(** ** Integers and states *)

Ltac st_simpl :=
  cbv beta iota;
  cbn [fst snd requests output stats branches_list all_commits latest_commit
       latest_commit_date set_stat set_branches_list set_all_commits
       set_latest_commit set_latest_commit_date].

Lemma scale_ltb (a b : Z) : (100 * a <? 100 * b) = (a <? b).
Proof.
  destruct (a <? b) eqn:E;
    [apply Z.ltb_lt; apply Z.ltb_lt in E | apply Z.ltb_ge; apply Z.ltb_ge in E]; lia.
Qed.

Lemma scale_eqb (a b : Z) : (100 * a =? 100 * b) = (a =? b).
Proof.
  destruct (a =? b) eqn:E;
    [apply Z.eqb_eq; apply Z.eqb_eq in E | apply Z.eqb_neq; apply Z.eqb_neq in E]; lia.
Qed.

Lemma py_gt_int (a b : Z) : py_gt (PInt a) (PInt b) = Some (b <? a).
Proof. simpl. by rewrite scale_ltb. Qed.

Lemma py_eq_int (a b : Z) : py_eq (PInt a) (PInt b) = (a =? b).
Proof. simpl. by rewrite scale_eqb. Qed.

Lemma py_max_int (a b : Z) : py_max (PInt a) (PInt b) = Ok (PInt (Z.max a b)).
Proof.
  unfold py_max. rewrite py_gt_int.
  destruct (a <? b) eqn:E; do 2 f_equal;
    [apply Z.ltb_lt in E | apply Z.ltb_ge in E]; lia.
Qed.

(** ** Runs on a given service *)

(** A run that ends normally, read off its outcome. *)
Lemma run_ok {A S : Type} (x : result A * S) (P : A -> S -> Prop) :
  match x with
  | (Ok a, s) => P a s
  | (Raise _, _) => False
  end ->
  exists a s, x = (Ok a, s) /\ P a s.
Proof. destruct x as [[a|e] s]; [eauto | contradiction]. Qed.

Lemma run_ends {S : Type} (x : result unit * S) :
  fst x = Ok tt -> x = (Ok tt, snd x).
Proof. destruct x as [[[]|e] s]; simpl; [reflexivity | discriminate]. Qed.

(** ** The fallback chains *)

Section Chains.
Variable repr_other : pyval -> string.
Variable env : list request -> request -> outcome.

Lemma try_branches_endpoint_report (i : Z) (url : string) (st : world * locals) :
  post (try_branches_endpoint env (i, url)) st (fun r st' =>
    requests (fst st') = requests (fst st) ++ [Request url None] /\
    r = Ok (if branches_accepted (env (requests (fst st)) (Request url None))
            then Break else Continue) /\
    exists lines,
      output (fst st') = output (fst st) ++ lines /\
      turned_down branches_accepted "    Alternative endpoint {i} exception: {alt_e}" i
        (env (requests (fst st)) (Request url None)) lines).
Proof.
  unfold try_branches_endpoint. wp; cbn [requests output]; (split; [reflexivity|]).
  all: rewrite <- Ho; cbn [branches_accepted];
    repeat match goal with H : ?x = _ |- context [?x] => rewrite H end;
    (split; [reflexivity|]).
  all: eexists; (split; [rewrite <- ?app_assoc; reflexivity|]).
  all: intros r0 Hr0 H200 Hacc; rewrite <- Ho in Hr0, Hacc; try discriminate.
  all: inversion Hr0; subst r0; clear Hr0.
  all: try (eexists; repeat (apply elem_of_app; right);
            apply list_elem_of_singleton; reflexivity).
  all: exfalso; cbn [branches_accepted] in Hacc; revert Hacc;
    repeat match goal with H : ?x = _ |- context [?x] => rewrite H end;
    try discriminate; rewrite H200 in *; discriminate.
Qed.

Lemma try_commits_endpoint_report (i : Z) (url : string) (st : world * locals) :
  post (try_commits_endpoint env (i, url)) st (fun r st' =>
    requests (fst st') = requests (fst st) ++ [Request url None] /\
    r = Ok (if commits_accepted (env (requests (fst st)) (Request url None))
            then Break else Continue) /\
    exists lines,
      output (fst st') = output (fst st) ++ lines /\
      turned_down commits_accepted
        "    Alternative commits endpoint {i} exception: {alt_e}" i
        (env (requests (fst st)) (Request url None)) lines).
Proof.
  unfold try_commits_endpoint, take_commits.
  wp; cbn [requests output]; (split; [reflexivity|]).
  all: rewrite <- Ho; cbn [commits_accepted];
    repeat match goal with H : ?x = _ |- context [?x] => rewrite H end;
    (split; [reflexivity|]).
  all: eexists; (split; [rewrite <- ?app_assoc; reflexivity|]).
  all: intros r0 Hr0 H200 Hacc; rewrite <- Ho in Hr0, Hacc; try discriminate.
  all: inversion Hr0; subst r0; clear Hr0.
  all: try (eexists; repeat (apply elem_of_app; right);
            apply list_elem_of_singleton; reflexivity).
  all: exfalso; cbn [commits_accepted] in Hacc; revert Hacc;
    repeat match goal with H : ?x = _ |- context [?x] => rewrite H end;
    try discriminate; rewrite H200 in *; discriminate.
Qed.

Lemma chain_reports (step : Z * string -> M locals control)
    (accepted : outcome -> bool) (line : string) :
  (forall i url st,
     post (step (i, url)) st (fun r st' =>
       requests (fst st') = requests (fst st) ++ [Request url None] /\
       r = Ok (if accepted (env (requests (fst st)) (Request url None))
               then Break else Continue) /\
       exists lines,
         output (fst st') = output (fst st) ++ lines /\
         turned_down accepted line i (env (requests (fst st)) (Request url None))
           lines)) ->
  forall urls i st,
    post (for_each step (enumerate i urls)) st (fun r st' =>
      r = Ok tt /\
      requests (fst st') =
        requests (fst st) ++ probe env accepted (requests (fst st)) urls /\
      exists lines,
        output (fst st') = output (fst st) ++ lines /\
        forall j o, (j, o) ∈ probe_answers env accepted (requests (fst st)) i urls ->
                    turned_down accepted line j o lines).
Proof.
  intros Hstep urls. induction urls as [|url urls IH]; intros i st; simpl.
  - apply post_ret. split; [reflexivity|]. split; [by rewrite app_nil_r|].
    exists []. split; [by rewrite app_nil_r|]. intros j o Hin. inversion Hin.
  - apply post_bind. eapply post_mono; [apply Hstep|].
    intros r st' (Hreq & -> & lines & Hout & Hdown). cbv beta iota.
    destruct (accepted (env (requests (fst st)) (Request url None))) eqn:Hacc.
    + apply post_ret. split; [reflexivity|]. split; [exact Hreq|].
      exists lines. split; [exact Hout|]. intros j o Hin.
      apply list_elem_of_singleton in Hin. injection Hin as -> ->. exact Hdown.
    + eapply post_mono; [apply IH|].
      intros r' st'' (-> & Hreq' & lines' & Hout' & Hdown').
      split; [reflexivity|].
      split; [rewrite Hreq', Hreq, <- app_assoc; reflexivity|].
      exists (lines ++ lines'). split; [rewrite Hout', Hout, <- app_assoc; reflexivity|].
      intros j o Hin. apply elem_of_cons in Hin as [Hin | Hin].
      * injection Hin as -> ->. intros r0 H1 H2 H3.
        destruct (Hdown r0 H1 H2 H3) as [e He]. exists e.
        apply elem_of_app. left. exact He.
      * rewrite Hreq in Hdown'. intros r0 H1 H2 H3.
        destruct (Hdown' j o Hin r0 H1 H2 H3) as [e He]. exists e.
        apply elem_of_app. right. exact He.
Qed.
(** The requests of a chain are the candidates up to the first accepted
    one, in the order of the list. *)
Lemma probe_is_prefix (accepted : outcome -> bool) (urls : list string)
    (log : list request) :
  exists k, probe env accepted log urls = map (fun u => Request u None) (take k urls).
Proof.
  revert log. induction urls as [|url urls IH]; intros log; simpl.
  - exists 0%nat. reflexivity.
  - destruct (accepted (env log (Request url None))).
    + exists 1%nat. simpl. by destruct urls.
    + destruct (IH (log ++ [Request url None])) as [k Hk].
      exists (S k). simpl. by rewrite Hk.
Qed.

(** When the candidates of [pre] are turned down and [url] is accepted,
    the chain requests [pre] and [url] and nothing of [post]. *)
Lemma probe_stops (accepted : outcome -> bool) (pre post : list string)
    (url : string) (log : list request) :
  (forall j u, pre !! j = Some u ->
     accepted (env (log ++ map (fun u => Request u None) (take j pre))
                   (Request u None)) = false) ->
  accepted (env (log ++ map (fun u => Request u None) pre) (Request url None)) = true ->
  probe env accepted log (pre ++ url :: post) =
    map (fun u => Request u None) (pre ++ [url]).
Proof.
  revert log. induction pre as [|p pre IH]; intros log Hpre Hurl; simpl in *.
  - rewrite app_nil_r in Hurl. rewrite Hurl. reflexivity.
  - pose proof (Hpre 0%nat p eq_refl) as Hp. simpl in Hp.
    rewrite app_nil_r in Hp. rewrite Hp. f_equal.
    apply IH.
    + intros j u Hj. specialize (Hpre (S j) u Hj). simpl in Hpre.
      rewrite <- app_assoc. exact Hpre.
    + rewrite <- app_assoc. exact Hurl.
Qed.

(** C2, as the code has it.  Each chain requests its three alternates in
    the order of the list and stops at the first accepted one: the
    requests it makes are those of the short-circuit iteration [probe].
    An alternate is accepted when its response has status 200 and its
    body can be taken over (see [branches_accepted], [commits_accepted]).
    An alternate that answers with status 200 and is not accepted is
    reported by the exception line with its number, and the chain goes on
    to the next one. *)
Theorem alternates_stop_at_first_accepted (space_id : string) (repo_id : pyval)
    (st : world * locals) :
  post (for_each (try_branches_endpoint env)
          (enumerate 1 (alternative_endpoints repr_other space_id repo_id))) st
    (fun r st' =>
       r = Ok tt /\
       requests (fst st') =
         requests (fst st) ++
         probe env branches_accepted (requests (fst st))
           (alternative_endpoints repr_other space_id repo_id) /\
       exists lines,
         output (fst st') = output (fst st) ++ lines /\
         forall i o,
           (i, o) ∈ probe_answers env branches_accepted (requests (fst st)) 1
                      (alternative_endpoints repr_other space_id repo_id) ->
           turned_down branches_accepted
             "    Alternative endpoint {i} exception: {alt_e}" i o lines) /\
  post (for_each (try_commits_endpoint env)
          (enumerate 1 (alternative_commit_endpoints repr_other space_id repo_id))) st
    (fun r st' =>
       r = Ok tt /\
       requests (fst st') =
         requests (fst st) ++
         probe env commits_accepted (requests (fst st))
           (alternative_commit_endpoints repr_other space_id repo_id) /\
       exists lines,
         output (fst st') = output (fst st) ++ lines /\
         forall i o,
           (i, o) ∈ probe_answers env commits_accepted (requests (fst st)) 1
                      (alternative_commit_endpoints repr_other space_id repo_id) ->
           turned_down commits_accepted
             "    Alternative commits endpoint {i} exception: {alt_e}" i o lines).
Proof.
  split; apply chain_reports; intros i url st0.
  - apply try_branches_endpoint_report.
  - apply try_commits_endpoint_report.
Qed.

End Chains.

(** C2, as stated, fails: the first alternate answers with status 200 and
    a body that is not JSON, and the second alternate is requested all the
    same. *)
Lemma second_alternate_requested_after_a_200 :
  html_first_alternate [Request (space_url "/repos/git/branches") None]
    (Request (space_url "/space_tools/7/git/branches") None)
    = Received (Response 200 None "<html>") /\
  map req_url
    (requests (snd (statistics_from plain_repr html_first_alternate (World [] [])
                      "demo" (PInt 7) PNone)))
    = [space_url "/repos/git/branches";
       space_url "/space_tools/7/git/branches";
       space_url "/repos/7/git/branches";
       space_url "/repos/git/tags";
       space_url "/repos/git/commits";
       space_url "/space_tools/7/merge_requests.json"].
Proof. split; vm_compute; reflexivity. Qed.

(** ** Failures that leave no trace *)

(** C6, at the failing input.  With every endpoint answering 500, the
    branch and the commit fetch each print what went wrong, the tag and
    the merge-request fetch print nothing and leave their counts at 0. *)
Lemma tags_and_merge_requests_fail_silently :
  exists s w,
    statistics_from plain_repr server_error (World [] []) "demo" (PInt 7) PNone
      = (Ok s, w) /\
    s !! "tags_count" = Some (PInt 0) /\
    s !! "merge_requests_count" = Some (PInt 0) /\
    map req_url (requests w)
      = [space_url "/repos/git/branches"; space_url "/repos/git/tags";
         space_url "/repos/git/commits";
         space_url "/space_tools/7/merge_requests.json"] /\
    map msg_template (output w)
      = ["    Using default branches URL: {branches_url}";
         "    Could not fetch branches, status: {response.status_code}";
         "    Response: {response.text[:200] if response.text else 'No response text'}";
         "    Using default commits URL: {commits_url}";
         "    Could not fetch commits, status: {response.status_code}";
         "    Response: {response.text[:200] if response.text else 'No response text'}";
         "    Final stats: {stats['commits_count']} commits, {stats['branches_count']} branches, {stats['tags_count']} tags, {stats['merge_requests_count']} MRs"].
Proof. apply run_ok. vm_compute. repeat split. Qed.

(** ** The enricher's result *)


(** ** De-duplication across branches *)

Section Aggregation.
Variable repr_other : pyval -> string.
Variable env : list request -> request -> outcome.

Lemma is_duplicate_true (key : pyval) (kept : list pyval) (c kc : pyval) :
  aggregate repr_other kept -> c ∈ kept ->
  commit_key repr_other c = Ok kc -> py_eq key kc = true ->
  is_duplicate repr_other key kept = Ok true.
Proof.
  intros Hagg. pose proof (aggregate_keyed repr_other kept Hagg) as Hkeyed.
  clear Hagg. induction kept as [|c0 kept IH]; intros Hc Hkc Heq; simpl.
  - inversion Hc.
  - destruct (Hkeyed c0 ltac:(left)) as [k0 Hk0]. rewrite Hk0.
    destruct (py_eq key k0) eqn:E0; [reflexivity|].
    apply elem_of_cons in Hc as [-> | Hc]; [congruence|].
    apply IH; auto. intros c' Hc'. apply Hkeyed. right. exact Hc'.
Qed.

(** A payload whose key equals the key of a kept payload is not kept: the
    commit variables stay as they are. *)
Lemma add_commit_drops_duplicate (commit key c kc : pyval) (kept : list pyval)
    (w : world) (l : locals) :
  all_commits l = PList kept -> aggregate repr_other kept ->
  commit_key repr_other commit = Ok key ->
  c ∈ kept -> commit_key repr_other c = Ok kc -> py_eq key kc = true ->
  add_commit repr_other commit (w, l) = (Ok Continue, (w, l)).
Proof.
  intros Hall Hagg Hkey Hc Hkc Heq.
  unfold add_commit, bind, lift, read. simpl.
  rewrite Hkey, Hall. simpl.
  rewrite (is_duplicate_true key kept c kc Hagg Hc Hkc Heq). reflexivity.
Qed.




End Aggregation.


(** On these four payloads the loop keeps three: the payload with the
    [sha] of a kept [id] is dropped. *)
Example equal_sha_and_id_kept_once :
  exists c st',
    for_each (add_commit plain_repr)
      [PDict [("id", PStr "a1")]; PDict [("id", PStr "b2")];
       PDict [("sha", PStr "b2")]; PDict [("sha", PStr "c3")]]
      (World [] [], initial_locals) = (Ok c, st') /\
    all_commits (snd st')
    = PList [PDict [("id", PStr "a1")]; PDict [("id", PStr "b2")];
             PDict [("sha", PStr "c3")]].
Proof. apply run_ok. vm_compute. repeat split. Qed.

(** The commit that [main] lists by [id] and [dev] by [sha] is counted
    once: three commits, not four. *)
Example shared_commit_counted_once :
  exists s w,
    statistics_from plain_repr two_branches (World [] []) "demo" (PInt 7) PNone
      = (Ok s, w) /\
    s !! "branches_count" = Some (PInt 2) /\
    s !! "commits_count" = Some (PInt 3).
Proof. apply run_ok. vm_compute. repeat split. Qed.

(** ** The estimate for an imported repository *)

Section Estimate.
Variable repr_other : pyval -> string.
Variable env : list request -> request -> outcome.

Lemma py_len_zero_falsy (v : pyval) : py_len v = Ok 0 -> truthy v = false.
Proof.
  destruct v as [| | | |s|l|d]; simpl; try discriminate.
  - destruct s; [reflexivity | simpl; intros H; inversion H; lia].
  - destruct l; [reflexivity | simpl; intros H; inversion H; lia].
  - destruct d; [reflexivity | simpl; intros H; inversion H; lia].
Qed.

(** No commit kept, no latest commit. *)
Lemma gathered_no_commits (l : locals) :
  gathered repr_other env l -> py_len (all_commits l) = Ok 0 ->
  latest_commit l = PNone.
Proof.
  unfold gathered. intros Hg Hlen.
  destruct (truthy (branches_list l)).
  - destruct Hg as (kept & Hall & _ & _ & [Hnone | (Hin & _)]); [exact Hnone|].
    rewrite Hall in Hlen. simpl in Hlen.
    destruct kept; [inversion Hin | inversion Hlen; lia].
  - destruct Hg as [_ [Hnone | [Ht _]]]; [exact Hnone|].
    rewrite (py_len_zero_falsy _ Hlen) in Ht. discriminate.
Qed.

Lemma fetch_merge_requests_total (space_id : string) (repo_id : pyval)
    (st : world * locals) :
  post (fetch_merge_requests repr_other env space_id repo_id) st
    (fun r _ => r = Ok tt).
Proof. unfold fetch_merge_requests. wps; reflexivity. Qed.

(** The statistics are whatever [set_final_statistics] left, but for the
    merge-request count. *)
Lemma conclude_keeps (I : locals -> Prop) (space_id : string)
    (repo_id repo_data : pyval) (st : world * locals) :
  (forall l n, 0 <= n -> I l -> I (set_stat "merge_requests_count" (PInt n) l)) ->
  post (set_final_statistics repr_other repo_data) st
    (fun r st' => r = Ok tt /\ I (snd st')) ->
  post (conclude repr_other env space_id repo_id repo_data) st
    (fun r st' => exists s, r = Ok s /\ s = stats (snd st') /\ I (snd st')).
Proof.
  intros HI Hfinal. unfold conclude. apply post_bind.
  eapply post_mono; [exact Hfinal|]. intros r st1 [-> H1]. cbv beta iota.
  apply post_bind.
  eapply post_mono.
  { apply post_and;
      [apply fetch_merge_requests_total
      | apply (fetch_merge_requests_keeps repr_other env I); [exact HI | exact H1]]. }
  intros r st2 [-> H2]. cbv beta iota. wps. eauto.
Qed.

Lemma set_final_statistics_estimate (d : list (string * pyval)) (stamp : pyval)
    (b : Z) (w : world) (l : locals) :
  dict_lookup "last_commit_at" d = Some stamp -> truthy stamp = true ->
  latest_commit l = PNone -> py_len (all_commits l) = Ok 0 ->
  stats l !! "branches_count" = Some (PInt b) ->
  post (set_final_statistics repr_other (PDict d)) (w, l)
    (fun r st' =>
       r = Ok tt /\
       stats (snd st') !! "commits_count"
         = Some (PInt (if 0 <? b then Z.max 1 b else 1)) /\
       stats (snd st') !! "last_commit_at" = Some stamp).
Proof.
  intros Hstamp Htruthy Hnone Hlen Hb.
  destruct l as [s bl a lc lcd]. simpl in Hnone, Hlen, Hb. subst lc.
  assert (Hand : py_and (PDict d) (py_get (PDict d) "last_commit_at" PNone) = Ok stamp).
  { unfold py_and, py_get. rewrite Hstamp.
    destruct d; [discriminate | reflexivity]. }
  assert (Hget : py_get (PDict d) "last_commit_at" PNone = Ok stamp).
  { unfold py_get. by rewrite Hstamp. }
  unfold set_final_statistics, stat.
  apply post_bind, post_read. st_simpl.
  apply post_bind, post_lift. rewrite Hlen.
  apply post_bind, post_assign. st_simpl.
  apply post_bind, post_read. st_simpl. cbn [truthy].
  apply post_bind, post_lift. rewrite Hand.
  apply post_bind, post_bind, post_read. st_simpl.
  apply post_lift. rewrite lookup_insert_eq.
  rewrite Htruthy, py_eq_int. cbn [andb Z.eqb].
  apply post_bind, post_print. st_simpl.
  apply post_bind, post_lift. rewrite Hget.
  apply post_bind, post_assign. st_simpl.
  apply post_bind, post_bind, post_read. st_simpl.
  apply post_lift. rewrite !lookup_insert_ne, Hb by done.
  rewrite py_gt_int. destruct (0 <? b) eqn:Eb.
  - apply post_bind, post_lift. rewrite py_max_int.
    apply post_bind, post_assign. st_simpl.
    apply post_print. st_simpl.
    split; [reflexivity|]. split; [apply lookup_insert_eq|].
    rewrite lookup_insert_ne by done. apply lookup_insert_eq.
  - apply post_bind, post_assign. st_simpl.
    apply post_print. st_simpl.
    split; [reflexivity|]. split; [apply lookup_insert_eq|].
    rewrite lookup_insert_ne by done. apply lookup_insert_eq.
Qed.

(** C4.  When the detail record carries a last-commit timestamp and the
    fetches end with no commit at all, the enricher returns statistics
    whose commit count is [max(1, b)] for a positive branch count [b] and 1
    for [b = 0], and whose last-commit timestamp is the detail record's. *)
Theorem estimate_for_unlisted_commits (space_id : string) (repo_id : pyval)
    (d : list (string * pyval)) (stamp : pyval) (b : Z) (w : world)
    (st1 : world * locals) :
  dict_lookup "last_commit_at" d = Some stamp -> truthy stamp = true ->
  gather repr_other env space_id repo_id (PDict d) (w, initial_locals) = (Ok tt, st1) ->
  py_len (all_commits (snd st1)) = Ok 0 ->
  stats (snd st1) !! "branches_count" = Some (PInt b) ->
  exists s w',
    statistics_from repr_other env w space_id repo_id (PDict d) = (Ok s, w') /\
    s !! "commits_count" = Some (PInt (if 0 <? b then Z.max 1 b else 1)) /\
    s !! "last_commit_at" = Some stamp.
Proof.
  intros Hstamp Htruthy Hgather Hlen Hb.
  pose proof (gather_post repr_other env space_id repo_id (PDict d) w) as Hg.
  unfold post in Hg. rewrite Hgather in Hg. simpl in Hg.
  pose proof (gathered_no_commits _ Hg Hlen) as Hnone.
  set (I := fun l : locals =>
         stats l !! "commits_count" = Some (PInt (if 0 <? b then Z.max 1 b else 1)) /\
         stats l !! "last_commit_at" = Some stamp).
  assert (Hc : post (conclude repr_other env space_id repo_id (PDict d)) st1
                 (fun r st' => exists s, r = Ok s /\ s = stats (snd st') /\ I (snd st'))).
  { apply conclude_keeps.
    - intros l n _ [H1 H2]. split; simpl; rewrite lookup_insert_ne by done; assumption.
    - destruct st1 as [w1 l1].
      eapply post_mono;
        [apply (set_final_statistics_estimate d stamp b w1 l1); assumption|].
      intros r st' (-> & H1 & H2). split; [reflexivity | split; assumption]. }
  unfold post in Hc. destruct Hc as (s & Hr & Hs & H1 & H2).
  unfold statistics_from, get_git_repo_statistics, bind. rewrite Hgather.
  destruct (conclude repr_other env space_id repo_id (PDict d) st1) as [r [w' l']].
  simpl in *. subst r s. exists (stats l'), w'. auto.
Qed.

End Estimate.

(** Three branches, no commit listed, a timestamp in the detail record:
    three commits are estimated.  No branch: one commit. *)
Lemma estimate_for_unlisted_commits_witness :
  exists s w',
    statistics_from plain_repr three_silent_branches (World [] []) "demo" (PInt 7)
      (PDict [("id", PInt 7); ("last_commit_at", PStr "2024-05-01T10:00:00Z")])
      = (Ok s, w') /\
    s !! "commits_count" = Some (PInt (if 0 <? 3 then Z.max 1 3 else 1)) /\
    s !! "last_commit_at" = Some (PStr "2024-05-01T10:00:00Z").
Proof.
  eapply (estimate_for_unlisted_commits plain_repr three_silent_branches "demo"
            (PInt 7) _ (PStr "2024-05-01T10:00:00Z") 3 (World [] [])).
  - reflexivity.
  - reflexivity.
  - vm_compute. reflexivity.
  - reflexivity.
  - vm_compute. reflexivity.
Defined.

Example estimate_without_branches :
  exists s w',
    statistics_from plain_repr server_error (World [] []) "demo" (PInt 7)
      (PDict [("id", PInt 7); ("last_commit_at", PStr "2024-05-01T10:00:00Z")])
      = (Ok s, w') /\
    s !! "commits_count" = Some (PInt 1) /\
    s !! "last_commit_at" = Some (PStr "2024-05-01T10:00:00Z").
Proof. apply run_ok. vm_compute. repeat split. Qed.


(** ** A space without repositories *)

Section Lister.
Variable repr_other : pyval -> string.
Variable env : list request -> request -> outcome.

Lemma merge_tools_none_recognized (space_name : string)
    (repos_lookup : list (pyval * pyval)) (tools : list pyval)
    (repositories : list (gmap string pyval)) (st : world * unit) :
  (forall tool, tool ∈ tools ->
     exists ty, py_get tool "type" PNone = Ok ty /\ py_in ty repo_types = false) ->
  merge_tools repr_other env space_name repos_lookup tools repositories st
    = (Ok repositories, st).
Proof.
  revert st. induction tools as [|tool tools IH]; intros st H; [reflexivity|].
  destruct (H tool ltac:(left)) as (ty & Hty & Hin).
  simpl. unfold merge_tool, bind, lift. rewrite Hty, Hin. simpl.
  apply IH. intros t Ht. apply H. right. exact Ht.
Qed.

Lemma raise_for_status_ok (r : response) (st : world * unit) Q :
  status_code r < 400 \/ 600 <= status_code r ->
  Q (Ok tt) st -> post (raise_for_status r) st Q.
Proof.
  intros Hs HQ. unfold raise_for_status.
  destruct ((400 <=? status_code r) && (status_code r <? 600)) eqn:E.
  - apply andb_true_iff in E as [E1 E2].
    apply Z.leb_le in E1. apply Z.ltb_lt in E2. lia.
  - apply post_ret. exact HQ.
Qed.

Lemma lister_no_recognized_tool (api_key api_secret : option string)
    (space_name : string) (w : world) (r1 r2 : response)
    (repos_body tools_body : pyval) (repos tools : list pyval)
    (repos_lookup : list (pyval * pyval)) :
  credentials_ok api_key api_secret = true ->
  env (requests w) (Request (api +:+ space_name +:+ "/repos.json") None)
    = Received r1 ->
  status_code r1 < 400 \/ 600 <= status_code r1 ->
  json_body r1 = Some repos_body -> py_iter repos_body = Ok repos ->
  build_lookup repos [] = Ok repos_lookup ->
  env (requests w ++ [Request (api +:+ space_name +:+ "/repos.json") None])
      (Request (api +:+ space_name +:+ "/space_tools.json") None)
    = Received r2 ->
  status_code r2 < 400 \/ 600 <= status_code r2 ->
  json_body r2 = Some tools_body -> py_iter tools_body = Ok tools ->
  (forall tool, tool ∈ tools ->
     exists ty, py_get tool "type" PNone = Ok ty /\ py_in ty repo_types = false) ->
  post (fetch_assembla_repositories_for_space repr_other env api_key api_secret
          space_name) (w, tt)
    (fun r st' =>
       r = Ok None /\
       requests (fst st') =
         requests w ++
         [Request (api +:+ space_name +:+ "/repos.json") None;
          Request (api +:+ space_name +:+ "/space_tools.json") None] /\
       map msg_template (output (fst st')) =
         map msg_template (output w) ++
         ["Processing space: {space_name}";
          "============================================================";
          "Fetching repository details from: {repos_url}";
          "Fetching space tools from: {space_tools_url}";
          "No repositories found in this space"]).
Proof.
  intros Hcred H1 Hs1 Hb1 Hi1 Hl1 H2 Hs2 Hb2 Hi2 Hnone.
  unfold fetch_assembla_repositories_for_space. rewrite Hcred. cbn [negb].
  do 2 (apply post_bind; apply post_print; cbv beta iota; cbn [fst snd requests output]).
  apply post_try. apply post_bind. apply post_print. cbv beta iota.
  cbn [fst snd requests output].
  apply post_bind. unfold post at 1, requests_get. cbn [fst snd requests output].
  rewrite H1. cbn [fst snd].
  apply post_bind. apply raise_for_status_ok; [exact Hs1|].
  apply post_bind. unfold post at 1, response_json, lift. rewrite Hb1. cbn [fst snd].
  apply post_bind. apply post_lift. rewrite Hi1.
  apply post_bind. apply post_lift. rewrite Hl1.
  apply post_bind. apply post_print. cbv beta iota. cbn [fst snd requests output].
  apply post_bind. unfold post at 1, requests_get. cbn [fst snd requests output].
  rewrite H2. cbn [fst snd].
  apply post_bind. apply raise_for_status_ok; [exact Hs2|].
  apply post_bind. unfold post at 1, response_json, lift. rewrite Hb2. cbn [fst snd].
  apply post_bind. apply post_lift. rewrite Hi2.
  apply post_bind. unfold post at 1.
  rewrite (merge_tools_none_recognized _ _ _ _ _ Hnone). cbn [fst snd].
  wps. cbn [requests output fst snd].
  split; [reflexivity|]. split.
  - rewrite <- app_assoc. reflexivity.
  - rewrite !map_app, <- !app_assoc. reflexivity.
Qed.

(** C5.  When both listings of a space are fetched and decoded and no
    tool entry is of a recognized kind, the lister returns [None] without
    raising, having printed [No repositories found in this space] and no
    error line; and the run goes on to the next space with the records
    gathered so far, unchanged. *)
Theorem space_without_repositories (api_key api_secret : option string)
    (space_name : string) (w : world) (r1 r2 : response)
    (repos_body tools_body : pyval) (repos tools : list pyval)
    (repos_lookup : list (pyval * pyval))
    (rest : list string) (all_repositories : list (gmap string pyval)) :
  credentials_ok api_key api_secret = true ->
  env (requests w) (Request (api +:+ space_name +:+ "/repos.json") None)
    = Received r1 ->
  status_code r1 < 400 \/ 600 <= status_code r1 ->
  json_body r1 = Some repos_body -> py_iter repos_body = Ok repos ->
  build_lookup repos [] = Ok repos_lookup ->
  env (requests w ++ [Request (api +:+ space_name +:+ "/repos.json") None])
      (Request (api +:+ space_name +:+ "/space_tools.json") None)
    = Received r2 ->
  status_code r2 < 400 \/ 600 <= status_code r2 ->
  json_body r2 = Some tools_body -> py_iter tools_body = Ok tools ->
  (forall tool, tool ∈ tools ->
     exists ty, py_get tool "type" PNone = Ok ty /\ py_in ty repo_types = false) ->
  (exists w',
     fetch_assembla_repositories_for_space repr_other env api_key api_secret
       space_name (w, tt) = (Ok None, (w', tt)) /\
     requests w' =
       requests w ++
       [Request (api +:+ space_name +:+ "/repos.json") None;
        Request (api +:+ space_name +:+ "/space_tools.json") None] /\
     map msg_template (output w') =
       map msg_template (output w) ++
       ["Processing space: {space_name}";
        "============================================================";
        "Fetching repository details from: {repos_url}";
        "Fetching space tools from: {space_tools_url}";
        "No repositories found in this space"]) /\
  (exists w'',
     fetch_spaces repr_other env api_key api_secret (space_name :: rest)
       all_repositories (w, tt)
     = fetch_spaces repr_other env api_key api_secret rest all_repositories (w'', tt) /\
     map msg_template (output w'') =
       map msg_template (output w) ++
       ["Fetching repositories for space: {space_name}";
        "Processing space: {space_name}";
        "============================================================";
        "Fetching repository details from: {repos_url}";
        "Fetching space tools from: {space_tools_url}";
        "No repositories found in this space";
        "No repositories found or error occurred for space: {space_name}"]).
Proof.
  intros Hcred H1 Hs1 Hb1 Hi1 Hl1 H2 Hs2 Hb2 Hi2 Hnone. split.
  - pose proof (lister_no_recognized_tool api_key api_secret space_name w r1 r2
                  repos_body tools_body repos tools repos_lookup
                  Hcred H1 Hs1 Hb1 Hi1 Hl1 H2 Hs2 Hb2 Hi2 Hnone) as Hp.
    unfold post in Hp.
    destruct (fetch_assembla_repositories_for_space repr_other env api_key
                api_secret space_name (w, tt)) as [r [w' []]].
    simpl in Hp. destruct Hp as (-> & Hreq & Hout). exists w'. auto.
  - set (w1 := World (requests w)
                 (output w ++ [Message "Fetching repositories for space: {space_name}"
                                 [PStr space_name]])).
    pose proof (lister_no_recognized_tool api_key api_secret space_name w1 r1 r2
                  repos_body tools_body repos tools repos_lookup
                  Hcred H1 Hs1 Hb1 Hi1 Hl1 H2 Hs2 Hb2 Hi2 Hnone) as Hp.
    unfold post in Hp. cbn [fetch_spaces]. unfold bind at 1, print at 1.
    cbn [fst snd]. fold w1. unfold bind at 1.
    destruct (fetch_assembla_repositories_for_space repr_other env api_key
                api_secret space_name (w1, tt)) as [r [w' []]].
    simpl in Hp. destruct Hp as (-> & Hreq & Hout).
    unfold bind at 1, print at 1. cbn [fst snd].
    eexists. split; [reflexivity|]. cbn [output].
    rewrite map_app, Hout. subst w1. cbn [output].
    rewrite map_app, <- !app_assoc. reflexivity.
Qed.

End Lister.

Lemma space_without_repositories_witness :
  exists w'',
    fetch_spaces plain_repr no_repository_tool (Some "key") (Some "secret")
      ["demo"; "next"] [] (World [] [], tt)
    = fetch_spaces plain_repr no_repository_tool (Some "key") (Some "secret")
        ["next"] [] (w'', tt) /\
    map msg_template (output w'') =
      ["Fetching repositories for space: {space_name}";
       "Processing space: {space_name}";
       "============================================================";
       "Fetching repository details from: {repos_url}";
       "Fetching space tools from: {space_tools_url}";
       "No repositories found in this space";
       "No repositories found or error occurred for space: {space_name}"].
Proof.
  refine (proj2 (space_without_repositories plain_repr no_repository_tool
            (Some "key") (Some "secret") "demo" (World [] [])
            (json (PList []))
            (json (PList [PDict [("id", PStr "w1"); ("type", PStr "WikiTool")];
                          PDict [("id", PStr "t1"); ("type", PStr "TicketTool")]]))
            (PList []) _ [] _ [] ["next"] [] _ _ _ _ _ _ _ _ _ _ _)).
  - reflexivity.
  - reflexivity.
  - left. simpl. lia.
  - reflexivity.
  - reflexivity.
  - reflexivity.
  - reflexivity.
  - left. simpl. lia.
  - reflexivity.
  - reflexivity.
  - intros tool Ht.
    apply elem_of_cons in Ht as [-> | Ht]; [eexists; split; reflexivity|].
    apply elem_of_cons in Ht as [-> | Ht]; [eexists; split; reflexivity|].
    inversion Ht.
Defined.

(** C5, as stated, fails: for a space without repository the lister
    returns [None], the value it returns when the service answers every
    request with an error, not an empty list; and the run prints for it
    the line that it prints for an error. *)
Lemma no_repository_returns_the_error_value :
  fst (fetch_assembla_repositories_for_space plain_repr no_repository_tool
         (Some "key") (Some "secret") "demo" (World [] [], tt)) = Ok None /\
  fst (fetch_assembla_repositories_for_space plain_repr server_error
         (Some "key") (Some "secret") "demo" (World [] [], tt)) = Ok None /\
  fst (fetch_assembla_repositories_for_space plain_repr no_repository_tool
         (Some "key") (Some "secret") "demo" (World [] [], tt)) <> Ok (Some []) /\
  last (map msg_template
          (output (fst (snd (fetch_spaces plain_repr no_repository_tool
                               (Some "key") (Some "secret") ["demo"] []
                               (World [] [], tt))))))
  = Some "No repositories found or error occurred for space: {space_name}" /\
  last (map msg_template
          (output (fst (snd (fetch_spaces plain_repr server_error
                               (Some "key") (Some "secret") ["demo"] []
                               (World [] [], tt))))))
  = Some "No repositories found or error occurred for space: {space_name}".
Proof. repeat split; try (vm_compute; reflexivity). vm_compute. discriminate. Qed.

(** ** The timestamp of the merged record *)

Section Merge.
Variable repr_other : pyval -> string.
Variable env : list request -> request -> outcome.

(** [gather] assigns the branch list, the branch and tag counts, and the
    commit variables. *)
Lemma gather_keeps (I : locals -> Prop) (space_id : string)
    (repo_id repo_data : pyval) :
  (forall l v, I l -> I (set_branches_list v l)) ->
  (forall l n, I l -> I (set_stat "branches_count" (PInt n) l)) ->
  (forall l n, I l -> I (set_stat "tags_count" (PInt n) l)) ->
  (forall l v, I l -> I (set_all_commits v l)) ->
  (forall l v, I l -> I (set_latest_commit v l)) ->
  (forall l v, I l -> I (set_latest_commit_date v l)) ->
  keeps I (gather repr_other env space_id repo_id repo_data).
Proof.
  intros H1 H2 H3 H4 H5 H6 st Hst. unfold gather. apply post_bind.
  eapply post_mono; [apply (fetch_branches_keeps repr_other env I); auto|].
  intros [[]|e] st1 Hst1; [|exact Hst1]. apply post_bind.
  eapply post_mono; [apply (fetch_tags_keeps env I); auto|].
  intros [[]|e] st2 Hst2; [|exact Hst2].
  apply collect_commits_frame; auto.
Qed.

Lemma undated_commit_date (dc : list (string * pyval)) :
  dict_lookup "authored_at" dc = None -> dict_lookup "committed_at" dc = None ->
  dict_lookup "date" dc = None ->
  commit_date_of (PDict dc) = Ok (PStr "").
Proof. intros H1 H2 H3. unfold commit_date_of. simpl. by rewrite H1, H2, H3. Qed.

Lemma set_final_statistics_listed (repo_data : pyval) (n : Z) (w : world) (l : locals) :
  repo_data = PNone \/ is_dict repo_data = true ->
  latest_commit l = PNone -> py_len (all_commits l) = Ok n -> n <> 0 ->
  post (set_final_statistics repr_other repo_data) (w, l)
    (fun r st' =>
       r = Ok tt /\ stats (snd st') = <["commits_count" := PInt n]> (stats l)).
Proof.
  intros Hdata Hnone Hlen Hn.
  destruct l as [s bl a lc lcd]. simpl in Hnone, Hlen. subst lc.
  assert (Hand : exists v,
            py_and repo_data (py_get repo_data "last_commit_at" PNone) = Ok v).
  { unfold py_and. destruct Hdata as [-> | Hd]; [simpl; eauto|].
    destruct repo_data; try discriminate. destruct (truthy (PDict d)); simpl; eauto. }
  destruct Hand as [v Hand].
  unfold set_final_statistics, stat.
  apply post_bind, post_read. st_simpl.
  apply post_bind, post_lift. rewrite Hlen.
  apply post_bind, post_assign. st_simpl.
  apply post_bind, post_read. st_simpl. cbn [truthy].
  apply post_bind, post_lift. rewrite Hand.
  apply post_bind, post_bind, post_read. st_simpl.
  apply post_lift. rewrite lookup_insert_eq.
  rewrite py_eq_int. replace (n =? 0) with false by (symmetry; apply Z.eqb_neq; lia).
  rewrite andb_false_r. apply post_ret. st_simpl. auto.
Qed.

(** C10.  For a Git repository with a detail record, when the commits
    were fetched branch by branch, some were found and none of them has an
    [authored_at], [committed_at] or [date] field, the merged record's
    last-commit timestamp is the empty string, whatever the record held
    before the statistics were merged in. *)
Theorem merged_timestamp_is_emptied (space_name : string) (tool tool_id : pyval)
    (repos_lookup : list (pyval * pyval)) (repo_info : gmap string pyval)
    (d : list (string * pyval)) (w : world) (st1 : world * locals)
    (kept : list pyval) :
  lookup_has tool_id repos_lookup = Ok true ->
  lookup_find tool_id repos_lookup = Some (PDict d) ->
  gather repr_other env space_name tool_id (PDict d) (w, initial_locals)
    = (Ok tt, st1) ->
  truthy (branches_list (snd st1)) = true ->
  all_commits (snd st1) = PList kept -> kept <> [] ->
  (forall c, c ∈ kept ->
     exists dc, c = PDict dc /\ dict_lookup "authored_at" dc = None /\
                dict_lookup "committed_at" dc = None /\
                dict_lookup "date" dc = None) ->
  exists record w',
    attach_statistics repr_other env space_name tool tool_id repos_lookup repo_info
      (w, tt) = (Ok record, (w', tt)) /\
    record !! "last_commit_at" = Some (PStr "") /\
    record !! "commits_count" = Some (PInt (Z.of_nat (length kept))).
Proof.
  intros Hhas Hfind Hgather Hbranches Hall Hkept Hundated.
  pose proof (gather_post repr_other env space_name tool_id (PDict d) w) as Hg.
  unfold post in Hg. rewrite Hgather in Hg. cbn [snd] in Hg.
  assert (Hnone : latest_commit (snd st1) = PNone).
  { unfold gathered in Hg. rewrite Hbranches in Hg.
    destruct Hg as (kept' & Hall' & _ & _ & [Hn | (Hin & Hdate & Ht)]); [exact Hn|].
    rewrite Hall in Hall'. injection Hall' as <-.
    destruct (Hundated _ Hin) as (dc & Hc & Ha & Hco & Hd).
    rewrite Hc, (undated_commit_date dc Ha Hco Hd) in Hdate.
    injection Hdate as Hdate. rewrite <- Hdate in Ht. discriminate. }
  pose proof (gather_keeps
                (fun l => stats l !! "last_commit_at" = Some (PStr ""))
                space_name tool_id (PDict d)) as Hk.
  specialize (Hk ltac:(auto) ltac:(intros; simpl; by rewrite lookup_insert_ne)
                 ltac:(intros; simpl; by rewrite lookup_insert_ne)
                 ltac:(auto) ltac:(auto) ltac:(auto) (w, initial_locals) eq_refl).
  unfold post in Hk. rewrite Hgather in Hk. cbn [snd] in Hk.
  set (n := Z.of_nat (length kept)).
  set (I := fun l : locals =>
         stats l !! "last_commit_at" = Some (PStr "") /\
         stats l !! "commits_count" = Some (PInt n)).
  assert (Hc : post (conclude repr_other env space_name tool_id (PDict d)) st1
                 (fun r st' => exists s, r = Ok s /\ s = stats (snd st') /\ I (snd st'))).
  { apply conclude_keeps.
    - intros l m _ [H1 H2]. split; simpl; rewrite lookup_insert_ne by done; assumption.
    - destruct st1 as [w1 l1]. cbn [snd] in *.
      eapply post_mono.
      + apply (set_final_statistics_listed (PDict d) n w1 l1); auto.
        * rewrite Hall. reflexivity.
        * subst n. destruct kept; [contradiction | simpl; lia].
      + intros r st' [-> Hs]. split; [reflexivity|]. unfold I. rewrite Hs.
        split; [rewrite lookup_insert_ne by done; exact Hk | apply lookup_insert_eq]. }
  unfold post in Hc. destruct Hc as (s & Hr & Hs & H1 & H2).
  unfold attach_statistics, try_except, bind, lift, call, ret.
  rewrite Hhas, Hfind. cbn [fst snd from_option]. unfold id.
  unfold get_git_repo_statistics, bind. rewrite Hgather.
  destruct (conclude repr_other env space_name tool_id (PDict d) st1) as [r [w' l']].
  cbn [fst snd] in *. subst r s.
  exists (update repo_info (stats l')), w'. unfold update.
  split; [reflexivity|].
  split; apply lookup_union_Some_l; assumption.
Qed.

End Merge.

Lemma merged_timestamp_is_emptied_witness :
  exists record w',
    attach_statistics plain_repr undated_commit "demo" (PDict [("id", PInt 7)]) (PInt 7)
      [(PInt 7, PDict [("id", PInt 7); ("last_commit_at", PStr "2024-05-01T10:00:00Z")])]
      {["last_commit_at" := PStr "2024-05-01T10:00:00Z"]}
      (World [] [], tt) = (Ok record, (w', tt)) /\
    record !! "last_commit_at" = Some (PStr "") /\
    record !! "commits_count"
      = Some (PInt (Z.of_nat (length [PDict [("id", PStr "a1"); ("message", PStr "first")]]))).
Proof.
  eapply (merged_timestamp_is_emptied plain_repr undated_commit "demo"
            (PDict [("id", PInt 7)]) (PInt 7) _ _
            [("id", PInt 7); ("last_commit_at", PStr "2024-05-01T10:00:00Z")]
            (World [] [])).
  - reflexivity.
  - reflexivity.
  - vm_compute. reflexivity.
  - reflexivity.
  - reflexivity.
  - discriminate.
  - intros c Hc. apply list_elem_of_singleton in Hc as ->.
    eexists. repeat split; reflexivity.
Defined.

(** * Further properties of the code *)

(** ** The shape of the statistics *)

Lemma count_keys_cases (k : string) :
  k ∈ count_keys ->
  k = "commits_count" \/ k = "branches_count" \/ k = "tags_count" \/
  k = "merge_requests_count".
Proof.
  unfold count_keys. rewrite !elem_of_cons, elem_of_nil. tauto.
Qed.

Lemma initial_stats_well_formed : well_formed_stats initial_stats.
Proof.
  split; [|split].
  - unfold initial_stats, stat_keys. rewrite dom_list_to_map_L. reflexivity.
  - intros k Hk.
    destruct (count_keys_cases k Hk) as [-> | [-> | [-> | ->]]];
      exists 0; split; (reflexivity || lia).
  - exists "". reflexivity.
Qed.

Lemma well_formed_set_count (s : gmap string pyval) (k : string) (n : Z) :
  k ∈ count_keys -> 0 <= n -> well_formed_stats s ->
  well_formed_stats (<[k := PInt n]> s).
Proof.
  intros Hk Hn (Hdom & Hcounts & [m Hm]). split; [|split].
  - rewrite <- Hdom. apply dom_insert_lookup_L.
    destruct (Hcounts k Hk) as (n' & Hn' & _). eauto.
  - intros k' Hk'. destruct (decide (k = k')) as [<- | Hne].
    + exists n. rewrite lookup_insert_eq. auto.
    + rewrite lookup_insert_ne by exact Hne. auto.
  - exists m. rewrite lookup_insert_ne; [exact Hm|].
    destruct (count_keys_cases k Hk) as [-> | [-> | [-> | ->]]]; discriminate.
Qed.

Lemma well_formed_set_message (s : gmap string pyval) (m : string) :
  well_formed_stats s -> well_formed_stats (<["last_commit_message" := PStr m]> s).
Proof.
  intros (Hdom & Hcounts & Hm). split; [|split].
  - rewrite <- Hdom. apply dom_insert_lookup_L. destruct Hm; eauto.
  - intros k Hk. rewrite lookup_insert_ne; [auto|].
    destruct (count_keys_cases k Hk) as [-> | [-> | [-> | ->]]]; discriminate.
  - exists m. apply lookup_insert_eq.
Qed.

Lemma well_formed_set_text (s : gmap string pyval) (k : string) (v : pyval) :
  k = "last_commit_author" \/ k = "last_commit_at" ->
  well_formed_stats s -> well_formed_stats (<[k := v]> s).
Proof.
  intros Hk (Hdom & Hcounts & [m Hm]). split; [|split].
  - rewrite <- Hdom. apply dom_insert_lookup_L.
    apply elem_of_dom. rewrite Hdom. unfold stat_keys.
    destruct Hk as [-> | ->]; set_solver.
  - intros k' Hk'. rewrite lookup_insert_ne; [auto|].
    destruct (count_keys_cases k' Hk') as [-> | [-> | [-> | ->]]];
      destruct Hk as [-> | ->]; discriminate.
  - exists m. rewrite lookup_insert_ne; [exact Hm|].
    destruct Hk as [-> | ->]; discriminate.
Qed.

Section Shape.
Variable repr_other : pyval -> string.
Variable env : list request -> request -> outcome.

Lemma py_replace_str (old new : string) (v r : pyval) :
  py_replace old new v = Ok r -> exists m, r = PStr m.
Proof. destruct v; simpl; intros H; inversion H; eauto. Qed.

Lemma count_key_commits : "commits_count" ∈ count_keys.
Proof. unfold count_keys. set_solver. Qed.

Lemma count_key_branches : "branches_count" ∈ count_keys.
Proof. unfold count_keys. set_solver. Qed.

Lemma count_key_tags : "tags_count" ∈ count_keys.
Proof. unfold count_keys. set_solver. Qed.

Lemma count_key_merge_requests : "merge_requests_count" ∈ count_keys.
Proof. unfold count_keys. set_solver. Qed.

Ltac wf_step :=
  lazymatch goal with
  | |- well_formed_stats (stats _) => assumption
  | |- well_formed_stats (<["last_commit_message" := _]> _) =>
      apply well_formed_set_message
  | |- well_formed_stats (<["last_commit_author" := _]> _) =>
      apply well_formed_set_text; [left; reflexivity|]
  | |- well_formed_stats (<["last_commit_at" := _]> _) =>
      apply well_formed_set_text; [right; reflexivity|]
  | |- well_formed_stats (<["commits_count" := _]> _) =>
      apply well_formed_set_count; [apply count_key_commits | lia |]
  | |- well_formed_stats (<["branches_count" := _]> _) =>
      apply well_formed_set_count; [apply count_key_branches | lia |]
  | |- well_formed_stats (<["tags_count" := _]> _) =>
      apply well_formed_set_count; [apply count_key_tags | lia |]
  | |- well_formed_stats (<["merge_requests_count" := _]> _) =>
      apply well_formed_set_count; [apply count_key_merge_requests | lia |]
  end.

Ltac wf_stats :=
  repeat match goal with
  | H : py_replace _ _ _ = Ok _ |- _ =>
      destruct (py_replace_str _ _ _ _ H) as [? ->]; clear H
  | H : py_len _ = Ok _ |- _ => apply py_len_nonneg in H
  end;
  repeat wf_step.

Lemma set_final_statistics_well_formed (repo_data : pyval) :
  keeps (fun l => well_formed_stats (stats l))
        (set_final_statistics repr_other repo_data).
Proof.
  intros st Hst. unfold set_final_statistics.
  wps; cbn [stats set_stat] in *;
    try match goal with
    | Hl : match _ !! "branches_count" with Some _ => _ | None => _ end = Ok ?x,
      Hm : py_max (PInt 1) ?x = Ok _ |- _ =>
        rewrite !lookup_insert_ne in Hl by done;
        let Hc := fresh "Hc" in
        pose proof Hst as (_ & Hc & _);
        destruct (Hc "branches_count" count_key_branches) as (b' & Hb & Hb0);
        rewrite Hb in Hl; injection Hl as <-;
        rewrite py_max_int in Hm; injection Hm as <-
    end;
    wf_stats.
Qed.

Lemma gather_well_formed (space_id : string) (repo_id repo_data : pyval) :
  keeps (fun l => well_formed_stats (stats l))
        (gather repr_other env space_id repo_id repo_data).
Proof.
  intros st Hst. unfold gather. apply post_bind.
  eapply post_mono.
  { apply (fetch_branches_keeps repr_other env
             (fun l => well_formed_stats (stats l))); [auto | | exact Hst].
    intros l n Hn Hl. cbn [stats set_stat]. wf_stats. }
  intros [[]|e] st1 Hst1; [|exact Hst1]. apply post_bind.
  eapply post_mono.
  { apply (fetch_tags_keeps env (fun l => well_formed_stats (stats l)));
      [|exact Hst1].
    intros l n Hn Hl. cbn [stats set_stat]. wf_stats. }
  intros [[]|e] st2 Hst2; [|exact Hst2].
  apply (collect_commits_frame repr_other env
           (fun l => well_formed_stats (stats l))); auto.
Qed.

Lemma conclude_well_formed (space_id : string) (repo_id repo_data : pyval)
    (st : world * locals) :
  well_formed_stats (stats (snd st)) ->
  post (conclude repr_other env space_id repo_id repo_data) st
    (fun r _ => match r with Ok s => well_formed_stats s | Raise _ => True end).
Proof.
  intros Hst. unfold conclude. apply post_bind.
  eapply post_mono; [apply set_final_statistics_well_formed; exact Hst|].
  intros [[]|e] st1 Hst1; [|exact I]. apply post_bind.
  eapply post_mono.
  { apply (fetch_merge_requests_keeps repr_other env
             (fun l => well_formed_stats (stats l))); [|exact Hst1].
    intros l n Hn Hl. cbn [stats set_stat]. wf_stats. }
  intros [[]|e] st2 Hst2; [|exact I]. wps. exact Hst2.
Qed.

Lemma statistics_from_well_formed (space_id : string) (repo_id repo_data : pyval)
    (w : world) :
  match fst (statistics_from repr_other env w space_id repo_id repo_data) with
  | Ok s => well_formed_stats s
  | Raise _ => True
  end.
Proof.
  assert (Hp : post (get_git_repo_statistics repr_other env space_id repo_id repo_data)
                 (w, initial_locals)
                 (fun r _ => match r with Ok s => well_formed_stats s | Raise _ => True end)).
  { unfold get_git_repo_statistics. apply post_bind.
    eapply post_mono;
      [apply gather_well_formed; exact initial_stats_well_formed|].
    intros [[]|e] st1 Hst1; [|exact I].
    apply conclude_well_formed. exact Hst1. }
  unfold post in Hp. unfold statistics_from.
  destruct (get_git_repo_statistics repr_other env space_id repo_id repo_data
              (w, initial_locals)) as [r [w' l']].
  exact Hp.
Qed.

(** X1.  Whenever the enricher returns, whatever the service answered,
    its dictionary has exactly the seven statistics keys, the four counts
    are integers that are not negative, and the last message is a
    string. *)
Theorem statistics_are_well_formed (space_id : string) (repo_id repo_data : pyval)
    (w : world) :
  match fst (statistics_from repr_other env w space_id repo_id repo_data) with
  | Ok s => well_formed_stats s
  | Raise _ => True
  end.
Proof. apply statistics_from_well_formed. Qed.

End Shape.

(** ** When the enricher returns *)

Lemma try_print_total {L} (body : M L unit) (t : string) (args : exn -> list pyval)
    (st : world * L) :
  post (try_except body (fun e => print t (args e))) st (fun r _ => r = Ok tt).
Proof.
  unfold post, try_except, print. destruct (body st) as [[[]|e] st']; reflexivity.
Qed.

Lemma for_each_total {L X} (body : X -> M L control) (xs : list X) (st : world * L) :
  (forall x st0, x ∈ xs -> post (body x) st0 (fun r _ => exists c, r = Ok c)) ->
  post (for_each body xs) st (fun r _ => r = Ok tt).
Proof.
  intros H. apply post_for_each with (inv := fun _ => True); auto.
  intros x st0 Hx _. eapply post_mono; [apply (H x st0 Hx)|].
  intros r st' [c ->]. exact I.
Qed.

Section Returns.
Variable repr_other : pyval -> string.
Variable env : list request -> request -> outcome.
Hypothesis shaped : well_shaped env.

Lemma body_shaped_items (body : pyval) :
  body_shaped body = true ->
  exists items, body = PList items /\ Forall (fun c => entry_shaped c = true) items.
Proof.
  destruct body; try discriminate. simpl. intros H. eexists. split; [reflexivity|].
  apply Forall_forall. intros c Hc.
  rewrite forallb_forall in H. apply H. apply list_elem_of_In. exact Hc.
Qed.

Lemma from_service_items (body : pyval) :
  from_service env body ->
  exists items, body = PList items /\ Forall (fun c => entry_shaped c = true) items.
Proof.
  intros (log & rq & r & Hr & Hb). apply body_shaped_items. eapply shaped; eauto.
Qed.

Lemma served_shaped (item : pyval) : served env item -> entry_shaped item = true.
Proof.
  intros (log & rq & r & body & items & Hr & Hb & Hi & Hin).
  destruct (body_shaped_items body (shaped _ _ _ _ Hr Hb)) as (items' & -> & Hall).
  simpl in Hi. injection Hi as <-.
  rewrite Forall_forall in Hall. auto.
Qed.

Lemma gathered_settled (l : locals) : gathered repr_other env l -> settled l.
Proof.
  unfold gathered, settled. destruct (truthy (branches_list l)).
  - intros (kept & Hall & _ & Hserved & Hlatest). rewrite Hall. split; [simpl; eauto|].
    destruct Hlatest as [-> | (Hin & _ & _)]; [discriminate|].
    intros _. apply served_shaped. rewrite Forall_forall in Hserved. auto.
  - intros [Hall Hlatest]. split.
    + destruct Hall as [-> | Hs]; [simpl; eauto|].
      destruct (from_service_items _ Hs) as (items & -> & _). simpl. eauto.
    + destruct Hlatest as [-> | [Ht Hfirst]]; [discriminate|]. intros _.
      destruct Hall as [Hnil | Hs]; [rewrite Hnil in Ht; discriminate|].
      destruct (from_service_items _ Hs) as (items & Hitems & Hall).
      rewrite Hitems in Hfirst. destruct items as [|x items]; [discriminate|].
      simpl in Hfirst. injection Hfirst as <-.
      apply Forall_cons in Hall as [Hx _]. exact Hx.
Qed.

End Returns.

Section Returns2.
Variable repr_other : pyval -> string.
Variable env : list request -> request -> outcome.

Lemma shaped_message (d : list (string * pyval)) (v : pyval) :
  entry_shaped (PDict d) = true ->
  py_get (PDict d) "message" (PStr "") = Ok v -> exists m, v = PStr m.
Proof.
  simpl. intros H Hv. injection Hv as <-.
  destruct (dict_lookup "message" d) as [[]|]; try discriminate; eauto.
Qed.

Ltac never_raised :=
  exfalso; cbn [stats all_commits latest_commit set_stat snd] in *;
  repeat match goal with
  | H : py_replace _ _ _ = Ok _ |- _ =>
      destruct (py_replace_str _ _ _ _ H) as [? ->]; clear H
  | Hs : entry_shaped (PDict ?d) = true,
    H : py_get (PDict ?d) "message" (PStr "") = Ok _ |- _ =>
      destruct (shaped_message _ _ Hs H) as [? ->]; clear H
  | H : is_dict ?x = true |- _ => destruct x; try discriminate H; clear H
  end;
  try congruence;
  try match goal with
      | H : py_get (PDict _) _ _ = Raise _ |- _ => discriminate H
      | H : py_replace _ _ (PStr _) = Raise _ |- _ => discriminate H
      end.

Lemma set_final_statistics_total (repo_data : pyval) (w : world) (l : locals) :
  settled l -> well_formed_stats (stats l) ->
  repo_data = PNone \/ is_dict repo_data = true ->
  post (set_final_statistics repr_other repo_data) (w, l) (fun r _ => r = Ok tt).
Proof.
  intros [[n Hlen] Hlatest] (Hdom & Hcounts & Hm) Hdata.
  destruct l as [s bl a lc lcd]. cbn [stats all_commits latest_commit] in *.
  destruct (Hcounts "branches_count" count_key_branches) as (b & Hb & Hb0).
  destruct (truthy lc) eqn:Hlc.
  - specialize (Hlatest eq_refl). destruct lc as [| | | | | |d]; try discriminate.
    unfold set_final_statistics.
    wps; st_simpl; try reflexivity; never_raised.
  - unfold set_final_statistics.
    wps; st_simpl; try reflexivity; never_raised;
      repeat match goal with
      | H : context [<[?k:=_]> _ !! ?k] |- _ => rewrite lookup_insert_eq in H
      | H : context [<[_:=_]> _ !! _] |- _ => rewrite lookup_insert_ne in H by done
      end;
      rewrite ?Hb in *; simplify_eq;
      rewrite ?py_gt_int, ?py_max_int in *; try discriminate.
    + destruct Hdata as [-> | Hd]; [|destruct repo_data; discriminate].
      unfold py_and in *; simpl in *; simplify_eq; discriminate.
    + destruct Hdata as [-> | Hd]; [discriminate|].
      destruct repo_data; try discriminate. unfold py_and in *. simpl in *.
      match goal with H : (if ?c then _ else _) = Raise _ |- _ =>
        destruct c; discriminate H end.
Qed.

(** Every fetch that sits under its own [try] ends normally. *)
Lemma gather_total (space_id : string) (repo_id repo_data : pyval)
    (st : world * locals) :
  well_shaped env ->
  branches_list (snd st) = PList [] ->
  post (gather repr_other env space_id repo_id repo_data) st (fun r _ => r = Ok tt).
Proof.
  intros Hshaped Hbl.
  set (B := fun l : locals =>
         branches_list l = PList [] \/ from_service env (branches_list l)).
  unfold gather. apply post_bind.
  eapply post_mono.
  { apply post_and.
    - unfold fetch_branches. apply try_print_total.
    - apply (fetch_branches_keeps repr_other env B); unfold B; cbn; auto. }
  intros r st1 [-> HB1]. cbv beta iota. apply post_bind.
  eapply post_mono.
  { apply post_and.
    - unfold fetch_tags. apply try_print_total.
    - apply (fetch_tags_keeps env B); unfold B; cbn; auto. }
  intros r st2 [-> HB2]. cbv beta iota.
  unfold collect_commits. apply post_bind, post_read. cbv beta iota.
  destruct (truthy (branches_list (snd st2))) eqn:Ht.
  - destruct HB2 as [Hnil | Hs]; [rewrite Hnil in Ht; discriminate|].
    destruct (from_service_items env Hshaped _ Hs) as (items & -> & Hitems).
    apply post_bind, post_lift. cbn [py_iter].
    apply for_each_total. intros branch st0 Hin.
    rewrite Forall_forall in Hitems. specialize (Hitems branch Hin).
    destruct branch; try discriminate.
    unfold fetch_branch_commits. apply post_bind, post_lift. cbn [py_get].
    apply post_bind, post_lift. apply post_bind.
    eapply post_mono; [apply try_print_total|].
    intros r st' ->. cbv beta iota. apply post_ret. eauto.
  - unfold fetch_commits_without_branch. apply try_print_total.
Qed.

End Returns2.

(** ** The statistics when nothing is fetched *)

Section Unanswered.
Variable repr_other : pyval -> string.
Variable env : list request -> request -> outcome.
(** No request is answered with status 200. *)
Hypothesis H200 : forall log rq r, env log rq = Received r -> status_code r <> 200.







End Unanswered.

Section Returns3.
Variable repr_other : pyval -> string.
Variable env : list request -> request -> outcome.

Lemma conclude_total (space_id : string) (repo_id repo_data : pyval)
    (st : world * locals) :
  settled (snd st) -> well_formed_stats (stats (snd st)) ->
  repo_data = PNone \/ is_dict repo_data = true ->
  post (conclude repr_other env space_id repo_id repo_data) st
    (fun r _ => exists s, r = Ok s).
Proof.
  intros Hsettled Hwf Hdata. destruct st as [w l]. unfold conclude. apply post_bind.
  eapply post_mono;
    [apply (set_final_statistics_total repr_other repo_data w l); assumption|].
  intros r st1 ->. cbv beta iota. apply post_bind.
  eapply post_mono; [apply fetch_merge_requests_total|].
  intros r st2 ->. cbv beta iota. wps. eauto.
Qed.

Lemma statistics_from_returns (space_id : string) (repo_id repo_data : pyval) (w : world) :
  well_shaped env ->
  repo_data = PNone \/ is_dict repo_data = true ->
  exists s w',
    statistics_from repr_other env w space_id repo_id repo_data = (Ok s, w') /\
    well_formed_stats s.
Proof.
  intros Hshaped Hdata.
  assert (Hp : post (get_git_repo_statistics repr_other env space_id repo_id repo_data)
                 (w, initial_locals) (fun r _ => exists s, r = Ok s)).
  { unfold get_git_repo_statistics. apply post_bind.
    eapply post_mono.
    { apply post_and; [|apply post_and].
      - apply gather_total; [exact Hshaped | reflexivity].
      - apply gather_post.
      - apply gather_well_formed. exact initial_stats_well_formed. }
    intros r st1 (-> & Hg & Hwf). cbv beta iota.
    apply conclude_total; [|exact Hwf | exact Hdata].
    eapply gathered_settled; eauto. }
  pose proof (statistics_from_well_formed repr_other env space_id repo_id repo_data w)
    as Hwf.
  unfold post in Hp. unfold statistics_from in *.
  destruct (get_git_repo_statistics repr_other env space_id repo_id repo_data
              (w, initial_locals)) as [r [w' l']].
  cbn [fst] in *. destruct Hp as [s ->]. eauto.
Qed.

(** X2.  When every body the service sends decodes to a list of JSON
    objects whose message, if any, is a string, and the detail record is
    absent or a JSON object, the enricher returns, and with well-formed
    statistics. *)
Theorem enricher_returns (space_id : string) (repo_id repo_data : pyval) (w : world) :
  well_shaped env ->
  repo_data = PNone \/ is_dict repo_data = true ->
  exists s w',
    statistics_from repr_other env w space_id repo_id repo_data = (Ok s, w') /\
    well_formed_stats s.
Proof. apply statistics_from_returns. Qed.


End Returns3.

Lemma serve_well_shaped (table : list (string * response)) :
  Forall (fun entry =>
            match json_body (snd entry) with
            | Some body => body_shaped body = true
            | None => True
            end) table ->
  well_shaped (serve table).
Proof.
  intros Htable log rq r body Hr Hb. unfold serve in Hr.
  destruct (list_find _ table) as [[i [u r']]|] eqn:Hfind.
  - injection Hr as ->. apply list_find_Some in Hfind as (Hi & _ & _).
    rewrite Forall_forall in Htable.
    specialize (Htable (u, r) ltac:(eapply list_elem_of_lookup_2; eauto)).
    simpl in Htable. rewrite Hb in Htable. exact Htable.
  - injection Hr as <-. discriminate.
Qed.


Lemma enricher_returns_witness :
  exists s w',
    statistics_from plain_repr undated_commit (World [] []) "demo" (PInt 7) PNone
      = (Ok s, w') /\
    well_formed_stats s.
Proof.
  apply (enricher_returns plain_repr undated_commit "demo" (PInt 7) PNone (World [] [])).
  - apply serve_well_shaped. repeat constructor.
  - left. reflexivity.
Defined.

(** ** The merge of the statistics into a record *)

Section MergeStats.
Variable repr_other : pyval -> string.
Variable env : list request -> request -> outcome.

Lemma attach_statistics_total (space_name : string) (tool tool_id : pyval)
    (repos_lookup : list (pyval * pyval)) (repo_info : gmap string pyval)
    (w : world) :
  is_dict tool = true ->
  exists record w',
    attach_statistics repr_other env space_name tool tool_id repos_lookup repo_info
      (w, tt) = (Ok record, (w', tt)) /\
    (record = repo_info \/
     exists s, well_formed_stats s /\ record = update repo_info s).
Proof.
  intros Htool. destruct tool as [| | | | | |dt]; try discriminate.
  unfold attach_statistics, try_except, bind, lift, call, ret, print.
  cbn [fst snd py_get].
  destruct (lookup_has tool_id repos_lookup) as [known|e] eqn:Hknown.
  - set (repo_data :=
           if known then default PNone (lookup_find tool_id repos_lookup) else PNone).
    pose proof (statistics_from_well_formed repr_other env space_name tool_id
                  repo_data w) as Hwf.
    unfold statistics_from in Hwf.
    destruct (get_git_repo_statistics repr_other env space_name tool_id repo_data
                (w, initial_locals)) as [[s|e] [w' l']]; cbn [fst snd] in *.
    + eexists _, _. split; [reflexivity|]. right. eauto.
    + eexists _, _. split; [reflexivity|]. left. reflexivity.
  - eexists _, _. split; [reflexivity|]. left. reflexivity.
Qed.

(** X3.  For a tool entry that is a JSON object, merging the statistics
    never raises, and it is all or nothing.  When the enricher returns
    statistics, they are well formed, the record is updated with all of
    them, and the merge prints nothing of its own.  When the enricher
    raises, or the lookup of the tool's id does, the record comes back as
    it was, and the last line printed is the warning that names the
    repository and the exception. *)
Theorem enrichment_is_all_or_nothing (space_name : string) (tool tool_id : pyval)
    (repos_lookup : list (pyval * pyval)) (repo_info : gmap string pyval)
    (w : world) :
  is_dict tool = true ->
  (forall known s w',
     lookup_has tool_id repos_lookup = Ok known ->
     statistics_from repr_other env w space_name tool_id
       (if known then default PNone (lookup_find tool_id repos_lookup) else PNone)
     = (Ok s, w') ->
     well_formed_stats s /\
     attach_statistics repr_other env space_name tool tool_id repos_lookup repo_info
       (w, tt)
     = (Ok (update repo_info s), (w', tt))) /\
  (forall known e w',
     lookup_has tool_id repos_lookup = Ok known ->
     statistics_from repr_other env w space_name tool_id
       (if known then default PNone (lookup_find tool_id repos_lookup) else PNone)
     = (Raise e, w') ->
     attach_statistics repr_other env space_name tool tool_id repos_lookup repo_info
       (w, tt)
     = (Ok repo_info,
        (World (requests w') (output w' ++ [statistics_warning tool e]), tt))) /\
  (forall e,
     lookup_has tool_id repos_lookup = Raise e ->
     attach_statistics repr_other env space_name tool tool_id repos_lookup repo_info
       (w, tt)
     = (Ok repo_info,
        (World (requests w) (output w ++ [statistics_warning tool e]), tt))).
Proof.
  intros Htool. destruct tool as [| | | | | |dt]; try discriminate.
  unfold attach_statistics, try_except, bind, lift, call, ret, print,
    statistics_warning.
  cbn [fst snd py_get].
  split; [|split].
  - intros known s w' Hknown Hrun. rewrite Hknown.
    pose proof (statistics_from_well_formed repr_other env space_name tool_id
                  (if known then default PNone (lookup_find tool_id repos_lookup)
                   else PNone) w) as Hwf.
    rewrite Hrun in Hwf. split; [exact Hwf|].
    unfold statistics_from in Hrun.
    destruct (get_git_repo_statistics repr_other env space_name tool_id _
                (w, initial_locals)) as [r [w1 l1]].
    injection Hrun as -> ->. reflexivity.
  - intros known e w' Hknown Hrun. rewrite Hknown.
    unfold statistics_from in Hrun.
    destruct (get_git_repo_statistics repr_other env space_name tool_id _
                (w, initial_locals)) as [r [w1 l1]].
    injection Hrun as -> ->. reflexivity.
  - intros e Hknown. rewrite Hknown. reflexivity.
Qed.

End MergeStats.

Lemma enrichment_is_all_or_nothing_witness :
  attach_statistics plain_repr null_message "demo" (PDict [("id", PInt 7)])
    (PInt 7) [] ∅ (World [] [], tt)
  = (Ok ∅,
     (World
        (requests (snd (statistics_from plain_repr null_message (World [] []) "demo"
                          (PInt 7) PNone)))
        (output (snd (statistics_from plain_repr null_message (World [] []) "demo"
                        (PInt 7) PNone)) ++
         [statistics_warning (PDict [("id", PInt 7)]) AttributeError]), tt)).
Proof.
  assert (H1 : lookup_has (PInt 7) [] = Ok false) by reflexivity.
  assert (H2 : statistics_from plain_repr null_message (World [] []) "demo" (PInt 7)
                 (if false then default PNone (lookup_find (PInt 7) []) else PNone)
               = (Raise AttributeError,
                  snd (statistics_from plain_repr null_message (World [] []) "demo"
                         (PInt 7) PNone)))
    by (vm_compute; reflexivity).
  exact (proj1 (proj2 (enrichment_is_all_or_nothing plain_repr null_message "demo"
                         (PDict [("id", PInt 7)]) (PInt 7) [] ∅ (World [] [])
                         eq_refl))
           false AttributeError _ H1 H2).
Defined.

(** On that service the enricher raises on the null message of the only
    commit: the record stays empty and the warning is the last line. *)
Example warning_for_a_null_message :
  exists record st',
    attach_statistics plain_repr null_message "demo" (PDict [("id", PInt 7)])
      (PInt 7) [] ∅ (World [] [], tt) = (Ok record, st') /\
    record = ∅ /\
    last (output (fst st'))
    = Some (statistics_warning (PDict [("id", PInt 7)]) AttributeError).
Proof. apply run_ok. vm_compute. repeat split. Qed.

(** ** The record of a tool entry *)

Lemma identity_keys_cases (k : string) :
  k ∈ identity_keys ->
  k = "id" \/ k = "name" \/ k = "menu_name" \/ k = "type" \/ k = "created_at" \/
  k = "updated_at" \/ k = "space_id" \/ k = "space_name".
Proof. unfold identity_keys. rewrite !elem_of_cons, elem_of_nil. tauto. Qed.

Lemma identity_key_not_stat (k : string) : k ∈ identity_keys -> k ∉ stat_keys.
Proof.
  intros Hk. unfold stat_keys.
  destruct (identity_keys_cases k Hk) as [-> | [-> | [-> | [-> | [-> | [-> | [-> | ->]]]]]]];
    vm_compute; intros H; discriminate H.
Qed.

Lemma update_lookup_fresh (repo other : gmap string pyval) (k : string) :
  other !! k = None -> update repo other !! k = repo !! k.
Proof. intros H. unfold update. by rewrite lookup_union_r. Qed.

Lemma update_lookup_stat (repo s : gmap string pyval) (k : string) :
  well_formed_stats s -> k ∉ stat_keys -> update repo s !! k = repo !! k.
Proof.
  intros (Hdom & _) Hk. apply update_lookup_fresh.
  apply not_elem_of_dom. rewrite Hdom. exact Hk.
Qed.

(** What the detail record adds: the size, the timestamp, the branch, the
    clone URLs and the two flags; the identity fields stay. *)
Lemma attach_detail_result (tool repo_data : pyval) (repo_info : gmap string pyval)
    (st : world * unit) :
  post (attach_detail tool repo_data repo_info) st (fun r _ =>
    match r with
    | Raise _ => True
    | Ok detailed =>
        exists d,
          repo_data = PDict d /\
          (forall k, k ∈ identity_keys -> detailed !! k = repo_info !! k) /\
          detailed !! "last_commit_at" = Some (tool_field d "last_commit_at") /\
          detailed !! "has_commits_indicator"
            = Some (PBool (truthy (tool_field d "last_commit_at"))) /\
          detailed !! "is_likely_imported"
            = Some (PBool (truthy (tool_field d "last_commit_at")))
    end).
Proof.
  unfold attach_detail.
  destruct repo_data as [| | | | | |d];
    try (apply post_bind, post_lift; exact I).
  wps; try exact I; exists d; (split; [reflexivity|]);
    cbn [py_get] in *; simplify_eq; unfold tool_field;
    match goal with H : truthy _ = _ |- _ => rewrite H end;
    rewrite !list_to_map_cons, list_to_map_nil.
  all: split;
    [ intros k Hk;
      destruct (identity_keys_cases k Hk)
        as [-> | [-> | [-> | [-> | [-> | [-> | [-> | ->]]]]]]];
      rewrite !lookup_insert_ne by done; apply update_lookup_fresh;
      rewrite !lookup_insert_ne by done; apply lookup_empty
    | ].
  all: split;
    [ rewrite !lookup_insert_ne by done; unfold update;
      apply lookup_union_Some_l; rewrite !lookup_insert_ne by done;
      apply lookup_insert_eq
    | split; [apply lookup_insert_eq
             | rewrite lookup_insert_ne by done; apply lookup_insert_eq] ].
Qed.

Section Records.
Variable repr_other : pyval -> string.
Variable env : list request -> request -> outcome.

Lemma attach_statistics_result (space_name : string) (dt : list (string * pyval))
    (tool_id : pyval) (repos_lookup : list (pyval * pyval))
    (repo_info : gmap string pyval) (st : world * unit) :
  post (attach_statistics repr_other env space_name (PDict dt) tool_id repos_lookup
          repo_info) st
    (fun r _ =>
       exists record,
         r = Ok record /\ forall k, k ∉ stat_keys -> record !! k = repo_info !! k).
Proof.
  destruct st as [w []].
  destruct (attach_statistics_total repr_other env space_name (PDict dt) tool_id
              repos_lookup repo_info w eq_refl) as (record & w' & Hrun & Hrec).
  unfold post. rewrite Hrun. cbn [fst snd]. exists record. split; [reflexivity|].
  intros k Hk. destruct Hrec as [-> | (s & Hs & ->)]; [reflexivity|].
  apply update_lookup_stat; assumption.
Qed.

Lemma key_has_commits_indicator : "has_commits_indicator" ∉ stat_keys.
Proof. vm_compute. intros H. discriminate H. Qed.

Lemma key_is_likely_imported : "is_likely_imported" ∉ stat_keys.
Proof. vm_compute. intros H. discriminate H. Qed.

(** The record of a tool entry that is a JSON object. *)
Lemma merge_tool_result (space_name : string) (repos_lookup : list (pyval * pyval))
    (dt : list (string * pyval)) (st : world * unit) :
  post (merge_tool repr_other env space_name repos_lookup (PDict dt)) st (fun r _ =>
    match r with
    | Raise _ => True
    | Ok None => py_in (tool_field dt "type") repo_types = false
    | Ok (Some record) =>
        py_in (tool_field dt "type") repo_types = true /\
        (forall k, k ∈ identity_keys ->
           record !! k = Some (tool_identity space_name dt k)) /\
        (forall d,
           lookup_find (tool_field dt "id") repos_lookup = Some (PDict d) ->
           record !! "has_commits_indicator"
             = Some (PBool (truthy (tool_field d "last_commit_at"))) /\
           record !! "is_likely_imported"
             = Some (PBool (truthy (tool_field d "last_commit_at"))))
    end).
Proof.
  unfold merge_tool. apply post_bind, post_lift. cbn [py_get]. fold (tool_field dt "type").
  destruct (py_in (tool_field dt "type") repo_types) eqn:Hty;
    [|apply post_ret; reflexivity].
  do 5 (apply post_bind, post_lift; cbn [py_get]).
  fold (tool_field dt "id") (tool_field dt "name") (tool_field dt "menu_name")
       (tool_field dt "created_at") (tool_field dt "updated_at").
  set (base := list_to_map _ : gmap string pyval).
  assert (Hbase : forall k, k ∈ identity_keys ->
            base !! k = Some (tool_identity space_name dt k)).
  { intros k Hk. subst base. rewrite !list_to_map_cons, list_to_map_nil.
    destruct (identity_keys_cases k Hk)
      as [-> | [-> | [-> | [-> | [-> | [-> | [-> | ->]]]]]]];
      rewrite ?lookup_insert_ne by done; apply lookup_insert_eq. }
  apply post_bind, post_lift.
  destruct (lookup_has (tool_field dt "id") repos_lookup) as [known|e] eqn:Hknown;
    [|exact I].
  apply post_bind.
  assert (Hdetail :
    post (if known
          then attach_detail (PDict dt)
                 (default PNone (lookup_find (tool_field dt "id") repos_lookup)) base
          else ret base) st
      (fun r _ =>
         match r with
         | Raise _ => True
         | Ok detailed =>
             (forall k, k ∈ identity_keys -> detailed !! k = base !! k) /\
             (forall d,
                lookup_find (tool_field dt "id") repos_lookup = Some (PDict d) ->
                detailed !! "has_commits_indicator"
                  = Some (PBool (truthy (tool_field d "last_commit_at"))) /\
                detailed !! "is_likely_imported"
                  = Some (PBool (truthy (tool_field d "last_commit_at"))))
         end)).
  { destruct known.
    - eapply post_mono; [apply attach_detail_result|].
      intros [detailed|e] st' H; [|exact I].
      destruct H as (d & Hd & Hid & _ & Hflag1 & Hflag2).
      split; [exact Hid|]. intros d' Hd'. rewrite Hd' in Hd. simpl in Hd.
      injection Hd as ->. auto.
    - apply post_ret. split; [auto|]. intros d Hd.
      unfold lookup_has in Hknown.
      destruct (hashable (tool_field dt "id")); [|discriminate].
      injection Hknown as Hknown. rewrite Hd in Hknown.
      apply bool_decide_eq_false in Hknown. exfalso. apply Hknown. eauto. }
  eapply post_mono; [exact Hdetail|]. clear Hdetail.
  intros [detailed|e] st1 H1; [|exact I]. destruct H1 as [Hid Hflags].
  apply post_bind.
  destruct (py_eq (tool_field dt "type") (PStr "GitTool")).
  - eapply post_mono; [apply attach_statistics_result|].
    intros r st2 (record & -> & Hrec). apply post_ret.
    split; [reflexivity|]. split.
    + intros k Hk. rewrite Hrec by (apply identity_key_not_stat; exact Hk).
      rewrite Hid by exact Hk. auto.
    + intros d Hd. rewrite !Hrec
        by (apply key_has_commits_indicator || apply key_is_likely_imported).
      auto.
  - apply post_ret. apply post_ret. split; [reflexivity|]. split.
    + intros k Hk. rewrite Hid by exact Hk. auto.
    + exact Hflags.
Qed.

End Records.

Section Records2.
Variable repr_other : pyval -> string.
Variable env : list request -> request -> outcome.

(** X4.  A tool entry of a kind that is not recognized gives no record;
    the record of a recognized one holds, under the eight identity keys,
    the fields of the tool entry and the space name, whatever the detail
    record and the statistics added: merging never overwrites them. *)
Theorem record_keeps_tool_identity (space_name : string)
    (repos_lookup : list (pyval * pyval)) (dt : list (string * pyval))
    (st : world * unit) :
  match fst (merge_tool repr_other env space_name repos_lookup (PDict dt) st) with
  | Raise _ => True
  | Ok None => is_repository_tool (PDict dt) = false
  | Ok (Some record) =>
      is_repository_tool (PDict dt) = true /\
      forall k, k ∈ identity_keys ->
        record !! k = Some (tool_identity space_name dt k)
  end.
Proof.
  pose proof (merge_tool_result repr_other env space_name repos_lookup dt st) as H.
  unfold post in H.
  destruct (fst (merge_tool repr_other env space_name repos_lookup (PDict dt) st))
    as [[record|]|e]; [|exact H|exact I].
  destruct H as (H1 & H2 & _). auto.
Qed.

(** X5.  The record of a repository whose detail record has a last-commit
    timestamp is never flagged empty: the exporter writes [Imported] for
    it, whatever statistics were merged in. *)
Theorem imported_record_is_not_empty (space_name : string)
    (repos_lookup : list (pyval * pyval)) (dt d : list (string * pyval))
    (st : world * unit) :
  lookup_find (tool_field dt "id") repos_lookup = Some (PDict d) ->
  truthy (tool_field d "last_commit_at") = true ->
  match fst (merge_tool repr_other env space_name repos_lookup (PDict dt) st) with
  | Ok (Some record) =>
      reporter_is_empty record = false /\ is_empty_cell record = "Imported"
  | _ => True
  end.
Proof.
  intros Hfind Hstamp.
  pose proof (merge_tool_result repr_other env space_name repos_lookup dt st) as H.
  unfold post in H.
  destruct (fst (merge_tool repr_other env space_name repos_lookup (PDict dt) st))
    as [[record|]|e]; [|exact I|exact I].
  destruct H as (_ & _ & Hflags). destruct (Hflags d Hfind) as [H1 H2].
  rewrite Hstamp in H1, H2.
  assert (Hempty : reporter_is_empty record = false).
  { unfold reporter_is_empty, dget. rewrite H1. simpl. apply andb_false_r. }
  split; [exact Hempty|].
  unfold is_empty_cell.
  replace (exporter_is_empty record) with (reporter_is_empty record) by reflexivity.
  rewrite Hempty. unfold dget. rewrite H2. reflexivity.
Qed.

(** The loop over the tool entries. *)
Lemma merge_tools_result (space_name : string)
    (repos_lookup : list (pyval * pyval)) (tools : list pyval)
    (repositories : list (gmap string pyval)) (st : world * unit) :
  post (merge_tools repr_other env space_name repos_lookup tools repositories) st
    (fun r _ =>
       match r with
       | Raise _ => True
       | Ok records =>
           exists added,
             records = repositories ++ added /\
             Forall2 (record_of_tool space_name) added
                     (List.filter is_repository_tool tools)
       end).
Proof.
  revert repositories st. induction tools as [|tool tools IH]; intros repositories st.
  - apply post_ret. exists []. rewrite app_nil_r. split; [reflexivity | constructor].
  - cbn [merge_tools]. apply post_bind.
    destruct tool as [| | | | | |dt];
      try (unfold merge_tool; apply post_bind, post_lift; exact I).
    eapply post_mono; [apply merge_tool_result|].
    intros [[record|]|e] st1 H1; [| |exact I].
    + destruct H1 as (Hty & Hid & _).
      eapply post_mono; [apply IH|].
      intros [records|e] st2 H2; [|exact I].
      destruct H2 as (added & -> & Hadded).
      exists (record :: added). rewrite <- app_assoc. split; [reflexivity|].
      cbn [List.filter is_repository_tool]. rewrite Hty.
      constructor; [|exact Hadded]. exists dt. auto.
    + eapply post_mono; [apply IH|].
      intros [records|e] st2 H2; [|exact I].
      destruct H2 as (added & -> & Hadded).
      exists added. split; [reflexivity|].
      cbn [List.filter is_repository_tool]. rewrite H1. exact Hadded.
Qed.


(** X6.  When the loop over the tool entries ends normally, it has added
    to the records one record for each entry of a recognized kind, in the
    order of the listing, each with the identity of its entry; the records
    it started with are kept in front. *)
Theorem one_record_per_repository_tool (space_name : string)
    (repos_lookup : list (pyval * pyval)) (tools : list pyval)
    (repositories : list (gmap string pyval)) (st : world * unit) :
  match fst (merge_tools repr_other env space_name repos_lookup tools repositories st)
  with
  | Raise _ => True
  | Ok records =>
      exists added,
        records = repositories ++ added /\
        Forall2 (record_of_tool space_name) added
                (List.filter is_repository_tool tools)
  end.
Proof. apply merge_tools_result. Qed.

End Records2.

Lemma imported_record_is_not_empty_witness :
  match
    fst (merge_tool plain_repr imported_repository "demo"
           [(PInt 7, PDict [("id", PInt 7); ("size", PInt 0);
                            ("last_commit_at", PStr "2024-05-01T10:00:00Z")])]
           (PDict [("id", PInt 7); ("type", PStr "GitTool"); ("menu_name", PStr "legacy")])
           (World [] [], tt))
  with
  | Ok (Some record) =>
      reporter_is_empty record = false /\ is_empty_cell record = "Imported"
  | _ => True
  end.
Proof.
  apply (imported_record_is_not_empty plain_repr imported_repository "demo"
           [(PInt 7, PDict [("id", PInt 7); ("size", PInt 0);
                            ("last_commit_at", PStr "2024-05-01T10:00:00Z")])]
           [("id", PInt 7); ("type", PStr "GitTool"); ("menu_name", PStr "legacy")]
           [("id", PInt 7); ("size", PInt 0);
            ("last_commit_at", PStr "2024-05-01T10:00:00Z")]).
  - reflexivity.
  - reflexivity.
Defined.

(** The run of the witness does produce a record. *)
Example imported_repository_record :
  match
    fst (merge_tool plain_repr imported_repository "demo"
           [(PInt 7, PDict [("id", PInt 7); ("size", PInt 0);
                            ("last_commit_at", PStr "2024-05-01T10:00:00Z")])]
           (PDict [("id", PInt 7); ("type", PStr "GitTool"); ("menu_name", PStr "legacy")])
           (World [] [], tt))
  with
  | Ok (Some record) =>
      record !! "commits_count" = Some (PInt 1) /\
      record !! "last_commit_at" = Some (PStr "2024-05-01T10:00:00Z")
  | _ => False
  end.
Proof. vm_compute. repeat split. Qed.

(** ** The lister and the run over the spaces *)

Lemma post_any {L A} (m : M L A) (st : world * L) (Q : result A -> world * L -> Prop) :
  (forall r st', Q r st') -> post m st Q.
Proof. unfold post. auto. Qed.

Section Run.
Variable repr_other : pyval -> string.
Variable env : list request -> request -> outcome.

Lemma lister_result (api_key api_secret : option string)
    (space_name : string) (st : world * unit) :
  post (fetch_assembla_repositories_for_space repr_other env api_key api_secret
          space_name) st
    (fun r _ => listed env space_name r).
Proof.
  unfold fetch_assembla_repositories_for_space.
  destruct (negb (credentials_ok api_key api_secret)); [wps; exact I|].
  do 2 (apply post_bind, post_print; cbv beta iota).
  apply post_try. apply post_bind, post_print. cbv beta iota.
  assert (Hhandler : forall (e : exn) (st' : world * unit),
            post (match e with
                  | RequestException => print "API request error: {e}" [PStr (exn_name e)]
                  | JSONDecodeError => print "JSON parsing error: {e}" [PStr (exn_name e)]
                  | _ => print "Unexpected error: {e}" [PStr (exn_name e)]
                  end ;;; ret None) st'
              (fun (r : result (option (list (gmap string pyval)))) _ =>
                 listed env space_name r)).
  { intros e st'. destruct e; wps; exact I. }
  apply post_bind, post_requests_get. intros [|r1] _; [exact (Hhandler RequestException _)|].
  cbv beta iota.
  apply post_bind. unfold raise_for_status.
  destruct ((400 <=? status_code r1) && (status_code r1 <? 600));
    [apply post_raise; exact (Hhandler RequestException _) | apply post_ret].
  apply post_bind, post_response_json; [intros repos_data _ | intros _; exact (Hhandler JSONDecodeError _)].
  apply post_bind, post_lift.
  destruct (py_iter repos_data) as [repos|e]; [|exact (Hhandler e _)].
  apply post_bind, post_lift.
  destruct (build_lookup repos []) as [repos_lookup|e]; [|exact (Hhandler e _)].
  apply post_bind, post_print. cbv beta iota.
  apply post_bind, post_requests_get. intros [|r2] Hr2; [exact (Hhandler RequestException _)|].
  cbv beta iota.
  apply post_bind. unfold raise_for_status.
  destruct ((400 <=? status_code r2) && (status_code r2 <? 600));
    [apply post_raise; exact (Hhandler RequestException _) | apply post_ret].
  apply post_bind, post_response_json;
    [intros space_tools Hbody | intros _; exact (Hhandler JSONDecodeError _)].
  apply post_bind, post_lift.
  destruct (py_iter space_tools) as [tools|e] eqn:Htools; [|exact (Hhandler e _)].
  apply post_bind.
  eapply post_mono; [apply merge_tools_result|].
  intros [repositories|e] st1 Hmerge; [|exact (Hhandler e _)].
  destruct Hmerge as (added & -> & Hadded). cbn [app] in *.
  destruct added as [|record records]; [wps; exact I|].
  do 2 (apply post_bind, post_print; cbv beta iota).
  apply post_bind, post_any. intros [[]|e] st2; [|exact (Hhandler e _)].
  apply post_ret. split; [discriminate|].
  exists space_tools, tools. split; [|split; [exact Htools | exact Hadded]].
  eapply received_from_service; [exact Hr2 | exact Hbody].
Qed.

(** X7.  The lister never raises, whatever the service answers: it
    returns [None], or a list that is not empty and holds one record for
    each repository tool of a tool listing that the service sent, in the
    order of that listing, each with the identity of its tool entry. *)
Theorem lister_returns_none_or_records (api_key api_secret : option string)
    (space_name : string) (st : world * unit) :
  match fst (fetch_assembla_repositories_for_space repr_other env api_key api_secret
               space_name st) with
  | Ok None => True
  | Ok (Some records) =>
      records <> [] /\
      exists body tools,
        from_service env body /\ py_iter body = Ok tools /\
        Forall2 (record_of_tool space_name) records
                (List.filter is_repository_tool tools)
  | Raise _ => False
  end.
Proof. apply lister_result. Qed.

(** X8.  Without both credentials the lister returns [None] after its two
    error lines and sends no request. *)
Theorem no_credentials_no_request (api_key api_secret : option string)
    (space_name : string) (w : world) :
  credentials_ok api_key api_secret = false ->
  fetch_assembla_repositories_for_space repr_other env api_key api_secret space_name
    (w, tt)
  = (Ok None,
     (World (requests w)
        (output w ++
         [Message "Error: Missing required environment variables." [];
          Message "Please ensure .env file contains: x-api-key and x-api-secret" []]),
      tt)).
Proof.
  intros H. unfold fetch_assembla_repositories_for_space. rewrite H.
  unfold bind, print, ret. cbn [negb fst snd requests output].
  rewrite <- app_assoc. reflexivity.
Qed.

(** X9.  When the request for the repository details fails, or is
    answered with a status from 400 to 599, the lister reports an API
    request error, returns [None], and does not ask for the tool listing. *)
Theorem failed_details_stop_the_lister (api_key api_secret : option string)
    (space_name : string) (w : world) :
  credentials_ok api_key api_secret = true ->
  match env (requests w) (Request (api +:+ space_name +:+ "/repos.json") None) with
  | Failed => True
  | Received r => 400 <= status_code r < 600
  end ->
  exists w',
    fetch_assembla_repositories_for_space repr_other env api_key api_secret space_name
      (w, tt) = (Ok None, (w', tt)) /\
    requests w' = requests w ++ [Request (api +:+ space_name +:+ "/repos.json") None] /\
    map msg_template (output w') =
      map msg_template (output w) ++
      ["Processing space: {space_name}";
       "============================================================";
       "Fetching repository details from: {repos_url}";
       "API request error: {e}"].
Proof.
  intros Hcred Hfail.
  unfold fetch_assembla_repositories_for_space. rewrite Hcred.
  unfold bind, print, try_except, requests_get, raise_for_status, raise, lift, ret.
  cbn [negb fst snd requests output].
  destruct (env (requests w) (Request (api +:+ space_name +:+ "/repos.json") None))
    as [|r].
  - cbn [fst snd requests output]. eexists. split; [reflexivity|].
    cbn [requests output]. split; [reflexivity|].
    rewrite !map_app, <- !app_assoc. reflexivity.
  - replace ((400 <=? status_code r) && (status_code r <? 600)) with true
      by (symmetry; apply andb_true_iff; split;
          [apply Z.leb_le | apply Z.ltb_lt]; lia).
    cbn [fst snd requests output]. eexists. split; [reflexivity|].
    cbn [requests output]. split; [reflexivity|].
    rewrite !map_app, <- !app_assoc. reflexivity.
Qed.

Lemma record_of_tool_space (space_name : string) (record : gmap string pyval)
    (tool : pyval) :
  record_of_tool space_name record tool ->
  record !! "space_name" = Some (PStr space_name).
Proof.
  intros (dt & _ & H). rewrite (H "space_name"); [reflexivity|].
  unfold identity_keys. set_solver.
Qed.

Lemma fetch_spaces_result (api_key api_secret : option string)
    (spaces : list string) (all_repositories : list (gmap string pyval))
    (st : world * unit) :
  exists added,
    fst (fetch_spaces repr_other env api_key api_secret spaces all_repositories st)
    = Ok (all_repositories ++ added) /\
    Forall (belongs_to spaces) added.
Proof.
  revert all_repositories st.
  induction spaces as [|space_name rest IH]; intros all_repositories st.
  - exists []. rewrite app_nil_r. split; [reflexivity | constructor].
  - assert (Hrest : forall added,
              Forall (belongs_to rest) added ->
              Forall (belongs_to (space_name :: rest)) added).
    { intros added H. eapply Forall_impl; [exact H|]. intros record (s & Hs & Hrec).
      exists s. split; [right; exact Hs | exact Hrec]. }
    cbn [fetch_spaces]. unfold bind at 1, print at 1. cbn [fst snd].
    set (st1 := (World _ _, _)). unfold bind at 1.
    pose proof (lister_result api_key api_secret space_name st1) as Hl.
    unfold post, listed in Hl.
    destruct (fetch_assembla_repositories_for_space repr_other env api_key api_secret
                space_name st1) as [[[records|]|e] st2]; cbn [fst] in Hl.
    + destruct Hl as (Hne & body & tools & _ & _ & Hrecords).
      destruct records as [|r rs]; [contradiction|].
      unfold bind at 1, print at 1. cbn [fst snd].
      destruct (IH (all_repositories ++ r :: rs)
                   (World (requests (fst st2))
                      (output (fst st2) ++
                       [Message "Found {len(repositories)} repositories in {space_name}"
                          [PInt (Z.of_nat (length (r :: rs))); PStr space_name]]),
                    snd st2)) as (added & Hadded & Hbelong).
      exists ((r :: rs) ++ added). rewrite Hadded, <- app_assoc.
      split; [reflexivity|]. apply Forall_app. split; [|auto].
      apply Forall_forall. intros record Hin.
      destruct (proj1 (list_elem_of_lookup _ _) Hin) as [i Hi].
      destruct (Forall2_lookup_l _ _ _ _ _ Hrecords Hi) as (tool & _ & Htool).
      exists space_name. split; [left|]. eapply record_of_tool_space, Htool.
    + unfold bind at 1, print at 1. cbn [fst snd].
      destruct (IH all_repositories
                   (World (requests (fst st2))
                      (output (fst st2) ++
                       [Message "No repositories found or error occurred for space: {space_name}"
                          [PStr space_name]]),
                    snd st2)) as (added & Hadded & Hbelong).
      exists added. split; [exact Hadded | auto].
    + contradiction.
Qed.

(** One space: the result is the records so far, followed by what the
    lister returned for the space. *)
Lemma fetch_one_space (api_key api_secret : option string) (space_name : string)
    (all_repositories : list (gmap string pyval)) (st : world * unit) :
  exists found st2,
    fetch_assembla_repositories_for_space repr_other env api_key api_secret space_name
      (World (requests (fst st))
         (output (fst st) ++
          [Message "Fetching repositories for space: {space_name}" [PStr space_name]]),
       snd st)
    = (Ok found, st2) /\
    fst (fetch_spaces repr_other env api_key api_secret [space_name]
           all_repositories st)
    = Ok (all_repositories ++ records_of found).
Proof.
  cbn [fetch_spaces]. unfold bind at 1, print at 1. cbn [fst snd].
  set (st1 := (World _ _, _)). unfold bind at 1.
  pose proof (lister_result api_key api_secret space_name st1) as Hl.
  unfold post, listed in Hl.
  destruct (fetch_assembla_repositories_for_space repr_other env api_key api_secret
              space_name st1) as [[[records|]|e] st2]; cbn [fst] in Hl;
    [| |contradiction].
  - exists (Some records), st2. split; [reflexivity|].
    destruct records as [|r rs]; [destruct Hl as [Hl _]; contradiction|].
    reflexivity.
  - exists None, st2. split; [reflexivity|]. cbn [records_of].
    rewrite app_nil_r. reflexivity.
Qed.

(** A list of spaces is processed as its parts, one after the other. *)
Lemma fetch_spaces_app (api_key api_secret : option string)
    (xs ys : list string) (all_repositories : list (gmap string pyval))
    (st : world * unit) :
  fetch_spaces repr_other env api_key api_secret (xs ++ ys) all_repositories st
  = match fetch_spaces repr_other env api_key api_secret xs all_repositories st with
    | (Ok gathered_so_far, st') =>
        fetch_spaces repr_other env api_key api_secret ys gathered_so_far st'
    | (Raise e, st') => (Raise e, st')
    end.
Proof.
  revert all_repositories st.
  induction xs as [|x xs IH]; intros all_repositories st; [reflexivity|].
  cbn [fetch_spaces app]. unfold bind, print. cbv beta iota. cbn [fst snd].
  destruct (fetch_assembla_repositories_for_space repr_other env api_key api_secret
              x _) as [[[[|r rs]|]|e] st2]; cbv beta iota; cbn [fst snd];
    [| | |reflexivity]; apply IH.
Qed.

(** X10.  The run over the spaces never raises and never loses a record.
    For one space, its result is the records gathered so far followed by
    exactly what the lister returned for that space, nothing for [None];
    a list of spaces is processed as its parts one after the other, the
    second part starting from the records and the world that the first
    left; so the result is the records it started with followed by those
    of the spaces, and each record it adds carries the name of one of the
    spaces. *)
Theorem spaces_only_add_records (api_key api_secret : option string) :
  (forall space_name all_repositories st,
     exists found st2,
       fetch_assembla_repositories_for_space repr_other env api_key api_secret
         space_name
         (World (requests (fst st))
            (output (fst st) ++
             [Message "Fetching repositories for space: {space_name}"
                [PStr space_name]]),
          snd st)
       = (Ok found, st2) /\
       fst (fetch_spaces repr_other env api_key api_secret [space_name]
              all_repositories st)
       = Ok (all_repositories ++ records_of found)) /\
  (forall xs ys all_repositories st,
     fetch_spaces repr_other env api_key api_secret (xs ++ ys) all_repositories st
     = match fetch_spaces repr_other env api_key api_secret xs all_repositories st with
       | (Ok gathered_so_far, st') =>
           fetch_spaces repr_other env api_key api_secret ys gathered_so_far st'
       | (Raise e, st') => (Raise e, st')
       end) /\
  (forall spaces all_repositories st,
     exists added,
       fst (fetch_spaces repr_other env api_key api_secret spaces all_repositories st)
       = Ok (all_repositories ++ added) /\
       Forall (belongs_to spaces) added).
Proof.
  split; [|split].
  - intros. apply fetch_one_space.
  - intros. apply fetch_spaces_app.
  - intros. apply fetch_spaces_result.
Qed.

End Run.

Lemma no_credentials_no_request_witness :
  fetch_assembla_repositories_for_space plain_repr server_error None (Some "secret")
    "demo" (World [] [], tt)
  = (Ok None,
     (World (requests (World [] []))
        (output (World [] []) ++
         [Message "Error: Missing required environment variables." [];
          Message "Please ensure .env file contains: x-api-key and x-api-secret" []]),
      tt)).
Proof.
  apply (no_credentials_no_request plain_repr server_error None (Some "secret") "demo"
           (World [] [])).
  reflexivity.
Defined.

Lemma failed_details_stop_the_lister_witness :
  exists w',
    fetch_assembla_repositories_for_space plain_repr server_error (Some "key")
      (Some "secret") "demo" (World [] [], tt) = (Ok None, (w', tt)) /\
    requests w' = requests (World [] []) ++ [Request (api +:+ "demo" +:+ "/repos.json") None] /\
    map msg_template (output w') =
      map msg_template (output (World [] [])) ++
      ["Processing space: {space_name}";
       "============================================================";
       "Fetching repository details from: {repos_url}";
       "API request error: {e}"].
Proof.
  apply (failed_details_stop_the_lister plain_repr server_error (Some "key")
           (Some "secret") "demo" (World [] [])).
  - reflexivity.
  - simpl. lia.
Defined.

(** ** The exported table *)

Lemma lookup_map {A B} (f : A -> B) (l : list A) (i : nat) :
  map f l !! i = f <$> (l !! i).
Proof.
  revert i. induction l as [|x l IH]; intros [|i]; simpl; auto.
Qed.

Lemma Forall_map_row (repositories : list (gmap string pyval)) :
  Forall (fun row => length row = 20%nat) (map csv_row repositories).
Proof. induction repositories; constructor; auto. Qed.

(** The rows that the writer takes when nothing fails. *)
Lemma writerows_writes {X} (f : X -> list pyval) (xs : list X) (w : world)
    (rows : list (list pyval)) :
  for_each (fun x => writerow Writes (f x)) xs (w, Some rows)
  = (Ok tt, (w, Some (rows ++ map f xs))).
Proof.
  revert rows. induction xs as [|x xs IH]; intros rows.
  - cbn. rewrite app_nil_r. reflexivity.
  - cbn [for_each map]. unfold bind at 1, writerow, bind, read, assign, ret.
    cbn [fst snd id]. rewrite IH, <- app_assoc. reflexivity.
Qed.

(** The rows that the writer takes when it fails at row [k]. *)
Lemma writerows_fails {X} (f : X -> list pyval) (k : nat) (xs : list X) (w : world)
    (rows : list (list pyval)) :
  (length rows <= k)%nat ->
  for_each (fun x => writerow (WriteFails k) (f x)) xs (w, Some rows)
  = if (length rows + length xs <=? k)%nat
    then (Ok tt, (w, Some (rows ++ map f xs)))
    else (Raise OSError, (w, Some (take k (rows ++ map f xs)))).
Proof.
  revert rows. induction xs as [|x xs IH]; intros rows Hk.
  - cbn [for_each map length]. rewrite Nat.add_0_r.
    destruct (Nat.leb_spec (length rows) k); [|lia].
    rewrite app_nil_r. reflexivity.
  - cbn [for_each map length]. unfold bind at 1, writerow, bind, read, assign, ret, raise, lift.
    cbn [fst snd id].
    destruct (Nat.eqb_spec (length rows) k) as [Heq | Hne].
    + destruct (Nat.leb_spec (length rows + S (length xs)) k); [lia|].
      rewrite take_app_le by lia. rewrite take_ge by lia. reflexivity.
    + rewrite IH by (rewrite length_app; cbn [length]; lia).
      rewrite length_app. cbn [length].
      replace (length rows + 1 + length xs)%nat
        with (length rows + S (length xs))%nat by lia.
      rewrite <- app_assoc. reflexivity.
Qed.

Lemma report_rows_shape (repositories : list (gmap string pyval)) :
  length (report_rows repositories) = S (length repositories) /\
  report_rows repositories !! 0%nat = Some (map PStr csv_headers) /\
  (forall i repo, repositories !! i = Some repo ->
                  report_rows repositories !! S i = Some (csv_row repo)) /\
  Forall (fun row => length row = 20%nat) (report_rows repositories).
Proof.
  unfold report_rows. split; [cbn [length]; by rewrite length_map|].
  split; [reflexivity|]. split.
  - intros i r Hi.
    change (map csv_row repositories !! i = Some (csv_row r)).
    rewrite lookup_map, Hi. reflexivity.
  - constructor; [reflexivity | apply Forall_map_row].
Qed.

(** What a call of the exporter does. *)
Lemma save_result (d : disk) (repositories : list (gmap string pyval)) (w : world) :
  save_repositories_to_csv d repositories (w, None)
  = match repositories with
    | [] => (Ok None, (w, None))
    | _ =>
        (Ok (written d (report_rows repositories)),
         (World (requests w) (output w ++ [closing_line d repositories]),
          written d (report_rows repositories)))
    end.
Proof.
  destruct repositories as [|repo rest]; [reflexivity|].
  apply run_of_post.
  unfold save_repositories_to_csv, closing_line, written, complete, report_rows.
  cbv iota.
  destruct d as [|k|].
  - wps. reflexivity.
  - apply post_bind, post_try, post_bind, post_assign. cbv beta iota. cbn [fst snd].
    apply post_bind. unfold writerow at 1.
    apply post_bind, post_read. cbv beta iota. cbn [fst snd id length].
    destruct k as [|k]; cbn [Nat.eqb].
    + wps. reflexivity.
    + apply post_bind, post_assign. cbv beta iota. cbn [fst snd app].
      apply post_ret. cbv beta iota. apply post_bind.
      eapply post_run; [apply writerows_fails; cbn [length]; lia|].
      cbn [length Nat.add].
      destruct (S (S (length rest)) <=? S k)%nat eqn:E; cbn [fst snd].
      * apply Nat.leb_le in E. wps.
        rewrite take_ge; [reflexivity|].
        cbn [length app map]. rewrite length_map. lia.
      * wps. reflexivity.
  - apply post_bind, post_try, post_bind, post_assign. cbv beta iota. cbn [fst snd].
    apply post_bind. unfold writerow at 1.
    apply post_bind, post_read. cbv beta iota. cbn [fst snd id].
    apply post_bind, post_assign. cbv beta iota. cbn [fst snd app].
    apply post_ret. cbv beta iota. apply post_bind.
    eapply post_run; [apply writerows_writes|]. cbn [fst snd]. wps. reflexivity.
Qed.

(** X11.  The exporter never raises.  For an empty list of records it
    returns at once: no file, and nothing printed.  Otherwise the rows
    handed to the writer are the header row and one row for each record,
    in the order of the records, each of 20 columns; the file holds all of
    them and the success line is printed when the file system takes every
    row; when [open] fails there is no file, when the writer fails after
    [k] rows the file holds the first [k] of them, and in both cases the
    error line is printed. *)
Theorem export_has_a_row_per_record (d : disk)
    (repositories : list (gmap string pyval)) (w : world) :
  save_repositories_to_csv d repositories (w, None)
  = match repositories with
    | [] => (Ok None, (w, None))
    | _ =>
        (Ok (written d (report_rows repositories)),
         (World (requests w) (output w ++ [closing_line d repositories]),
          written d (report_rows repositories)))
    end /\
  length (report_rows repositories) = S (length repositories) /\
  report_rows repositories !! 0%nat = Some (map PStr csv_headers) /\
  (forall i repo, repositories !! i = Some repo ->
                  report_rows repositories !! S i = Some (csv_row repo)) /\
  Forall (fun row => length row = 20%nat) (report_rows repositories).
Proof.
  split; [apply save_result | apply report_rows_shape].
Qed.

(** A disk that fails at the third row leaves the header and the first
    record. *)
Example report_cut_short :
  fst (save_repositories_to_csv (WriteFails 2)
         [{["id" := PInt 1]}; {["id" := PInt 2]}; {["id" := PInt 3]}]
         (World [] [], None))
  = Ok (Some [map PStr csv_headers; csv_row {["id" := PInt 1]}]).
Proof. vm_compute. reflexivity. Qed.

(** ** The size shown by the reporter *)

Lemma size_in_mb_positive (n : Z) (mb : pyval) :
  0 <= n < 2 ^ 53 -> size_in_mb (PInt n) = Ok mb ->
  py_gt mb (PInt 0) = Some (5243 <=? n).
Proof.
  intros [Hn Hlt] Hmb. rewrite size_in_mb_of_int in Hmb by exact Hlt.
  injection Hmb as <-.
  destruct (0 <? n) eqn:E.
  - apply Z.ltb_lt in E. unfold spec_size_mb. cbn [py_gt hundredths].
    pose proof (round_half_even_div_nearest (100 * n) 1048576 ltac:(lia)) as [Hr _].
    set (q := round_half_even_div (100 * n) 1048576) in *. f_equal.
    destruct (5243 <=? n) eqn:E5.
    + apply Z.leb_le in E5. apply Z.ltb_lt. lia.
    + apply Z.leb_gt in E5. apply Z.ltb_ge. lia.
  - apply Z.ltb_ge in E. rewrite py_gt_int. f_equal.
    symmetry. apply Z.leb_gt. lia.
Qed.

Ltac line_in :=
  cbn [app]; repeat first [apply list_elem_of_here | apply list_elem_of_further].

Lemma no_line_with_template (t : string) (lines : list message) :
  t ∉ map msg_template lines -> forall args, Message t args ∉ lines.
Proof.
  intros Hno args Hin. apply Hno.
  change t with (msg_template (Message t args)).
  apply (list_elem_of_fmap_2 msg_template). exact Hin.
Qed.

Lemma report_last_commit_lines (repo : gmap string pyval) (st : world * unit) :
  post (report_last_commit repo) st (fun _ st' =>
    exists more,
      output (fst st') = output (fst st) ++ more /\ Forall last_commit_line more).
Proof.
  unfold report_last_commit.
  wps; (eexists; split; [rewrite <- ?app_assoc; try reflexivity;
                         symmetry; apply app_nil_r|]);
    repeat (apply List.Forall_cons; [first [left; reflexivity | right; reflexivity]|]);
    constructor.
Qed.

Lemma no_size_line (u : string) (more : list message) :
  u <> "  Last Author: {repo.get('last_commit_author', 'N/A')}" ->
  u <> "  Last Message: {message}" ->
  Forall last_commit_line more ->
  forall args, Message u args ∉ more.
Proof.
  intros Hu1 Hu2 Hmore args H.
  rewrite Forall_forall in Hmore. destruct (Hmore _ H) as [E | E]; cbn in E; auto.
Qed.

(** X12.  The reporter shows the size of a record in megabytes exactly
    from 5243 bytes on.  For a record whose [size] is [n] bytes, below
    [2^53], and whose [size_mb] is what line 113 computes from [n], the
    reporter prints the megabytes line, and no bytes line, when [n] is at
    least 5243, and the bytes line, and no megabytes line, when it is
    less. *)
Theorem megabytes_from_5243_bytes (i n : Z) (record : gmap string pyval)
    (mb : pyval) (w : world) :
  0 <= n < 2 ^ 53 ->
  record !! "size" = Some (PInt n) ->
  size_in_mb (PInt n) = Ok mb ->
  record !! "size_mb" = Some mb ->
  exists lines,
    output (fst (snd (report_repository (i, record) (w, tt)))) = output w ++ lines /\
    if 5243 <=? n then
      Message "  Size: {repo.get('size_mb', 0)} MB" [mb] ∈ lines /\
      forall args, Message "  Size: {repo.get('size', 0)} bytes" args ∉ lines
    else
      Message "  Size: {repo.get('size', 0)} bytes" [PInt n] ∈ lines /\
      forall args, Message "  Size: {repo.get('size_mb', 0)} MB" args ∉ lines.
Proof.
  intros Hn Hsize Hmb Hrec.
  pose proof (size_in_mb_positive n mb Hn Hmb) as Hgt.
  change (post (report_repository (i, record)) (w, tt) (fun _ st' =>
            exists lines,
              output (fst st') = output w ++ lines /\
              if 5243 <=? n then
                Message "  Size: {repo.get('size_mb', 0)} MB" [mb] ∈ lines /\
                forall args, Message "  Size: {repo.get('size', 0)} bytes" args ∉ lines
              else
                Message "  Size: {repo.get('size', 0)} bytes" [PInt n] ∈ lines /\
                forall args,
                  Message "  Size: {repo.get('size_mb', 0)} MB" args ∉ lines)).
  unfold report_repository.
  assert (Hd1 : dget record "size_mb" (PInt 0) = mb) by (unfold dget; by rewrite Hrec).
  assert (Hd2 : dget record "size" (PInt 0) = PInt n) by (unfold dget; by rewrite Hsize).
  rewrite !Hd1, !Hd2, Hgt.
  destruct (5243 <=? n).
  all: wps.
  all: (eapply post_mono; [apply report_last_commit_lines|]);
    intros r st' (more & Hout & Hmore); cbn [fst output] in Hout;
    destruct r; wps.
  all: eexists; (split; [rewrite Hout, <- ?app_assoc; reflexivity|]).
  all: cbn [app]; split.
  all: try (repeat first [apply list_elem_of_here | apply list_elem_of_further]; fail).
  all: intros args.
  all: repeat (apply not_elem_of_cons; split; [discriminate|]).
  all: apply no_size_line; [discriminate | discriminate | exact Hmore].
Qed.

Lemma megabytes_from_5243_bytes_witness :
  exists lines,
    output (fst (snd (report_repository
                        (1, {["size" := PInt 5243; "size_mb" := PFloat2 1]})
                        (World [] [], tt))))
    = output (World [] []) ++ lines /\
    if 5243 <=? 5243 then
      Message "  Size: {repo.get('size_mb', 0)} MB" [PFloat2 1] ∈ lines /\
      forall args, Message "  Size: {repo.get('size', 0)} bytes" args ∉ lines
    else
      Message "  Size: {repo.get('size', 0)} bytes" [PInt 5243] ∈ lines /\
      forall args, Message "  Size: {repo.get('size_mb', 0)} MB" args ∉ lines.
Proof.
  apply (megabytes_from_5243_bytes 1 5243
           {["size" := PInt 5243; "size_mb" := PFloat2 1]} (PFloat2 1) (World [] [])).
  - split; [lia | reflexivity].
  - reflexivity.
  - vm_compute. reflexivity.
  - reflexivity.
Defined.

(** ** The latest commit *)

Section Latest.
Variable repr_other : pyval -> string.
Variable env : list request -> request -> outcome.

(** X13.  After the fetches, whatever the service answered: when branches
    are known, the latest commit, if there is one, is one of the kept
    commits and the recorded timestamp is its own, not empty; when no
    branch is known, it is the first item of the commit listing taken. *)
Theorem latest_commit_is_a_listed_commit (space_id : string)
    (repo_id repo_data : pyval) (w : world) :
  post (gather repr_other env space_id repo_id repo_data) (w, initial_locals)
    (fun _ st' =>
       latest_commit (snd st') = PNone \/
       if truthy (branches_list (snd st')) then
         exists kept,
           all_commits (snd st') = PList kept /\
           latest_commit (snd st') ∈ kept /\
           commit_date_of (latest_commit (snd st'))
             = Ok (latest_commit_date (snd st')) /\
           truthy (latest_commit_date (snd st')) = true
       else
         truthy (all_commits (snd st')) = true /\
         py_first (all_commits (snd st')) = Ok (latest_commit (snd st'))).
Proof.
  eapply post_mono; [apply gather_post|].
  intros r st' Hg. unfold gathered in Hg.
  destruct (truthy (branches_list (snd st'))).
  - destruct Hg as (kept & Hall & _ & _ & [Hnone | Hlatest]); [left; exact Hnone|].
    right. exists kept. tauto.
  - destruct Hg as [_ [Hnone | Hfirst]]; [left; exact Hnone | right; exact Hfirst].
Qed.

End Latest.

(** ** The greatest timestamp *)

Lemma ascii_compare_refl (a : Ascii.ascii) : Ascii.compare a a = Eq.
Proof. unfold Ascii.compare. apply N.compare_refl. Qed.

Lemma ascii_compare_lt_trans (a b c : Ascii.ascii) :
  Ascii.compare a b = Lt -> Ascii.compare b c = Lt -> Ascii.compare a c = Lt.
Proof.
  unfold Ascii.compare. rewrite !N.compare_lt_iff. apply N.lt_trans.
Qed.

Lemma string_compare_refl (s : string) : String.compare s s = Eq.
Proof.
  induction s as [|a s IH]; [reflexivity|]. simpl.
  rewrite ascii_compare_refl. exact IH.
Qed.

Lemma string_compare_lt_trans (s1 s2 s3 : string) :
  String.compare s1 s2 = Lt -> String.compare s2 s3 = Lt ->
  String.compare s1 s3 = Lt.
Proof.
  revert s2 s3. induction s1 as [|a s1 IH]; intros [|b s2] [|c s3]; simpl;
    try discriminate; try reflexivity.
  destruct (Ascii.compare a b) eqn:Eab; try discriminate;
    destruct (Ascii.compare b c) eqn:Ebc; try discriminate; intros H12 H23.
  - apply Ascii.compare_eq_iff in Eab, Ebc. subst.
    rewrite ascii_compare_refl. eauto.
  - apply Ascii.compare_eq_iff in Eab. subst. rewrite Ebc. reflexivity.
  - apply Ascii.compare_eq_iff in Ebc. subst. rewrite Eab. reflexivity.
  - rewrite (ascii_compare_lt_trans a b c Eab Ebc). reflexivity.
Qed.

Lemma string_ltb_irrefl (s : string) : String.ltb s s = false.
Proof. unfold String.ltb. rewrite string_compare_refl. reflexivity. Qed.

Lemma string_ltb_trans (s1 s2 s3 : string) :
  String.ltb s1 s2 = true -> String.ltb s2 s3 = true -> String.ltb s1 s3 = true.
Proof.
  unfold String.ltb. intros H12 H23.
  destruct (String.compare s1 s2) eqn:E12; try discriminate.
  destruct (String.compare s2 s3) eqn:E23; try discriminate.
  rewrite (string_compare_lt_trans s1 s2 s3 E12 E23). reflexivity.
Qed.

Lemma string_ltb_empty (t : string) : String.ltb "" t = false -> t = "".
Proof. destruct t; [reflexivity | discriminate]. Qed.

Lemma string_not_ltb_leb (s t : string) :
  String.ltb s t = false -> String.leb t s = true.
Proof.
  unfold String.ltb, String.leb. rewrite (String.compare_antisym s t).
  destruct (String.compare t s); simpl; congruence.
Qed.

Lemma commit_key_dict (repr_other : pyval -> string) (c k : pyval) :
  commit_key repr_other c = Ok k -> exists d, c = PDict d.
Proof. destruct c; try discriminate. eauto. Qed.

Lemma string_ltb_nil_r (t : string) : String.ltb t "" = false.
Proof. destruct t; reflexivity. Qed.

Lemma truthy_str_false (t : string) : truthy (PStr t) = false -> t = "".
Proof. destruct t; [reflexivity | discriminate]. Qed.

Lemma is_later_strings (t t' : string) (b : bool) :
  is_later (PStr t) (PStr t') = Ok b ->
  if b then t' = "" \/ String.ltb t' t = true
  else t = "" \/ String.ltb t' t = false.
Proof.
  unfold is_later. destruct (truthy (PStr t)) eqn:Et.
  - destruct (truthy (PStr t')) eqn:Et'; simpl.
    + intros [= <-]. destruct (String.ltb t' t); auto.
    + intros [= <-]. left. apply truthy_str_false, Et'.
  - intros [= <-]. left. apply truthy_str_false, Et.
Qed.

Lemma fresh_maximal (l : locals) :
  all_commits l = PList [] -> latest_commit_date l = PNone ->
  latest_is_maximal l.
Proof.
  intros Hall Hnone. exists []. split; [exact Hall|]. left.
  split; [exact Hnone|]. intros c t Hin. inversion Hin.
Qed.

Section Greatest.
Variable repr_other : pyval -> string.
Variable env : list request -> request -> outcome.
Hypothesis dated : string_dated env.

Lemma add_commit_maximal (commit : pyval) :
  served env commit ->
  keeps latest_is_maximal (add_commit repr_other commit).
Proof.
  intros Hserved [w [s b a lc lcd]] (kept & Hkept & Hmax).
  simpl in Hkept, Hmax. subst a.
  unfold add_commit.
  wps; cbn [all_commits latest_commit latest_commit_date] in *; simplify_eq/=.
  all: try (eexists; cbn; split; [reflexivity|]; exact Hmax).
  - destruct (dated _ _ Hserved Heqr2) as [t ->].
    exists (a0 ++ [commit]). split; [reflexivity|]. right. exists t. cbn.
    split; [reflexivity|]. split; [set_solver|]. split; [exact Heqr2|].
    intros c t0 Hin Hd.
    apply elem_of_app in Hin as [Hin | Hin].
    + destruct Hmax as [[-> Hold] | (t' & -> & _ & _ & Hold)].
      * rewrite (Hold c t0 Hin Hd). apply string_ltb_nil_r.
      * specialize (Hold c t0 Hin Hd).
        apply is_later_strings in Heqr3 as [-> | Hlt].
        -- apply string_ltb_empty in Hold. subst. apply string_ltb_nil_r.
        -- destruct (String.ltb t t0) eqn:E; [|reflexivity].
           rewrite (string_ltb_trans t' t t0 Hlt E) in Hold. discriminate.
    + apply list_elem_of_singleton in Hin as ->.
      rewrite Heqr2 in Hd. injection Hd as ->. apply string_ltb_irrefl.
  - destruct (dated _ _ Hserved Heqr2) as [t ->].
    exists (a0 ++ [commit]). split; [reflexivity|].
    destruct Hmax as [[-> Hold] | (t' & -> & Hin' & Hd' & Hold)].
    + left. split; [reflexivity|]. intros c t0 Hin Hd.
      apply elem_of_app in Hin as [Hin | Hin]; [eauto|].
      apply list_elem_of_singleton in Hin as ->.
      rewrite Heqr2 in Hd. injection Hd as <-.
      unfold is_later in Heqr3. simpl in Heqr3.
      destruct t; [reflexivity | discriminate].
    + right. exists t'. cbn. split; [reflexivity|].
      split; [set_solver|]. split; [exact Hd'|]. intros c t0 Hin Hd.
      apply elem_of_app in Hin as [Hin | Hin]; [eauto|].
      apply list_elem_of_singleton in Hin as ->.
      rewrite Heqr2 in Hd. injection Hd as <-.
      apply is_later_strings in Heqr3 as [-> | Hlt];
        [apply string_ltb_nil_r | exact Hlt].
  - destruct (dated _ _ Hserved Heqr2) as [t ->].
    exfalso. unfold is_later in Heqr3.
    destruct Hmax as [[-> _] | (t' & -> & _)]; simpl in Heqr3;
      repeat match type of Heqr3 with
             | context [if ?c then _ else _] => destruct c
             end; discriminate.
  - exfalso. destruct (commit_key_dict _ _ _ Heqr) as [d ->]. discriminate.
Qed.

Lemma fetch_branch_commits_maximal (space_id : string) (repo_data branch : pyval) :
  keeps latest_is_maximal
        (fetch_branch_commits repr_other env space_id repo_data branch).
Proof.
  intros st Hst. unfold fetch_branch_commits. wps; auto.
  wp_loop latest_is_maximal.
  - eapply post_mono; [apply add_commit_maximal; eauto using received_served|].
    intros [c|e] st' Hp; [exact Hp|]. wps. exact Hp.
  - wps. exact Hinv.
Qed.

Lemma collect_commits_maximal (space_id : string) (repo_id repo_data : pyval)
    (st : world * locals) :
  all_commits (snd st) = PList [] -> latest_commit_date (snd st) = PNone ->
  post (collect_commits repr_other env space_id repo_id repo_data) st
    (fun _ st' => truthy (branches_list (snd st')) = true ->
                  latest_is_maximal (snd st')).
Proof.
  intros Hall Hnone. unfold collect_commits. wps; auto using fresh_maximal.
  - eapply post_mono.
    + apply (keeps_for_each latest_is_maximal).
      * intros x _. apply fetch_branch_commits_maximal.
      * apply fresh_maximal; assumption.
    + intros r st' Hmax _. exact Hmax.
  - eapply post_mono.
    + apply (fetch_commits_without_branch_frame repr_other env
               (fun l => truthy (branches_list l) = false)); auto.
    + intros r st' Hf Ht. simpl in Hf. congruence.
Qed.

(** X14.  When every timestamp that the service sends is a string and
    branches are known, the latest commit has the greatest timestamp of
    the kept commits, in the order of strings: if some kept commit has a
    timestamp that is not empty, the latest commit is a kept commit, and
    its timestamp is below that of no kept commit. *)
Theorem latest_commit_has_the_greatest_timestamp (space_id : string)
    (repo_id repo_data : pyval) (w : world) :
  post (gather repr_other env space_id repo_id repo_data) (w, initial_locals)
    (fun _ st' =>
       truthy (branches_list (snd st')) = true ->
       exists kept,
         all_commits (snd st') = PList kept /\
         forall c t,
           c ∈ kept -> commit_date_of c = Ok (PStr t) -> t <> "" ->
           exists t',
             latest_commit (snd st') ∈ kept /\
             commit_date_of (latest_commit (snd st')) = Ok (PStr t') /\
             String.leb t t' = true).
Proof.
  set (I := fun l : locals =>
              all_commits l = PList [] /\ latest_commit_date l = PNone).
  set (Q := fun l : locals =>
              exists kept,
                all_commits l = PList kept /\
                forall c t,
                  c ∈ kept -> commit_date_of c = Ok (PStr t) -> t <> "" ->
                  exists t',
                    latest_commit l ∈ kept /\
                    commit_date_of (latest_commit l) = Ok (PStr t') /\
                    String.leb t t' = true).
  assert (HQ : forall l, latest_is_maximal l -> Q l).
  { intros l (kept & Hall & Hmax). exists kept. split; [exact Hall|].
    intros c t Hin Hd Hne.
    destruct Hmax as [[_ Hold] | (t' & _ & Hin' & Hd' & Hold)].
    - destruct Hne. eauto.
    - exists t'. repeat split; auto. apply string_not_ltb_leb. eauto. }
  assert (HI : forall l, I l -> Q l).
  { intros l [H1 H2]. apply HQ, fresh_maximal; assumption. }
  unfold gather. apply post_bind.
  eapply post_mono;
    [apply (fetch_branches_keeps repr_other env I); [auto | auto | split; reflexivity]|].
  intros [[]|e] st1 H1; [|intros _; apply HI, H1].
  apply post_bind.
  eapply post_mono; [apply (fetch_tags_keeps env I); [auto | exact H1]|].
  intros [[]|e] st2 H2; [|intros _; apply HI, H2].
  destruct H2 as [H2 H3].
  eapply post_mono; [apply collect_commits_maximal; assumption|].
  intros r st' Hp Ht. apply HQ, Hp, Ht.
Qed.

End Greatest.

Lemma serve_string_dated (table : list (string * response)) :
  Forall (fun entry =>
            match json_body (snd entry) with
            | Some body => dated_body body = true
            | None => True
            end) table ->
  string_dated (serve table).
Proof.
  intros Htable c v (log & rq & r & body & items & Hr & Hb & Hitems & Hin) Hd.
  unfold serve in Hr.
  destruct (list_find _ table) as [[i [u r']]|] eqn:Hfind.
  - injection Hr as ->. apply list_find_Some in Hfind as (Hi & _ & _).
    rewrite Forall_forall in Htable.
    specialize (Htable (u, r) ltac:(eapply list_elem_of_lookup_2; eauto)).
    simpl in Htable. rewrite Hb in Htable. unfold dated_body in Htable.
    rewrite Hitems in Htable.
    rewrite forallb_forall in Htable.
    specialize (Htable c ltac:(apply list_elem_of_In; exact Hin)).
    unfold dated_entry in Htable. rewrite Hd in Htable.
    destruct v; try discriminate. eauto.
  - injection Hr as <-. discriminate.
Qed.

Lemma latest_commit_has_the_greatest_timestamp_witness :
  post (gather plain_repr dated_commits "demo" (PInt 7) PNone)
    (World [] [], initial_locals)
    (fun _ st' =>
       truthy (branches_list (snd st')) = true ->
       exists kept,
         all_commits (snd st') = PList kept /\
         forall c t,
           c ∈ kept -> commit_date_of c = Ok (PStr t) -> t <> "" ->
           exists t',
             latest_commit (snd st') ∈ kept /\
             commit_date_of (latest_commit (snd st')) = Ok (PStr t') /\
             String.leb t t' = true).
Proof.
  apply (latest_commit_has_the_greatest_timestamp plain_repr dated_commits).
  apply serve_string_dated. repeat constructor.
Defined.

(** On that service the commit dated by its [date] field is the latest,
    although it is listed second. *)
Example dated_commits_latest :
  exists u st',
    gather plain_repr dated_commits "demo" (PInt 7) PNone
      (World [] [], initial_locals) = (Ok u, st') /\
    latest_commit (snd st')
      = PDict [("id", PStr "b2"); ("date", PStr "2024-03-01")] /\
    latest_commit_date (snd st') = PStr "2024-03-01".
Proof. apply run_ok. vm_compute. repeat split. Qed.

(** ** The space list *)

Lemma py_lstrip_head (s : string) (c : Ascii.ascii) (rest : string) :
  py_lstrip s = String c rest -> py_isspace c = false.
Proof.
  induction s as [|a s IH]; simpl; [discriminate|].
  destruct (py_isspace a) eqn:Ea; [exact IH|]. intros [= <- <-]. exact Ea.
Qed.

Lemma py_rstrip_head (s : string) (c : Ascii.ascii) (rest : string) :
  py_rstrip s = String c rest -> exists rest', s = String c rest'.
Proof.
  destruct s as [|a s]; simpl; [discriminate|].
  destruct (py_isspace a && String.eqb (py_rstrip s) ""); [discriminate|].
  intros [= <- <-]. eauto.
Qed.

Lemma py_rstrip_last (s front : string) (c : Ascii.ascii) :
  py_rstrip s = front +:+ String c "" -> py_isspace c = false.
Proof.
  revert front. induction s as [|a s IH]; intros front; simpl.
  - destruct front; discriminate.
  - destruct (py_isspace a) eqn:Ea; simpl.
    + destruct (String.eqb (py_rstrip s) "") eqn:Er.
      * destruct front; discriminate.
      * destruct front as [|b front]; simpl.
        -- intros [= <- Hr]. rewrite Hr in Er. discriminate.
        -- intros [= <- Hr]. eauto.
    + destruct front as [|b front]; simpl.
      * intros [= <- Hr]. exact Ea.
      * intros [= <- Hr]. eauto.
Qed.

Lemma py_strip_ends (s : string) :
  (forall c rest, py_strip s = String c rest -> py_isspace c = false) /\
  (forall front c, py_strip s = front +:+ String c "" -> py_isspace c = false).
Proof.
  unfold py_strip. split.
  - intros c rest H. destruct (py_rstrip_head _ _ _ H) as [rest' H'].
    eapply py_lstrip_head, H'.
  - intros front c. apply py_rstrip_last.
Qed.

Lemma is_usable_strip (field : string) :
  is_usable (py_strip field) = true -> usable_name (py_strip field).
Proof.
  unfold is_usable. intros H. apply andb_prop in H as [H1 H2].
  apply negb_true_iff in H1, H2. apply String.eqb_neq in H1, H2.
  split; [exact H1|]. split; [exact H2|]. apply py_strip_ends.
Qed.

Lemma usable_names (names : list string) :
  Forall usable_name (List.filter is_usable (map py_strip names)).
Proof.
  induction names as [|name names IH]; simpl; [constructor|].
  destruct (is_usable (py_strip name)) eqn:E; [|exact IH].
  constructor; [apply is_usable_strip, E | exact IH].
Qed.

Lemma load_row_step (row : gmap string (option string)) (w : world)
    (spaces : list string) :
  load_row row (w, spaces)
  = match row !! "space_name" with
    | Some (Some field) =>
        (Ok Continue,
         (w, if is_usable (py_strip field) then spaces ++ [py_strip field]
             else spaces))
    | Some None => (Raise AttributeError, (w, spaces))
    | None => (Raise KeyError, (w, spaces))
    end.
Proof.
  unfold load_row, space_name_of, bind, lift, assign, ret, is_usable.
  destruct (row !! "space_name") as [[field|]|]; cbn [fst snd]; try reflexivity.
  destruct (negb _ && negb _); reflexivity.
Qed.

(** The loop over the rows: it appends the usable names of the column, or
    raises at the first row that lacks the field. *)
Lemma for_each_load_row (rows : list (gmap string (option string)))
    (w : world) (spaces : list string) :
  match space_names rows with
  | Some names =>
      for_each load_row rows (w, spaces)
      = (Ok tt, (w, spaces ++ List.filter is_usable (map py_strip names)))
  | None =>
      exists e spaces', for_each load_row rows (w, spaces) = (Raise e, (w, spaces'))
  end.
Proof.
  revert spaces. induction rows as [|row rows IH]; intros spaces.
  - simpl. rewrite app_nil_r. reflexivity.
  - assert (Hstep : forall sp,
              for_each load_row (row :: rows) (w, sp)
              = match row !! "space_name" with
                | Some (Some field) =>
                    for_each load_row rows
                      (w, if is_usable (py_strip field)
                          then sp ++ [py_strip field] else sp)
                | Some None => (Raise AttributeError, (w, sp))
                | None => (Raise KeyError, (w, sp))
                end).
    { intros sp. cbn [for_each]. unfold bind. rewrite load_row_step.
      destruct (row !! "space_name") as [[field|]|]; reflexivity. }
    unfold space_names in *. cbn [mapM].
    destruct (row !! "space_name") as [[field|]|] eqn:Er; cbn -[for_each mapM];
      [|exists AttributeError, spaces; apply Hstep
       |exists KeyError, spaces; apply Hstep].
    destruct (is_usable (py_strip field)) eqn:E.
    + specialize (IH (spaces ++ [py_strip field])).
      destruct (mapM _ rows) as [names|]; cbn -[for_each].
      * rewrite Hstep, ?E, IH, ?E, <- ?app_assoc. reflexivity.
      * destruct IH as (e & spaces' & IH). exists e, spaces'.
        rewrite Hstep, ?E. exact IH.
    + specialize (IH spaces).
      destruct (mapM _ rows) as [names|]; cbn -[for_each].
      * rewrite Hstep, ?E, IH, ?E. reflexivity.
      * destruct IH as (e & spaces' & IH). exists e, spaces'.
        rewrite Hstep, ?E. exact IH.
Qed.

(** X15.  The space list is read as a whole or not at all: when every row
    has a field in the column [space_name], the loader returns the fields,
    stripped of the white space at their ends, that are neither empty nor
    the placeholder [My Project Space], in the order of the rows; when one
    row lacks the field, or the column, it returns no name at all, also
    not those of the rows before it. *)
Theorem space_list_is_read_whole_or_not (csv_filename : string)
    (rows : list (gmap string (option string))) (w : world) :
  fst (load_spaces_from_csv csv_filename (Rows rows) (w, []))
  = Ok (match space_names rows with
        | Some names => List.filter is_usable (map py_strip names)
        | None => []
        end).
Proof.
  pose proof (for_each_load_row rows w []) as H.
  unfold load_spaces_from_csv, try_except, bind at 1.
  destruct (space_names rows) as [names|].
  - rewrite H. unfold bind, read. cbn [fst snd app id].
    destruct (List.filter is_usable (map py_strip names)); reflexivity.
  - destruct H as (e & spaces' & ->). reflexivity.
Qed.

Lemma load_spaces_result (csv_filename : string) (source : space_list)
    (w : world) :
  exists spaces st',
    load_spaces_from_csv csv_filename source (w, []) = (Ok spaces, st') /\
    requests (fst st') = requests w /\
    Forall usable_name spaces.
Proof.
  destruct source as [|text|rows].
  - do 2 eexists. split; [reflexivity|]. split; [reflexivity | constructor].
  - do 2 eexists. split; [reflexivity|]. split; [reflexivity | constructor].
  - pose proof (for_each_load_row rows w []) as H.
    unfold load_spaces_from_csv, try_except, bind at 1.
    destruct (space_names rows) as [names|].
    + rewrite H. unfold bind, read. cbn [fst snd app id].
      pose proof (usable_names names) as Hu.
      destruct (List.filter is_usable (map py_strip names)) as [|s l].
      * do 2 eexists. split; [reflexivity|]. split; [reflexivity | constructor].
      * do 2 eexists. split; [reflexivity|]. split; [reflexivity | exact Hu].
    + destruct H as (e & spaces' & ->).
      do 2 eexists. split; [reflexivity|]. split; [reflexivity | constructor].
Qed.

(** X16.  Whatever reading the space list gives, the loader returns
    normally and sends no request, and every name it returns is usable:
    not empty, not the placeholder, and without white space at either
    end. *)
Theorem loaded_spaces_are_usable (csv_filename : string) (source : space_list)
    (w : world) :
  exists spaces st',
    load_spaces_from_csv csv_filename source (w, []) = (Ok spaces, st') /\
    requests (fst st') = requests w /\
    Forall usable_name spaces.
Proof. apply load_spaces_result. Qed.

(** The list of the example: a name with white space around it, the
    placeholder, and an empty field. *)
Example alpha_and_placeholder :
  fst (load_spaces_from_csv "space_list.csv"
         (Rows [{["space_name" := Some " Alpha "]};
                {["space_name" := Some "My Project Space"]};
                {["space_name" := Some ""]}])
         (World [] [], []))
  = Ok ["Alpha"].
Proof. vm_compute. reflexivity. Qed.

(** ** The summary of the entry point *)

Lemma string_keyed_find (d : list (pyval * pyval)) (k v : pyval) :
  string_keyed d -> lookup_find k d = Some v -> exists n, v = PInt n.
Proof.
  induction 1 as [|[k' v'] d (s & n & [= -> ->]) Hd IH]; cbn [lookup_find];
    [discriminate|].
  destruct (py_eq (PStr s) k); [intros [= <-]; eauto | exact IH].
Qed.

Lemma string_keyed_set (d : list (pyval * pyval)) (s : string) (n : Z) :
  string_keyed d -> string_keyed (lookup_set (PStr s) (PInt n) d).
Proof.
  induction 1 as [|[k' v'] d (s' & n' & [= -> ->]) Hd IH]; simpl.
  - repeat constructor. eauto.
  - destruct (String.eqb s' s); constructor; eauto.
Qed.

Lemma lookup_find_set (d : list (pyval * pyval)) (s t : string) (v : pyval) :
  string_keyed d ->
  lookup_find (PStr t) (lookup_set (PStr s) v d)
  = if String.eqb s t then Some v else lookup_find (PStr t) d.
Proof.
  induction 1 as [|[k' v'] d (s' & n' & [= -> ->]) Hd IH]; simpl; [reflexivity|].
  destruct (String.eqb s' s) eqn:E; simpl.
  - apply String.eqb_eq in E. subst s'. destruct (String.eqb s t); reflexivity.
  - rewrite IH. destruct (String.eqb s' t) eqn:E'; [|reflexivity].
    apply String.eqb_eq in E'. subst s'.
    rewrite String.eqb_sym in E. rewrite E. reflexivity.
Qed.

(** One record more: its name is counted once more, the others as
    before. *)
Lemma count_record_step (repo : gmap string pyval) (s : string) (w : world)
    (d : list (pyval * pyval)) :
  string_keyed d ->
  dget repo "space_name" (PStr "Unknown") = PStr s ->
  exists d',
    count_record repo (w, d) = (Ok Continue, (w, d')) /\
    string_keyed d' /\
    forall t, tally d' t = tally d t + (if String.eqb s t then 1 else 0).
Proof.
  intros Hd Hs. unfold count_record. rewrite Hs.
  unfold bind, read, lift, lookup_has, assign, ret. cbn [hashable fst snd id].
  destruct (lookup_find (PStr s) d) as [v|] eqn:Hfind.
  - destruct (string_keyed_find _ _ _ Hd Hfind) as [n ->].
    rewrite bool_decide_eq_true_2 by eauto. cbn [negb fst snd]. rewrite Hfind.
    eexists. split; [reflexivity|]. split; [apply string_keyed_set, Hd|].
    intros t. unfold tally. rewrite lookup_find_set by exact Hd.
    destruct (String.eqb s t) eqn:E; [|symmetry; apply Z.add_0_r].
    apply String.eqb_eq in E. subst t. rewrite Hfind. reflexivity.
  - rewrite bool_decide_eq_false_2 by (intros [x Hx]; discriminate).
    cbn [negb fst snd].
    rewrite lookup_find_set, String.eqb_refl by exact Hd.
    eexists. split; [reflexivity|].
    split; [apply string_keyed_set, string_keyed_set, Hd|].
    intros t. unfold tally. cbn [fst snd].
    rewrite !lookup_find_set by (try apply string_keyed_set; exact Hd).
    destruct (String.eqb s t) eqn:E; [|symmetry; apply Z.add_0_r].
    apply String.eqb_eq in E. subst t. rewrite Hfind. reflexivity.
Qed.

Lemma for_each_count_record (repositories : list (gmap string pyval)) (w : world)
    (d : list (pyval * pyval)) :
  string_keyed d -> Forall named repositories ->
  exists d',
    for_each count_record repositories (w, d) = (Ok tt, (w, d')) /\
    string_keyed d' /\
    forall t,
      tally d' t
      = tally d t +
        Z.of_nat (length (List.filter (fun repo => counted_under repo t) repositories)).
Proof.
  intros Hd Hnamed. revert d Hd.
  induction Hnamed as [|repo repositories [s Hs] _ IH]; intros d Hd.
  - exists d. split; [reflexivity|]. split; [exact Hd|]. intros t. simpl. lia.
  - destruct (count_record_step repo s w d Hd Hs) as (d1 & Hrun & Hd1 & Htally).
    destruct (IH d1 Hd1) as (d' & Hrun' & Hd' & Htally').
    exists d'. split; [|split; [exact Hd'|]].
    + cbn [for_each]. unfold bind. rewrite Hrun. exact Hrun'.
    + intros t. rewrite Htally', Htally. cbn [List.filter].
      unfold counted_under at 2. rewrite Hs. cbn [py_eq].
      destruct (String.eqb s t); cbn [length]; lia.
Qed.

Lemma summarize_result (repositories : list (gmap string pyval)) (w : world) :
  Forall named repositories ->
  exists summary,
    summarize repositories (w, []) = (Ok summary, (w, summary)) /\
    forall space_name,
      tally summary space_name
      = Z.of_nat (length (List.filter (fun repo => counted_under repo space_name)
                                      repositories)).
Proof.
  intros Hnamed.
  destruct (for_each_count_record repositories w [] (List.Forall_nil _) Hnamed)
    as (d' & Hrun & _ & Htally).
  exists d'. split.
  - unfold summarize, bind. rewrite Hrun. reflexivity.
  - intros t. rewrite Htally. reflexivity.
Qed.

(** X17.  When every record is counted under a string, its space name or
    [Unknown] for a record without one, the summary of the entry point is
    built without an exception and holds, for every name, the number of
    the records counted under it. *)
Theorem summary_counts_the_records_of_each_space
    (repositories : list (gmap string pyval)) (w : world) :
  Forall named repositories ->
  exists summary,
    summarize repositories (w, []) = (Ok summary, (w, summary)) /\
    forall space_name,
      tally summary space_name
      = Z.of_nat (length (List.filter (fun repo => counted_under repo space_name)
                                      repositories)).
Proof. apply summarize_result. Qed.

Lemma summary_counts_the_records_of_each_space_witness :
  exists summary,
    summarize [{["space_name" := PStr "alpha"]}; {["space_name" := PStr "beta"]};
               {["id" := PInt 3]}; {["space_name" := PStr "alpha"]}]
      (World [] [], []) = (Ok summary, (World [] [], summary)) /\
    forall space_name,
      tally summary space_name
      = Z.of_nat
          (length
             (List.filter (fun repo => counted_under repo space_name)
                [{["space_name" := PStr "alpha"]}; {["space_name" := PStr "beta"]};
                 {["id" := PInt 3]}; {["space_name" := PStr "alpha"]}])).
Proof.
  apply (summary_counts_the_records_of_each_space
           [{["space_name" := PStr "alpha"]}; {["space_name" := PStr "beta"]};
            {["id" := PInt 3]}; {["space_name" := PStr "alpha"]}]
           (World [] [])).
  repeat constructor; eexists; vm_compute; reflexivity.
Defined.

(** On these four records the summary holds the three names in the order
    of their first record. *)
Example summary_in_order_of_appearance :
  fst (summarize [{["space_name" := PStr "alpha"]}; {["space_name" := PStr "beta"]};
                  {["id" := PInt 3]}; {["space_name" := PStr "alpha"]}]
         (World [] [], []))
  = Ok [(PStr "alpha", PInt 2); (PStr "beta", PInt 1); (PStr "Unknown", PInt 1)].
Proof. vm_compute. reflexivity. Qed.

(** ** The entry point *)

Section EntryPoint.
Variable repr_other : pyval -> string.
Variable env : list request -> request -> outcome.

Lemma load_and_fetch_result (api_key api_secret : option string)
    (source : space_list) (st : world * unit) :
  exists spaces fetched,
    fst (load_spaces_from_csv "space_list.csv" source (fst st, [])) = Ok spaces /\
    Forall usable_name spaces /\
    fst (load_and_fetch repr_other env api_key api_secret source st) = Ok fetched /\
    Forall (belongs_to spaces) (records_of fetched).
Proof.
  destruct (load_spaces_result "space_list.csv" source (fst st))
    as (spaces & st' & Hrun & _ & Husable).
  unfold load_and_fetch, bind, call. rewrite Hrun. destruct st' as [w' l'].
  cbn [fst snd]. unfold fetch_all_repositories.
  destruct spaces as [|s spaces].
  - exists [], None. repeat split; constructor.
  - destruct (fetch_spaces_result repr_other env api_key api_secret (s :: spaces) []
                (w', snd st)) as (added & Hfst & Hbelong).
    exists (s :: spaces), (Some added). split; [reflexivity|].
    split; [exact Husable|]. split; [|exact Hbelong].
    unfold bind, ret.
    destruct (fetch_spaces repr_other env api_key api_secret (s :: spaces) []
                (w', snd st)) as [r st2].
    cbn [fst] in Hfst. subst r. reflexivity.
Qed.

(** X18.  The entry point never raises, whatever the credentials, the
    space list, the answers of the service and the file system.  After
    its two banner lines it loads the space list, whose names are all
    usable, and fetches; every record fetched carries the name of one of
    the spaces loaded; and the file it leaves is the report of exactly the
    records fetched: none when nothing was fetched or [open] failed, else
    the file named after the time stamp with the header row and one row
    for each record fetched, cut after [k] rows when the writer fails
    there. *)
Theorem entry_point_reports_or_gives_up (api_key api_secret : option string)
    (source : space_list) (timestamp : string) (d : disk) (w : world) :
  exists spaces fetched,
    fst (load_spaces_from_csv "space_list.csv" source
           (World (requests w)
              (output w ++
               [Message "Assembla Repositories Metadata Fetcher (Multiple Spaces)" [];
                Message "============================================================" []]),
            [])) = Ok spaces /\
    Forall usable_name spaces /\
    fst (load_and_fetch repr_other env api_key api_secret source
           (World (requests w)
              (output w ++
               [Message "Assembla Repositories Metadata Fetcher (Multiple Spaces)" [];
                Message "============================================================" []]),
            tt)) = Ok fetched /\
    Forall (belongs_to spaces) (records_of fetched) /\
    fst (main repr_other env api_key api_secret source timestamp d (w, tt))
    = Ok (report_of timestamp d fetched).
Proof.
  set (w2 := World (requests w)
               (output w ++
                [Message "Assembla Repositories Metadata Fetcher (Multiple Spaces)" [];
                 Message "============================================================" []])).
  destruct (load_and_fetch_result api_key api_secret source (w2, tt))
    as (spaces & fetched & Hload & Husable & Hfetch & Hbelong).
  exists spaces, fetched. split; [exact Hload|]. split; [exact Husable|].
  split; [exact Hfetch|]. split; [exact Hbelong|].
  change (post (main repr_other env api_key api_secret source timestamp d)
            (w, tt) (fun r _ => r = Ok (report_of timestamp d fetched))).
  unfold main. do 2 (apply post_bind, post_print; cbv beta iota).
  cbn [fst snd requests output]. rewrite <- app_assoc. cbn [app]. fold w2.
  apply post_bind. unfold post at 1.
  destruct (load_and_fetch repr_other env api_key api_secret source (w2, tt))
    as [r0 st1].
  cbn [fst] in Hfetch. subst r0. cbn [fst snd].
  destruct fetched as [[|r rs]|]; try (wps; reflexivity).
  cbn [records_of] in Hbelong.
  cbv zeta. do 2 (apply post_bind, post_print; cbv beta iota).
  assert (Hnamed : Forall named (r :: rs)).
  { eapply Forall_impl; [exact Hbelong|]. intros repo (name & _ & Hrec).
    exists name. unfold dget. rewrite Hrec. reflexivity. }
  apply post_bind, post_call.
  match goal with
  | |- post _ (?w0, []) _ =>
      destruct (summarize_result (r :: rs) w0 Hnamed) as (summary & Hrun & _)
  end.
  unfold post at 1. rewrite Hrun. cbn [fst snd].
  apply post_bind, post_print. cbv beta iota.
  apply post_bind.
  apply post_for_each with (inv := fun _ => True); [exact I | |].
  { intros entry st0 _ _. wps. exact I. }
  intros st2 _. cbv beta iota.
  apply post_bind, post_call.
  eapply post_run; [apply save_result|]. cbn [fst snd].
  wps. reflexivity.
Qed.

End EntryPoint.

(** A run on the service with one imported repository writes the header
    and one row, for the space [demo]. *)
Example entry_point_run :
  exists file st',
    main plain_repr imported_repository (Some "key") (Some "secret")
      (Rows [{["space_name" := Some "demo"]}]) "20240501_100000" Writes
      (World [] [], tt) = (Ok file, st') /\
    match file with
    | Some (csv_filename, [header; row]) =>
        csv_filename = "assembla_repositories_20240501_100000.csv" /\
        row !! 0%nat = Some (PStr "demo") /\ row !! 15%nat = Some (PStr "Imported")
    | _ => False
    end.
Proof. apply run_ok. vm_compute. repeat split. Qed.

(** ** A detail record that cannot be merged *)

Section BadSize.
Variable repr_other : pyval -> string.
Variable env : list request -> request -> outcome.

Lemma merge_tool_bad_size (space_name : string) (repos_lookup : list (pyval * pyval))
    (tool : pyval) (st : world * unit) :
  bad_size repos_lookup tool ->
  post (merge_tool repr_other env space_name repos_lookup tool) st
    (fun r _ => exists e, r = Raise e).
Proof.
  intros (dt & d & -> & Hty & Hhash & Hfind & Hgt).
  unfold merge_tool. apply post_bind, post_lift. cbn [py_get].
  fold (tool_field dt "type"). rewrite Hty.
  do 5 (apply post_bind, post_lift; cbn [py_get]).
  fold (tool_field dt "id").
  apply post_bind, post_lift. unfold lookup_has. rewrite Hhash, Hfind.
  rewrite bool_decide_eq_true_2 by eauto.
  apply post_bind. unfold attach_detail. cbn [default from_option id].
  apply post_bind, post_lift. cbn [py_get].
  apply post_bind, post_lift. unfold size_in_mb. rewrite Hgt. eauto.
Qed.

Lemma merge_tools_bad_size (space_name : string) (repos_lookup : list (pyval * pyval))
    (tools : list pyval) (tool : pyval) (repositories : list (gmap string pyval))
    (st : world * unit) :
  tool ∈ tools -> bad_size repos_lookup tool ->
  post (merge_tools repr_other env space_name repos_lookup tools repositories) st
    (fun r _ => exists e, r = Raise e).
Proof.
  intros Hin Hbad. revert repositories st.
  induction tools as [|t tools IH]; intros repositories st; [inversion Hin|].
  cbn [merge_tools]. apply post_bind.
  apply elem_of_cons in Hin as [<- | Hin].
  - eapply post_mono; [apply merge_tool_bad_size, Hbad|].
    intros r st' [e ->]. eauto.
  - apply post_any. intros [[record|]|e] st'; eauto.
Qed.

(** X19.  One detail record whose size cannot be compared with 0, such as
    a JSON null, loses the whole space: when both listings arrive and
    decode, and some repository tool has such a detail record, the lister
    returns [None], also when other tools of the space could be merged. *)
Theorem bad_size_loses_the_space (api_key api_secret : option string)
    (space_name : string) (w : world) (r1 r2 : response)
    (details_body tools_body : pyval) (details tools : list pyval)
    (repos_lookup : list (pyval * pyval)) (tool : pyval) :
  credentials_ok api_key api_secret = true ->
  env (requests w) (Request (api +:+ space_name +:+ "/repos.json") None)
    = Received r1 ->
  accepted r1 = true -> json_body r1 = Some details_body ->
  py_iter details_body = Ok details -> build_lookup details [] = Ok repos_lookup ->
  env (requests w ++ [Request (api +:+ space_name +:+ "/repos.json") None])
      (Request (api +:+ space_name +:+ "/space_tools.json") None)
    = Received r2 ->
  accepted r2 = true -> json_body r2 = Some tools_body ->
  py_iter tools_body = Ok tools ->
  tool ∈ tools -> bad_size repos_lookup tool ->
  fst (fetch_assembla_repositories_for_space repr_other env api_key api_secret
         space_name (w, tt))
  = Ok None.
Proof.
  intros Hcred Hr1 Ha1 Hb1 Hd Hl Hr2 Ha2 Hb2 Ht Hin Hbad.
  change (post (fetch_assembla_repositories_for_space repr_other env api_key
                  api_secret space_name) (w, tt) (fun r _ => r = Ok None)).
  unfold accepted in Ha1, Ha2. apply negb_true_iff in Ha1, Ha2.
  unfold fetch_assembla_repositories_for_space. rewrite Hcred. cbn [negb].
  do 2 (apply post_bind, post_print; cbv beta iota).
  apply post_try. apply post_bind, post_print. cbv beta iota.
  apply post_bind, post_requests_get. intros o Ho.
  cbn [fst snd requests output] in Ho. rewrite Hr1 in Ho. subst o. cbv beta iota.
  apply post_bind. unfold raise_for_status. rewrite Ha1. apply post_ret.
  apply post_bind. unfold response_json. rewrite Hb1. apply post_lift.
  apply post_bind, post_lift. rewrite Hd.
  apply post_bind, post_lift. rewrite Hl.
  apply post_bind, post_print. cbv beta iota.
  apply post_bind, post_requests_get. intros o Ho.
  cbn [fst snd requests output] in Ho. rewrite Hr2 in Ho. subst o. cbv beta iota.
  apply post_bind. unfold raise_for_status. rewrite Ha2. apply post_ret.
  apply post_bind. unfold response_json. rewrite Hb2. apply post_lift.
  apply post_bind, post_lift. rewrite Ht.
  apply post_bind.
  eapply post_mono; [eapply merge_tools_bad_size; eauto|].
  intros r st' [e ->]. destruct e; wps; reflexivity.
Qed.

End BadSize.

Lemma bad_size_loses_the_space_witness :
  fst (fetch_assembla_repositories_for_space plain_repr null_size (Some "key")
         (Some "secret") "demo" (World [] [], tt))
  = Ok None.
Proof.
  apply (bad_size_loses_the_space plain_repr null_size (Some "key") (Some "secret")
           "demo" (World [] [])
           (json (PList [PDict [("id", PInt 7); ("size", PNone)]]))
           (json (PList [PDict [("id", PInt 7); ("type", PStr "SubversionTool")]]))
           (PList [PDict [("id", PInt 7); ("size", PNone)]])
           (PList [PDict [("id", PInt 7); ("type", PStr "SubversionTool")]])
           [PDict [("id", PInt 7); ("size", PNone)]]
           [PDict [("id", PInt 7); ("type", PStr "SubversionTool")]]
           [(PInt 7, PDict [("id", PInt 7); ("size", PNone)])]
           (PDict [("id", PInt 7); ("type", PStr "SubversionTool")]));
    try reflexivity.
  - left.
  - exists [("id", PInt 7); ("type", PStr "SubversionTool")],
           [("id", PInt 7); ("size", PNone)].
    repeat split.
Defined.
